(** * Applicator: a shallow embedding of the job-application pipeline

    The Python sources (ollama_client.py, storage.py, email_parser.py,
    job_scorer.py, company_researcher.py, resume_parser.py, gmail_client.py,
    drive_client.py, material_generator.py, main.py) are embedded as Rocq
    functions.  Python values decoded from JSON are an inductive type,
    dictionaries are finite maps, exceptions are an explicit result type,
    and the stateful part of the program (the jobs directory, the resume
    cache, the traffic with the language model, the mailbox and the web) is
    threaded through a state-and-exception monad.

    Text is modelled as [string], a sequence of 8-bit characters: the
    embedding is exact on ASCII text, and a character outside ASCII is the
    sequence of its UTF-8 bytes (so [s[:n]] counts bytes there).

    Left out: the construction of the clients (authentication, creation of
    the directories and of the vector index), the vector index itself, which
    nothing reads back, and the reading of the command line. *)

From Stdlib Require Import ZArith String Ascii List Bool Lia.
From Stdlib Require Import Floats.SpecFloat Sorting.Sorted.
From stdpp Require Import gmap strings list fin_maps pretty.

Set Warnings "-register-all".
Local Open Scope string_scope.
Local Open Scope Z_scope.

(** ** Python strings *)

Module PyStr.

Definition code (c : ascii) : nat := nat_of_ascii c.

(** [str.isspace] on ASCII: TAB..CR, FS..US and the blank.  The regular
    expression class [\s] agrees with it on ASCII. *)
Definition is_space (c : ascii) : bool :=
  let n := code c in
  ((9 <=? n) && (n <=? 13) || (28 <=? n) && (n <=? 32))%nat.

(** White space as [int()] skips it around a literal: TAB..CR and the
    blank only. *)
Definition is_c_space (c : ascii) : bool :=
  let n := code c in
  ((9 <=? n) && (n <=? 13) || (n =? 32))%nat.

Fixpoint lstrip_by (sp : ascii -> bool) (s : string) : string :=
  match s with
  | String c rest => if sp c then lstrip_by sp rest else s
  | EmptyString => EmptyString
  end.

(** A character is kept when something that is not white space comes at
    or after it. *)
Fixpoint rstrip_by (sp : ascii -> bool) (s : string) : string :=
  match s with
  | String c rest =>
      match rstrip_by sp rest with
      | EmptyString => if sp c then EmptyString else String c EmptyString
      | kept => String c kept
      end
  | EmptyString => EmptyString
  end.

Definition lstrip : string -> string := lstrip_by is_space.

(** [s.strip()] *)
Definition strip (s : string) : string := rstrip_by is_space (lstrip s).

(** [s[:n]] *)
Fixpoint take (n : nat) (s : string) : string :=
  match n, s with
  | S k, String c rest => String c (take k rest)
  | _, _ => EmptyString
  end.

(** [s[n:]] *)
Fixpoint drop (n : nat) (s : string) : string :=
  match n, s with
  | S k, String _ rest => drop k rest
  | _, _ => s
  end.

Definition lower_char (c : ascii) : ascii :=
  let n := code c in
  if ((65 <=? n) && (n <=? 90))%nat then ascii_of_nat (n + 32) else c.

Fixpoint lower (s : string) : string :=
  match s with
  | String c rest => String (lower_char c) (lower rest)
  | EmptyString => EmptyString
  end.

(** [needle in hay] *)
Fixpoint contains (needle hay : string) : bool :=
  String.prefix needle hay ||
  match hay with
  | String _ rest => contains needle rest
  | EmptyString => false
  end.

(** [sep.join(parts)] *)
Fixpoint join (sep : string) (parts : list string) : string :=
  match parts with
  | [] => ""
  | [p] => p
  | p :: rest => p +:+ sep +:+ join sep rest
  end.

(** The characters of a string, as [for ch in s] yields them. *)
Fixpoint chars (s : string) : list string :=
  match s with
  | String c rest => String c EmptyString :: chars rest
  | EmptyString => []
  end.

Definition nl : string := String (ascii_of_nat 10) EmptyString.
Definition dquote : string := String (ascii_of_nat 34) EmptyString.
Definition quoted (s : string) : string := dquote +:+ s +:+ dquote.

(** A text given line by line. *)
Definition lines (ls : list string) : string := join nl ls.

(** Pieces of the JSON examples that the prompts show. *)
Definition json_field (k v : string) : string := "  " +:+ quoted k +:+ ": " +:+ v.
Definition json_strings (items : list string) : string :=
  "[" +:+ join ", " (map quoted items) +:+ "]".
Definition json_object (fields : list (string * string)) : string :=
  "{" +:+ join ", " (map (fun kv => quoted (fst kv) +:+ ": " +:+ snd kv) fields) +:+ "}".

End PyStr.

(** ** MD5 (hashlib.md5), RFC 1321, on 32-bit words held in [Z] *)

Module MD5.

Definition mask32 (x : Z) : Z := Z.land x 0xFFFFFFFF.
Definition not32 (x : Z) : Z := Z.lxor x 0xFFFFFFFF.
Definition add32 (x y : Z) : Z := mask32 (x + y).
Definition rotl32 (x : Z) (c : Z) : Z :=
  mask32 (Z.lor (Z.shiftl x c) (Z.shiftr x (32 - c))).

Definition shifts : list Z :=
  [7; 12; 17; 22; 7; 12; 17; 22; 7; 12; 17; 22; 7; 12; 17; 22;
   5; 9; 14; 20; 5; 9; 14; 20; 5; 9; 14; 20; 5; 9; 14; 20;
   4; 11; 16; 23; 4; 11; 16; 23; 4; 11; 16; 23; 4; 11; 16; 23;
   6; 10; 15; 21; 6; 10; 15; 21; 6; 10; 15; 21; 6; 10; 15; 21].

(** [K[i] = floor(2^32 * |sin(i + 1)|)] *)
Definition K : list Z :=
  [0xd76aa478; 0xe8c7b756; 0x242070db; 0xc1bdceee;
   0xf57c0faf; 0x4787c62a; 0xa8304613; 0xfd469501;
   0x698098d8; 0x8b44f7af; 0xffff5bb1; 0x895cd7be;
   0x6b901122; 0xfd987193; 0xa679438e; 0x49b40821;
   0xf61e2562; 0xc040b340; 0x265e5a51; 0xe9b6c7aa;
   0xd62f105d; 0x02441453; 0xd8a1e681; 0xe7d3fbc8;
   0x21e1cde6; 0xc33707d6; 0xf4d50d87; 0x455a14ed;
   0xa9e3e905; 0xfcefa3f8; 0x676f02d9; 0x8d2a4c8a;
   0xfffa3942; 0x8771f681; 0x6d9d6122; 0xfde5380c;
   0xa4beea44; 0x4bdecfa9; 0xf6bb4b60; 0xbebfbc70;
   0x289b7ec6; 0xeaa127fa; 0xd4ef3085; 0x04881d05;
   0xd9d4d039; 0xe6db99e5; 0x1fa27cf8; 0xc4ac5665;
   0xf4292244; 0x432aff97; 0xab9423a7; 0xfc93a039;
   0x655b59c3; 0x8f0ccc92; 0xffeff47d; 0x85845dd1;
   0x6fa87e4f; 0xfe2ce6e0; 0xa3014314; 0x4e0811a1;
   0xf7537e82; 0xbd3af235; 0x2ad7d2bb; 0xeb86d391].

Record state := State { sa : Z; sb : Z; sc : Z; sd : Z }.

Definition init : state :=
  State 0x67452301 0xefcdab89 0x98badcfe 0x10325476.

(** One of the 64 operations of a block; [M] holds its 16 words. *)
Definition step (M : list Z) (st : state) (i : nat) : state :=
  let '(State a b c d) := st in
  let '(f, g) :=
    if (i <? 16)%nat then (Z.lor (Z.land b c) (Z.land (not32 b) d), i)
    else if (i <? 32)%nat then
      (Z.lor (Z.land d b) (Z.land (not32 d) c), ((5 * i + 1) mod 16)%nat)
    else if (i <? 48)%nat then
      (Z.lxor (Z.lxor b c) d, ((3 * i + 5) mod 16)%nat)
    else (Z.lxor c (Z.lor b (not32 d)), ((7 * i) mod 16)%nat) in
  let f' := mask32 (f + a + nth i K 0 + nth g M 0) in
  State d (add32 b (rotl32 f' (nth i shifts 0))) b c.

(** Little-endian word of four bytes. *)
Definition word_of_bytes (bs : list Z) : Z :=
  nth 0 bs 0 + 256 * (nth 1 bs 0 + 256 * (nth 2 bs 0 + 256 * nth 3 bs 0)).

Fixpoint words (n : nat) (bs : list Z) : list Z :=
  match n with
  | O => []
  | S k => word_of_bytes (firstn 4 bs) :: words k (skipn 4 bs)
  end.

Definition process_block (st : state) (block : list Z) : state :=
  let r := fold_left (step (words 16 block)) (seq 0 64) st in
  State (add32 (sa st) (sa r)) (add32 (sb st) (sb r))
        (add32 (sc st) (sc r)) (add32 (sd st) (sd r)).

Fixpoint process (n : nat) (bs : list Z) (st : state) : state :=
  match n with
  | O => st
  | S k => process k (skipn 64 bs) (process_block st (firstn 64 bs))
  end.

Fixpoint le_bytes (n : nat) (x : Z) : list Z :=
  match n with
  | O => []
  | S k => (x mod 256) :: le_bytes k (x / 256)
  end.

(** The message, a single 1 bit, zeros up to 56 modulo 64 bytes, and the
    bit length of the message on 64 bits. *)
Definition pad (msg : list Z) : list Z :=
  let len := length msg in
  let zeros := ((55 + 64 - len mod 64) mod 64)%nat in
  msg ++ [0x80] ++ repeat 0 zeros
      ++ le_bytes 8 ((8 * Z.of_nat len) mod 2 ^ 64).

Definition bytes_of_string (s : string) : list Z :=
  map (fun c => Z.of_nat (nat_of_ascii c)) (list_ascii_of_string s).

Definition digest (s : string) : list Z :=
  let padded := pad (bytes_of_string s) in
  let r := process (length padded / 64) padded init in
  le_bytes 4 (sa r) ++ le_bytes 4 (sb r) ++ le_bytes 4 (sc r) ++ le_bytes 4 (sd r).

Definition hex_digit (x : Z) : ascii :=
  nth (Z.to_nat (x mod 16)) (list_ascii_of_string "0123456789abcdef") "0"%char.

Definition hex_byte (b : Z) (rest : string) : string :=
  String (hex_digit (b / 16)) (String (hex_digit b) rest).

(** [hashlib.md5(s.encode()).hexdigest()] *)
Definition hexdigest (s : string) : string :=
  fold_right hex_byte EmptyString (digest s).

End MD5.

(** ** Python values and exceptions *)

(** What [json.loads] can return: [None], booleans, integers, floats
    (IEEE 754 binary64, with the infinities and NaN that Python's decoder
    accepts), strings, lists and dictionaries. *)
Inductive value : Type :=
| VNone
| VBool (b : bool)
| VInt (n : Z)
| VFloat (f : spec_float)
| VStr (s : string)
| VList (l : list value)
| VDict (d : gmap string value).

Abbreviation Dict := (gmap string value).

Inductive exn_class :=
| Exception | ValueError | JSONDecodeError | TypeError | OverflowError
| KeyError | OSError | ConnectionError | HttpError.

(** An exception, that is an instance of [Exception]: its class and
    [str(e)].  ([KeyboardInterrupt] and the like, which no handler of the
    program catches, are not modelled.) *)
Record exn := Exn { exn_cls : exn_class; exn_msg : string }.

Definition exn_class_eqb (c d : exn_class) : bool :=
  match c, d with
  | Exception, Exception | ValueError, ValueError
  | JSONDecodeError, JSONDecodeError | TypeError, TypeError
  | OverflowError, OverflowError | KeyError, KeyError | OSError, OSError
  | ConnectionError, ConnectionError | HttpError, HttpError => true
  | _, _ => false
  end.

(** [issubclass]: every class derives from [Exception], [JSONDecodeError]
    from [ValueError] and [ConnectionError] from [OSError]. *)
Definition subclass (c d : exn_class) : bool :=
  exn_class_eqb c d ||
  match c, d with
  | _, Exception => true
  | JSONDecodeError, ValueError => true
  | ConnectionError, OSError => true
  | _, _ => false
  end.

Definition isinstance (e : exn) (c : exn_class) : bool := subclass (exn_cls e) c.

Inductive result (A : Type) : Type :=
| Ok (a : A)
| Raise (e : exn).
Arguments Ok {A} a.
Arguments Raise {A} e.

Definition result_bind {A B} (r : result A) (k : A -> result B) : result B :=
  match r with
  | Ok a => k a
  | Raise e => Raise e
  end.

(** The texts of the [TypeError]s and [ValueError]s of the built-in
    functions below are abridged: CPython adds the offending value or its
    type to them. *)
Definition type_error {A} (msg : string) : result A := Raise (Exn TypeError msg).
Definition value_error {A} (msg : string) : result A := Raise (Exn ValueError msg).

Module Py.

(** [bool(v)] *)
Definition truthy (v : value) : bool :=
  match v with
  | VNone => false
  | VBool b => b
  | VInt n => negb (n =? 0)
  | VFloat (S754_zero _) => false
  | VFloat _ => true
  | VStr s => negb (String.eqb s "")
  | VList l => match l with [] => false | _ => true end
  | VDict d => match map_to_list d with [] => false | _ => true end
  end.

(** [d.get(k, default)] *)
Definition get (d : Dict) (k : string) (default : value) : value :=
  match d !! k with
  | Some v => v
  | None => default
  end.

(** [k in d] *)
Definition has_key (d : Dict) (k : string) : bool :=
  match d !! k with
  | Some _ => true
  | None => false
  end.

(** [v == s] for a string [s] *)
Definition eq_str (v : value) (s : string) : bool :=
  match v with
  | VStr t => String.eqb t s
  | _ => false
  end.

(** [v == 0] *)
Definition eq_zero (v : value) : bool :=
  match v with
  | VInt n => n =? 0
  | VBool b => negb b
  | VFloat (S754_zero _) => true
  | _ => false
  end.

(** The integer part of a finite float, towards zero. *)
Definition trunc_float (s : bool) (m : positive) (e : Z) : Z :=
  let magnitude :=
    if 0 <=? e then Z.shiftl (Z.pos m) e else Z.shiftr (Z.pos m) (- e) in
  if s then - magnitude else magnitude.

Definition is_digit (c : ascii) : bool :=
  let n := PyStr.code c in ((48 <=? n) && (n <=? 57))%nat.

(** Decimal digits with single underscores between them. *)
Fixpoint digits (acc : Z) (after_digit : bool) (s : string) : option Z :=
  match s with
  | EmptyString => if after_digit then Some acc else None
  | String c rest =>
      if is_digit c then
        digits (10 * acc + Z.of_nat (PyStr.code c - 48)) true rest
      else if Ascii.eqb c "_" && after_digit then digits acc false rest
      else None
  end.

(** [int(s)] for a string: white space around an optionally signed
    decimal literal.  (CPython 3.11 and later also refuse, with
    [ValueError], literals of more than 4300 digits.) *)
Definition int_of_str (s : string) : option Z :=
  match PyStr.rstrip_by PyStr.is_c_space (PyStr.lstrip_by PyStr.is_c_space s) with
  | String "-" rest => option_map Z.opp (digits 0 false rest)
  | String "+" rest => digits 0 false rest
  | body => digits 0 false body
  end.

(** [int(v)] *)
Definition int (v : value) : result Z :=
  match v with
  | VInt n => Ok n
  | VBool b => Ok (if b then 1 else 0)
  | VFloat (S754_zero _) => Ok 0
  | VFloat (S754_finite s m e) => Ok (trunc_float s m e)
  | VFloat (S754_infinity _) =>
      Raise (Exn OverflowError "cannot convert float infinity to integer")
  | VFloat S754_nan => value_error "cannot convert float NaN to integer"
  | VStr s =>
      match int_of_str s with
      | Some n => Ok n
      | None => value_error "invalid literal for int() with base 10"
      end
  | VNone | VList _ | VDict _ =>
      type_error "int() argument must be a string, a bytes-like object or a real number"
  end.

(** [len(v)] *)
Definition len (v : value) : result nat :=
  match v with
  | VStr s => Ok (String.length s)
  | VList l => Ok (length l)
  | VDict d => Ok (size d)
  | _ => type_error "object has no len()"
  end.

(** [v[:n]]; a dictionary refuses a slice (with [TypeError] up to
    CPython 3.11, [KeyError] from 3.12). *)
Definition slice_to (n : nat) (v : value) : result value :=
  match v with
  | VStr s => Ok (VStr (PyStr.take n s))
  | VList l => Ok (VList (firstn n l))
  | _ => type_error "object is not subscriptable"
  end.

Fixpoint strings_of (items : list value) : result (list string) :=
  match items with
  | [] => Ok []
  | VStr s :: rest => result_bind (strings_of rest) (fun ss => Ok (s :: ss))
  | _ :: _ => type_error "sequence item: expected str instance"
  end.

(** [sep.join(v)]: [v] is iterated, and every item must be a string.  A
    dictionary yields its keys (here in the order of [map_to_list], the
    model does not record insertion order). *)
Definition join (sep : string) (v : value) : result string :=
  match v with
  | VList l => result_bind (strings_of l) (fun ss => Ok (PyStr.join sep ss))
  | VStr s => Ok (PyStr.join sep (PyStr.chars s))
  | VDict d => Ok (PyStr.join sep (map fst (map_to_list d)))
  | _ => type_error "can only join an iterable"
  end.

(** A float compared with an integer, exactly, as CPython does; [None]
    for NaN. *)
Definition float_compare_int (f : spec_float) (n : Z) : option comparison :=
  match f with
  | S754_nan => None
  | S754_infinity s => Some (if s then Lt else Gt)
  | S754_zero _ => Some (0 ?= n)
  | S754_finite s m e =>
      let sm := if s then Z.neg m else Z.pos m in
      Some (if 0 <=? e then Z.shiftl sm e ?= n else sm ?= Z.shiftl n (- e))
  end.

Definition int_of_bool (b : bool) : Z := if b then 1 else 0.

(** [a ?= b] on numbers ([bool] is a subclass of [int]); [None] when one
    side is NaN or not a number. *)
Definition num_compare (a b : value) : option comparison :=
  let as_num v :=
    match v with
    | VInt n => Some (inl n)
    | VBool b => Some (inl (int_of_bool b))
    | VFloat f => Some (inr f)
    | _ => None
    end in
  match as_num a, as_num b with
  | Some (inl x), Some (inl y) => Some (x ?= y)
  | Some (inr f), Some (inl y) => float_compare_int f y
  | Some (inl x), Some (inr g) => option_map CompOpp (float_compare_int g x)
  | Some (inr f), Some (inr g) => SFcompare f g
  | _, _ => None
  end.

Definition is_number (v : value) : bool :=
  match v with
  | VInt _ | VBool _ | VFloat _ => true
  | _ => false
  end.

(** [v >= n] for an integer [n]: [TypeError] unless [v] is a number. *)
Definition ge_int (v : value) (n : Z) : result bool :=
  if is_number v then
    Ok (match num_compare v (VInt n) with
        | Some Gt | Some Eq => true
        | _ => false
        end)
  else type_error "'>=' not supported between these instances".

(** [a < b] between sort keys that are numbers. *)
Definition lt (a b : value) : bool :=
  match num_compare a b with
  | Some Lt => true
  | _ => false
  end.

End Py.

(** ** The world outside the program *)

(** What the program changes: the files it writes and the requests it
    sends.  The histories are kept so that the properties can speak about
    the calls that were made. *)
Record World := mkWorld {
  jobs_dir : gmap string Dict;   (** jobs/NAME.json, by NAME *)
  resume_cache : option Dict;    (** resume_cache.json *)
  llm_calls : list string;       (** prompts sent to the model, oldest first *)
  read_marks : list string;      (** message ids passed to [mark_as_read] *)
  console : list string          (** lines printed, oldest first *)
}.

(** A message as [get_unread_job_emails] builds it. *)
Record Email := mkEmail {
  email_id : string;
  email_subject : string;
  email_from : string;
  email_body : string
}.

(** A web search hit: its [href], always there, and its [title]. *)
Record SearchResult := mkSearchResult {
  href : string;
  hit_title : option string
}.

(** What the program is run against: the library functions that are kept
    abstract, the configuration read from the environment, and the
    collaborators.  A collaborator answers from the world as it stands at
    the time of the call, so successive calls may be answered differently;
    [Raise] is the exception the call ends with. *)
Record Platform := mkPlatform {
  json_loads : string -> result value;       (** [json.loads] *)
  format_other : value -> string;            (** [str(v)] when [v] is not a string *)
  GOOGLE_DRIVE_RESUME_ID : string;
  USER_PREFERENCES : list string;
  USER_LOCATION : string;
  llm_invoke : World -> string -> result string;    (** [self.llm.invoke(prompt)] *)
  gmail_unread : World -> nat -> result (list Email);
  gmail_modify : World -> string -> result unit;    (** removal of the UNREAD label *)
  docs_text : World -> string -> result string;     (** the text runs of a document *)
  ddgs_text : World -> string -> nat -> result (list SearchResult);
  page_text : World -> string -> result string;     (** a page fetched and stripped to text *)
  fs_write : World -> string -> result unit         (** opening a file for writing *)
}.

(** ** State and exceptions *)

Definition M (A : Type) : Type := World -> result A * World.

Definition ret {A} (a : A) : M A := fun w => (Ok a, w).

Definition raise {A} (e : exn) : M A := fun w => (Raise e, w).

Definition bind {A B} (c : M A) (k : A -> M B) : M B :=
  fun w =>
    match c w with
    | (Ok a, w') => k a w'
    | (Raise e, w') => (Raise e, w')
    end.

(** [try: c  except Exception as e: ...], with the outcome handed to the
    continuation; what [c] did to the world before it raised stays done. *)
Definition attempt {A} (c : M A) : M (result A) :=
  fun w => let '(r, w') := c w in (Ok r, w').

Definition lift {A} (r : result A) : M A := fun w => (r, w).

Notation "x <- c ;; k" := (bind c (fun x => k))
  (at level 100, c at next level, right associativity).
Notation "c ;;; k" := (bind c (fun _ => k))
  (at level 100, right associativity).

Definition print (line : string) : M unit :=
  fun w => (Ok tt, mkWorld (jobs_dir w) (resume_cache w) (llm_calls w)
                           (read_marks w) (console w ++ [line])).

Definition dict_of (items : list (string * value)) : Dict := list_to_map items.

Section Pipeline.

Variable P : Platform.

(** How an f-string renders a value. *)
Definition fmt (v : value) : string :=
  match v with
  | VStr s => s
  | other => format_other P other
  end.

(** *** ollama_client.py *)

(** [self.llm.invoke(prompt)]: the call is recorded, and the model answers
    with a text or raises.  (The source turns an answer that is not a text
    into one with [str].) *)
Definition llm (prompt : string) : M string :=
  fun w => (llm_invoke P w prompt,
            mkWorld (jobs_dir w) (resume_cache w) (llm_calls w ++ [prompt])
                    (read_marks w) (console w)).

Fixpoint from_first (c0 : ascii) (s : string) : option string :=
  match s with
  | String c rest => if Ascii.eqb c c0 then Some s else from_first c0 rest
  | EmptyString => None
  end.

Fixpoint through_last (c0 : ascii) (s : string) : option string :=
  match s with
  | String c rest =>
      match through_last c0 rest with
      | Some kept => Some (String c kept)
      | None => if Ascii.eqb c c0 then Some (String c EmptyString) else None
      end
  | EmptyString => None
  end.

(** [re.search(r'\{.*\}', s, re.DOTALL)]: from the first opening brace to
    the last closing brace after it. *)
Definition search_braces (s : string) : option string :=
  match from_first "{" s with
  | Some (String open rest) => option_map (String open) (through_last "}" rest)
  | _ => None
  end.

(** The part of an attempt that follows the model's answer: the
    dictionary to return, [None] to fall out of the [try] block, or the
    exception [json.loads] raised. *)
Definition decode_response (response : string) : result (option Dict) :=
  let whole :=
    match json_loads P (PyStr.strip response) with
    | Ok (VDict d) => Ok (Some d)
    | Ok _ => Ok None
    | Raise e => Raise e
    end in
  match search_braces response with
  | Some span =>
      match json_loads P span with
      | Ok (VDict d) => Ok (Some d)
      | Ok _ => whole
      | Raise e => Raise e
      end
  | None => whole
  end.

Definition parse_failure (message response : string) : Dict :=
  dict_of [("error", VStr message);
           ("raw_response", VStr (PyStr.take 500 response))].

(** The loop of [parse_structured] over the attempts still to make;
    [response] is the variable of that name. *)
Fixpoint parse_structured_from (prompt : string) (max_retries : nat)
    (attempts : list nat) (response : string) : M Dict :=
  match attempts with
  | [] => ret (parse_failure "Failed to parse after retries" response)
  | attempt_no :: later =>
      let except (e : exn) (response : string) : M Dict :=
        if (attempt_no =? max_retries - 1)%nat
        then ret (parse_failure (exn_msg e) response)
        else parse_structured_from prompt max_retries later response in
      answer <- attempt (llm prompt) ;;
      match answer with
      | Raise e => except e response
      | Ok response =>
          match decode_response response with
          | Ok (Some parsed) => ret parsed
          | Ok None => parse_structured_from prompt max_retries later response
          | Raise e => except e response
          end
      end
  end.

Definition parse_structured_n (prompt : string) (max_retries : nat) : M Dict :=
  parse_structured_from prompt max_retries (seq 0 max_retries) "".

(** [parse_structured(prompt)], with the default [max_retries=3] that
    every caller uses. *)
Definition parse_structured (prompt : string) : M Dict :=
  parse_structured_n prompt 3.

(** *** email_parser.py *)

Definition parse_email_prompt (email_subject email_body email_from : string) : string :=
  PyStr.lines
    ["Extract job information from this email in JSON format:";
     "";
     "Subject: " +:+ email_subject;
     "From: " +:+ email_from;
     "Body: " +:+ PyStr.take 2000 email_body;
     "";
     "Return a JSON object with these fields:";
     "- title: job title (string)";
     "- company: company name (string)";
     "- location: job location (string, " +:+ PyStr.quoted "Remote" +:+ " if remote)";
     "- description: job description (string, max 500 chars)";
     "- url: application URL if present (string, empty if not found)";
     "- source: email source (e.g., " +:+ PyStr.quoted "LinkedIn" +:+ ", "
       +:+ PyStr.quoted "Indeed" +:+ ", " +:+ PyStr.quoted "Glassdoor" +:+ ")";
     "- salary: salary range if mentioned (string, empty if not found)";
     "- employment_type: " +:+ PyStr.quoted "full-time" +:+ ", "
       +:+ PyStr.quoted "part-time" +:+ ", " +:+ PyStr.quoted "contract"
       +:+ ", or " +:+ PyStr.quoted "unknown";
     "";
     "Example output:";
     "{";
     "  " +:+ PyStr.quoted "title" +:+ ": " +:+ PyStr.quoted "Software Engineer" +:+ ",";
     "  " +:+ PyStr.quoted "company" +:+ ": " +:+ PyStr.quoted "Tech Corp" +:+ ",";
     "  " +:+ PyStr.quoted "location" +:+ ": " +:+ PyStr.quoted "San Francisco, CA" +:+ ",";
     "  " +:+ PyStr.quoted "description" +:+ ": "
       +:+ PyStr.quoted "We are looking for a software engineer..." +:+ ",";
     "  " +:+ PyStr.quoted "url" +:+ ": " +:+ PyStr.quoted "https://company.com/jobs/123" +:+ ",";
     "  " +:+ PyStr.quoted "source" +:+ ": " +:+ PyStr.quoted "LinkedIn" +:+ ",";
     "  " +:+ PyStr.quoted "salary" +:+ ": " +:+ PyStr.quoted "$100k-150k" +:+ ",";
     "  " +:+ PyStr.quoted "employment_type" +:+ ": " +:+ PyStr.quoted "full-time";
     "}";
     "";
     "Return ONLY valid JSON, no other text:"].

(** [re.sub('^' + p + r'\s*', '', s, flags=re.IGNORECASE)] for a lower-case
    literal [p]. *)
Definition remove_prefix_ci (p s : string) : option string :=
  let n := String.length p in
  if String.eqb (PyStr.lower (PyStr.take n s)) p
  then Some (PyStr.lstrip (PyStr.drop n s))
  else None.

(** One of the separators of [[|\-–—]] starts here. *)
Definition at_separator (s : string) : bool :=
  String.prefix "|" s || String.prefix "-" s
  || String.prefix "–" s || String.prefix "—" s.

(** [re.split(r'[|\-–—]', s)[0]] *)
Fixpoint first_segment (s : string) : string :=
  match s with
  | String c rest =>
      if at_separator s then EmptyString else String c (first_segment rest)
  | EmptyString => EmptyString
  end.

Definition _extract_title_from_subject (subject : string) : string :=
  let subject := default subject (remove_prefix_ci "re:" subject) in
  let subject :=
    match remove_prefix_ci "fwd:" subject with
    | Some s => s
    | None => default subject (remove_prefix_ci "fw:" subject)
    end in
  let title := PyStr.strip (first_segment subject) in
  PyStr.take 100 title.

(** A character that the class after [https?://] accepts: neither white
    space nor one of the angle brackets, the double quote, the braces, the
    bar, the backslash, the caret, the backquote and the square brackets. *)
Definition url_char (c : ascii) : bool :=
  negb (PyStr.is_space c
        || existsb (Nat.eqb (PyStr.code c))
             [60; 62; 34; 123; 125; 124; 92; 94; 96; 91; 93]%nat).

Fixpoint run_length (keep : ascii -> bool) (s : string) : nat :=
  match s with
  | String c rest => if keep c then S (run_length keep rest) else O
  | EmptyString => O
  end.

(** The length of the match of [https?://[^...]+] at the start of [s]. *)
Definition url_match (s : string) : option nat :=
  let scheme :=
    if String.prefix "https://" s then Some 8%nat
    else if String.prefix "http://" s then Some 7%nat
    else None in
  match scheme with
  | Some k =>
      match run_length url_char (PyStr.drop k s) with
      | O => None
      | n => Some (k + n)%nat
      end
  | None => None
  end.

(** [re.findall]: the matches from left to right, without overlap;
    [skip] characters still belong to the match found last. *)
Fixpoint findall_urls_from (skip : nat) (s : string) : list string :=
  match s with
  | String _ rest =>
      match skip with
      | S k => findall_urls_from k rest
      | O =>
          match url_match s with
          | Some n => PyStr.take n s :: findall_urls_from (n - 1) rest
          | None => findall_urls_from O rest
          end
      end
  | EmptyString => []
  end.

Definition findall_urls (body : string) : list string := findall_urls_from 0 body.

Definition job_keywords : list string :=
  ["job"; "career"; "apply"; "position"; "opening"].

Definition looks_like_job (url : string) : bool :=
  existsb (fun keyword => PyStr.contains keyword (PyStr.lower url)) job_keywords.

(** The [for url in urls] loop of [_extract_url] and the [return] after it. *)
Fixpoint prefer_job_url (urls remaining : list string) : string :=
  match remaining with
  | url :: later => if looks_like_job url then url else prefer_job_url urls later
  | [] => match urls with first :: _ => first | [] => "" end
  end.

Definition _extract_url (body : string) : string :=
  let urls := findall_urls body in
  prefer_job_url urls urls.

Definition _extract_source (email_from : string) : string :=
  let email_lower := PyStr.lower email_from in
  if PyStr.contains "linkedin" email_lower then "LinkedIn"
  else if PyStr.contains "indeed" email_lower then "Indeed"
  else if PyStr.contains "glassdoor" email_lower then "Glassdoor"
  else if PyStr.contains "ziprecruiter" email_lower then "ZipRecruiter"
  else if PyStr.contains "monster" email_lower then "Monster"
  else "Unknown".

(** [if k not in d: d[k] = v] *)
Definition setdefault (k : string) (v : value) (d : Dict) : Dict :=
  if Py.has_key d k then d else <[k := v]> d.

(** The statements of [parse_email] after the call of the Gateway. *)
Definition clean_up (email_subject email_body email_from : string)
    (job_data : Dict) : Dict :=
  let job_data :=
    if negb (Py.has_key job_data "title")
       || negb (Py.truthy (Py.get job_data "title" VNone))
    then <["title" := VStr (_extract_title_from_subject email_subject)]> job_data
    else job_data in
  let job_data := setdefault "company" (VStr "Unknown") job_data in
  let job_data := setdefault "location" (VStr "Unknown") job_data in
  let job_data := setdefault "url" (VStr (_extract_url email_body)) job_data in
  let job_data := setdefault "source" (VStr (_extract_source email_from)) job_data in
  <["description" :=
      Py.get job_data "description" (VStr (PyStr.take 500 email_body))]> job_data.

Definition parse_email (email_subject email_body email_from : string) : M Dict :=
  job_data <- parse_structured (parse_email_prompt email_subject email_body email_from) ;;
  ret (clean_up email_subject email_body email_from job_data).

(** *** storage.py *)

Definition _generate_job_id (job : Dict) : string :=
  let unique_string :=
    fmt (Py.get job "title" (VStr ""))
    +:+ fmt (Py.get job "company" (VStr ""))
    +:+ fmt (Py.get job "url" (VStr "")) in
  PyStr.take 12 (MD5.hexdigest unique_string).

(** The records of the jobs directory, in the order of the listing. *)
Definition get_all_jobs : M (list Dict) :=
  fun w => (Ok (map snd (map_to_list (jobs_dir w))), w).

(** A text that names a file of a directory: it holds no path separator
    (neither the slash nor, for Windows, the backslash) and no character 0. *)
Definition plain_name (s : string) : bool :=
  forallb (fun c => negb (existsb (Nat.eqb (PyStr.code c)) [47; 92; 0]%nat))
          (list_ascii_of_string s).

(** [get_job(job_id)] reads [Config.DATA_DIR / f"{job_id}.json"] when it
    exists.  For a [job_id] that is a plain name this is the record of that
    name in the directory.  Any other [job_id] leads out of the listing of
    the directory ([../resume_cache] to the resume cache, an absolute path
    to any file): what is found there is for [stray_file] to say, which
    answers with nothing, with the JSON value of the file, or with the
    exception of [open] or [json.load]. *)
Definition get_job (stray_file : World -> string -> result (option value))
    (job_id : string) : M (option value) :=
  fun w =>
    if plain_name job_id then (Ok (option_map VDict (jobs_dir w !! job_id)), w)
    else (stray_file w job_id, w).

(** [[job for job in jobs if job.get("score", 0) >= min_score]] *)
Fixpoint scoring_at_least (min_score : Z) (jobs : list Dict) : result (list Dict) :=
  match jobs with
  | [] => Ok []
  | job :: rest =>
      result_bind (Py.ge_int (Py.get job "score" (VInt 0)) min_score) (fun keep =>
      result_bind (scoring_at_least min_score rest) (fun kept =>
      Ok (if keep then job :: kept else kept)))
  end.

Definition get_high_scoring_jobs (min_score : Z) : M (list Dict) :=
  all_jobs <- get_all_jobs ;;
  lift (scoring_at_least min_score all_jobs).

(** [with open(Config.DATA_DIR / f"{name}.json", "w") as f: json.dump(job, f)];
    a write that fails leaves the directory as it was. *)
Definition write_job (name : string) (job : Dict) : M unit :=
  fun w =>
    match fs_write P w ("jobs/" +:+ name +:+ ".json") with
    | Ok _ => (Ok tt, mkWorld (<[name := job]> (jobs_dir w)) (resume_cache w)
                              (llm_calls w) (read_marks w) (console w))
    | Raise e => (Raise e, w)
    end.

(** *** gmail_client.py *)

(** The listing and decoding of the unread messages is the mail
    provider's; an [HttpError] is reported and gives no message. *)
Definition get_unread_job_emails (max_results : nat) : M (list Email) :=
  fun w =>
    match gmail_unread P w max_results with
    | Ok email_data => (Ok email_data, w)
    | Raise error =>
        if isinstance error HttpError
        then (print ("Error fetching emails: " +:+ exn_msg error) ;;; ret []) w
        else (Raise error, w)
    end.

(** [mark_as_read] asks the provider to remove the UNREAD label; the
    request is recorded in [read_marks], and an [HttpError] answer is
    reported and swallowed. *)
Definition mark_as_read (message_id : string) : M unit :=
  fun w =>
    let w' := mkWorld (jobs_dir w) (resume_cache w) (llm_calls w)
                      (read_marks w ++ [message_id]) (console w) in
    match gmail_modify P w message_id with
    | Ok _ => (Ok tt, w')
    | Raise error =>
        if isinstance error HttpError
        then print ("Error marking email as read: " +:+ exn_msg error) w'
        else (Raise error, w')
    end.

(** *** main.py: check_emails *)

Definition at_company (job_data : Dict) : string :=
  fmt (Py.get job_data "title" (VStr "Unknown")) +:+ " at "
  +:+ fmt (Py.get job_data "company" (VStr "Unknown")).

(** The [try] block of the loop of [check_emails].  It gives the value of
    [parsed_count] at its end and whether the call of [mark_as_read] that
    ends it raised; an exception before that call leaves the block at
    once. *)
Definition check_email_try (email : Email) (parsed_count : nat)
    : M (nat * result unit) :=
  job_data <- parse_email (email_subject email) (email_body email) (email_from email) ;;
  existing_jobs <- get_all_jobs ;;
  let job_id := _generate_job_id job_data in
  if existsb (fun job => Py.eq_str (Py.get job "id" VNone) job_id) existing_jobs
  then
    print ("⏭️  Skipping duplicate: " +:+ at_company job_data) ;;;
    marked <- attempt (mark_as_read (email_id email)) ;;
    ret (parsed_count, marked)
  else
    let job_data := <["id" := VStr job_id]> job_data in
    write_job job_id job_data ;;;
    print ("✅ Parsed: " +:+ at_company job_data) ;;;
    let parsed_count := S parsed_count in
    marked <- attempt (mark_as_read (email_id email)) ;;
    ret (parsed_count, marked).

(** One turn of the loop: the [try] block and its [except Exception]. *)
Definition check_email (email : Email) (parsed_count : nat) : M nat :=
  outcome <- attempt (check_email_try email parsed_count) ;;
  match outcome with
  | Ok (parsed_count, Ok _) => ret parsed_count
  | Ok (parsed_count, Raise e) =>
      print ("❌ Error parsing email: " +:+ exn_msg e) ;;; ret parsed_count
  | Raise e =>
      print ("❌ Error parsing email: " +:+ exn_msg e) ;;; ret parsed_count
  end.

Fixpoint check_email_loop (emails : list Email) (parsed_count : nat) : M nat :=
  match emails with
  | [] => ret parsed_count
  | email :: later =>
      parsed_count <- check_email email parsed_count ;;
      check_email_loop later parsed_count
  end.

Definition check_emails : M nat :=
  print "🔍 Checking Gmail for job alerts..." ;;;
  emails <- get_unread_job_emails 50 ;;
  print ("Found " +:+ pretty (length emails) +:+ " unread job emails") ;;;
  parsed_count <- check_email_loop emails 0%nat ;;
  print (PyStr.nl +:+ "✨ Parsed " +:+ pretty parsed_count +:+ " new jobs") ;;;
  ret parsed_count.

(** *** main.py: review_jobs *)

Definition score_key (job : Dict) : value := Py.get job "score" (VInt 0).

(** [jobs.sort(key=..., reverse=True)] is stable: records with equal keys
    keep their order.  A record goes in front of the first one whose key
    is not greater than its own.  The keys reaching the sort are numbers
    that passed [>= min_score], on which [<] never raises. *)
Fixpoint insert_by_score (job : Dict) (sorted : list Dict) : list Dict :=
  match sorted with
  | [] => [job]
  | next :: rest =>
      if Py.lt (score_key job) (score_key next)
      then next :: insert_by_score job rest
      else job :: next :: rest
  end.

Definition sort_by_score_desc (jobs : list Dict) : list Dict :=
  fold_right insert_by_score [] jobs.

(** The records that [review_jobs] lists, in the order in which it prints
    them (the printing itself is left out). *)
Definition review_jobs (min_score : option Z) : M (list Dict) :=
  jobs <- get_all_jobs ;;
  match min_score with
  | Some min_score =>
      jobs <- lift (scoring_at_least min_score jobs) ;;
      ret (sort_by_score_desc jobs)
  | None => ret jobs
  end.

(** *** job_scorer.py *)

Definition score_prompt (resume_data job : Dict)
    (resume_skills resume_expertise : string) (description : value) : string :=
  let resume_exp_years := Py.get resume_data "experience_years" (VInt 0) in
  let resume_level := Py.get resume_data "experience_level" (VStr "mid") in
  let user_prefs :=
    match USER_PREFERENCES P with
    | [] => "None specified"
    | prefs => PyStr.join ", " prefs
    end in
  let user_location :=
    if String.eqb (USER_LOCATION P) "" then "No preference" else USER_LOCATION P in
  PyStr.lines
    ["Score this job posting from 0-100 based on how well it matches the resume and preferences.";
     "";
     "RESUME INFORMATION:";
     "- Skills: " +:+ resume_skills;
     "- Areas of Expertise: " +:+ resume_expertise;
     "- Experience: " +:+ fmt resume_exp_years +:+ " years, " +:+ fmt resume_level +:+ " level";
     "- Current Role: " +:+ fmt (Py.get resume_data "current_role" (VStr "Unknown"));
     "";
     "JOB POSTING:";
     "Title: " +:+ fmt (Py.get job "title" (VStr "Unknown"));
     "Company: " +:+ fmt (Py.get job "company" (VStr "Unknown"));
     "Location: " +:+ fmt (Py.get job "location" (VStr "Unknown"));
     "Description: " +:+ fmt description;
     "";
     "USER PREFERENCES:";
     "- Preferences: " +:+ user_prefs;
     "- Preferred Location: " +:+ user_location;
     "";
     "Score based on:";
     "1. Skills match (40 points): How well do the job requirements match the resume skills?";
     "2. Experience level match (20 points): Does the required experience level match?";
     "3. Preferences match (20 points): Does it match user preferences (remote, company size, industry)?";
     "4. Location match (10 points): Is the location desirable?";
     "5. Overall fit (10 points): General fit based on career trajectory";
     "";
     "Return a JSON object with:";
     "- score: integer from 0-100";
     "- reasoning: string explaining the score";
     "- skill_match_score: integer 0-40";
     "- experience_match_score: integer 0-20";
     "- preferences_match_score: integer 0-20";
     "- location_match_score: integer 0-10";
     "- overall_fit_score: integer 0-10";
     "- matched_skills: array of skills from resume that match the job";
     "- missing_skills: array of skills mentioned in job but not in resume";
     "";
     "Example output:";
     "{";
     PyStr.json_field "score" "85,";
     PyStr.json_field "reasoning"
       (PyStr.quoted "Strong match: 8/10 skills match, experience level aligns, remote preference met" +:+ ",");
     PyStr.json_field "skill_match_score" "35,";
     PyStr.json_field "experience_match_score" "18,";
     PyStr.json_field "preferences_match_score" "18,";
     PyStr.json_field "location_match_score" "8,";
     PyStr.json_field "overall_fit_score" "9,";
     PyStr.json_field "matched_skills" (PyStr.json_strings ["Python"; "AWS"; "Docker"] +:+ ",");
     PyStr.json_field "missing_skills" (PyStr.json_strings ["Kubernetes"]);
     "}";
     "";
     "Return ONLY valid JSON, no other text:"].

(** The record returned when the Gateway reports an error. *)
Definition scoring_failed (scoring_result : Dict) : Dict :=
  dict_of
    [("score", VInt 0);
     ("reasoning",
      VStr ("Scoring failed: " +:+ fmt (Py.get scoring_result "error" (VStr "Unknown error"))));
     ("skill_match_score", VInt 0);
     ("experience_match_score", VInt 0);
     ("preferences_match_score", VInt 0);
     ("location_match_score", VInt 0);
     ("overall_fit_score", VInt 0);
     ("matched_skills", VList []);
     ("missing_skills", VList []);
     ("error", Py.get scoring_result "error" (VStr "Unknown"))].

(** [try: score = max(0, min(100, int(score)))  except (ValueError, TypeError): 0];
    any other exception of [int] leaves the function. *)
Definition clamp_score (scoring_result : Dict) : result Dict :=
  match Py.int (Py.get scoring_result "score" (VInt 0)) with
  | Ok score => Ok (<["score" := VInt (Z.max 0 (Z.min 100 score))]> scoring_result)
  | Raise e =>
      if isinstance e ValueError || isinstance e TypeError
      then Ok (<["score" := VInt 0]> scoring_result)
      else Raise e
  end.

(** [JobScorer(resume_data).score_job(job)] *)
Definition score_job (resume_data job : Dict) : M Dict :=
  resume_skills <- lift (Py.join ", " (Py.get resume_data "skills" (VList []))) ;;
  resume_expertise <-
    lift (Py.join ", " (Py.get resume_data "areas_of_expertise" (VList []))) ;;
  description <- lift (Py.slice_to 1000 (Py.get job "description" (VStr ""))) ;;
  scoring_result <-
    parse_structured (score_prompt resume_data job resume_skills resume_expertise description) ;;
  if Py.has_key scoring_result "error" then ret (scoring_failed scoring_result)
  else
    scoring_result <- lift (clamp_score scoring_result) ;;
    let scoring_result :=
      setdefault "reasoning" (VStr "Score calculated based on resume match") scoring_result in
    let scoring_result := setdefault "matched_skills" (VList []) scoring_result in
    let scoring_result := setdefault "missing_skills" (VList []) scoring_result in
    resume_skills_count <- lift (Py.len (Py.get resume_data "skills" (VList []))) ;;
    let scoring_result :=
      <["resume_skills_count" := VInt (Z.of_nat resume_skills_count)]> scoring_result in
    let scoring_result := <["job_title" := Py.get job "title" (VStr "")]> scoring_result in
    let scoring_result := <["job_company" := Py.get job "company" (VStr "")]> scoring_result in
    ret scoring_result.

(** [d[k]]; the text of a [KeyError] is the key between quotes. *)
Definition item (d : Dict) (k : string) : result value :=
  match d !! k with
  | Some v => Ok v
  | None => Raise (Exn KeyError ("'" +:+ k +:+ "'"))
  end.

(** *** resume_parser.py *)

Definition load_resume_data : M (option Dict) :=
  fun w => (Ok (resume_cache w), w).

Definition save_resume_data (resume_data : Dict) : M unit :=
  fun w =>
    match fs_write P w "resume_cache.json" with
    | Ok _ => (Ok tt, mkWorld (jobs_dir w) (Some resume_data) (llm_calls w)
                              (read_marks w) (console w))
    | Raise e => (Raise e, w)
    end.

(** drive_client.py: the text runs of the document, joined; an
    [HttpError] is reported and gives the empty text. *)
Definition get_resume_text (document_id : string) : M string :=
  fun w =>
    match docs_text P w document_id with
    | Ok text => (Ok text, w)
    | Raise error =>
        if isinstance error HttpError
        then (print ("Error fetching resume: " +:+ exn_msg error) ;;; ret "") w
        else (Raise error, w)
    end.

Definition resume_prompt (resume_text : string) : string :=
  PyStr.lines
    ["Extract the following information from this resume in JSON format:";
     "";
     resume_text;
     "";
     "Return a JSON object with these fields:";
     "- skills: array of programming languages, frameworks, tools, technologies";
     "- experience_years: number of years of professional experience";
     "- experience_level: " +:+ PyStr.quoted "entry" +:+ ", " +:+ PyStr.quoted "mid" +:+ ", "
       +:+ PyStr.quoted "senior" +:+ ", or " +:+ PyStr.quoted "executive";
     "- education: array of degrees with fields: degree, field, institution, year";
     "- notable_projects: array of projects with fields: name, description, technologies";
     "- areas_of_expertise: array of domain areas (e.g., " +:+ PyStr.quoted "Machine Learning"
       +:+ ", " +:+ PyStr.quoted "Web Development" +:+ ")";
     "- current_role: string describing current or most recent position";
     "- previous_roles: array of previous positions with fields: title, company, duration, responsibilities";
     "";
     "Example output:";
     "{";
     PyStr.json_field "skills"
       (PyStr.json_strings ["Python"; "JavaScript"; "React"; "AWS"] +:+ ",");
     PyStr.json_field "experience_years" "5,";
     PyStr.json_field "experience_level" (PyStr.quoted "mid" +:+ ",");
     PyStr.json_field "education"
       ("[" +:+ PyStr.json_object
                 [("degree", PyStr.quoted "BS"); ("field", PyStr.quoted "Computer Science");
                  ("institution", PyStr.quoted "University"); ("year", "2019")] +:+ "],");
     PyStr.json_field "notable_projects"
       ("[" +:+ PyStr.json_object
                 [("name", PyStr.quoted "Project X"); ("description", PyStr.quoted "...");
                  ("technologies", PyStr.json_strings ["Python"; "Django"])] +:+ "],");
     PyStr.json_field "areas_of_expertise"
       (PyStr.json_strings ["Machine Learning"; "Backend Development"] +:+ ",");
     PyStr.json_field "current_role" (PyStr.quoted "Software Engineer at Company" +:+ ",");
     PyStr.json_field "previous_roles"
       ("[" +:+ PyStr.json_object
                 [("title", PyStr.quoted "Developer"); ("company", PyStr.quoted "Company");
                  ("duration", PyStr.quoted "2020-2022");
                  ("responsibilities", PyStr.quoted "...")] +:+ "]");
     "}";
     "";
     "Return ONLY valid JSON, no other text:"].

(** The statements of [parse_resume] between the error check and the
    caching. *)
Definition resume_defaults (resume_text : string) (resume_data : Dict) : Dict :=
  let resume_data := setdefault "skills" (VList []) resume_data in
  let resume_data := setdefault "experience_years" (VInt 0) resume_data in
  let resume_data := setdefault "experience_level" (VStr "mid") resume_data in
  <["raw_text" := VStr resume_text]> resume_data.

(** The part of [parse_resume] after the look into the cache. *)
Definition fetch_and_parse_resume : M Dict :=
  if String.eqb (GOOGLE_DRIVE_RESUME_ID P) ""
  then raise (Exn ValueError "GOOGLE_DRIVE_RESUME_ID not set in .env")
  else
    resume_text <- get_resume_text (GOOGLE_DRIVE_RESUME_ID P) ;;
    if String.eqb resume_text ""
    then raise (Exn ValueError "Failed to fetch resume from Google Docs")
    else
      resume_data <- parse_structured (resume_prompt resume_text) ;;
      if Py.has_key resume_data "error"
      then raise (Exn ValueError
                    ("Failed to parse resume: "
                     +:+ fmt (Py.get resume_data "error" (VStr "Unknown error"))))
      else
        let resume_data := resume_defaults resume_text resume_data in
        save_resume_data resume_data ;;;
        ret resume_data.

Definition parse_resume (force_refresh : bool) : M Dict :=
  if force_refresh then fetch_and_parse_resume
  else
    cached <- load_resume_data ;;
    match cached with
    | Some cached =>
        if Py.truthy (VDict cached) then ret cached else fetch_and_parse_resume
    | None => fetch_and_parse_resume
    end.

(** *** main.py: score_jobs *)

(** The [try] block of the loop of [score_jobs]. *)
Definition score_and_save (resume_data job : Dict) : M unit :=
  scoring_result <- score_job resume_data job ;;
  score <- lift (item scoring_result "score") ;;
  let job := <["score" := score]> job in
  let job := <["scoring" := VDict scoring_result]> job in
  job_id <- lift (item job "id") ;;
  write_job (fmt job_id) job ;;;
  print ("✅ Scored: " +:+ at_company job +:+ " - Score: " +:+ fmt score +:+ "/100").

Fixpoint score_loop (resume_data : Dict) (jobs : list Dict) (scored_count : nat) : M nat :=
  match jobs with
  | [] => ret scored_count
  | job :: later =>
      outcome <- attempt (score_and_save resume_data job) ;;
      match outcome with
      | Ok _ => score_loop resume_data later (S scored_count)
      | Raise e =>
          print ("❌ Error scoring job: " +:+ exn_msg e) ;;;
          score_loop resume_data later scored_count
      end
  end.

Definition unscored (job : Dict) : bool :=
  negb (Py.has_key job "score") || Py.eq_zero (Py.get job "score" VNone).

Definition score_jobs : M unit :=
  print "📊 Scoring jobs..." ;;;
  loaded <- attempt (parse_resume false) ;;
  match loaded with
  | Raise e => print ("❌ Error loading resume: " +:+ exn_msg e)
  | Ok resume_data =>
      print "✅ Loaded resume data" ;;;
      jobs <- get_all_jobs ;;
      let unscored_jobs := List.filter unscored jobs in
      match unscored_jobs with
      | [] => print "✅ All jobs are already scored"
      | _ =>
          print ("Found " +:+ pretty (length unscored_jobs) +:+ " jobs to score") ;;;
          scored_count <- score_loop resume_data unscored_jobs 0%nat ;;
          print (PyStr.nl +:+ "✨ Scored " +:+ pretty scored_count +:+ " jobs")
      end
  end.

(** *** company_researcher.py *)

(** An entry of [url_contents]. *)
Record UrlContent := mkUrlContent {
  uc_url : string;
  uc_title : string;
  uc_content : string
}.

Definition _search_company (company_name : string) (max_results : nat)
    : M (list SearchResult) :=
  fun w =>
    let query := company_name +:+ " company culture technology stack" in
    match ddgs_text P w query max_results with
    | Ok results => (Ok results, w)
    | Raise e => (print ("Error searching for company: " +:+ exn_msg e) ;;; ret []) w
    end.

(** The request, the parsing of the page and the cleaning of its text are
    the platform's [page_text]; any exception is reported and gives the
    empty text. *)
Definition _fetch_url_content (url : string) : M string :=
  fun w =>
    match page_text P w url with
    | Ok text => (Ok text, w)
    | Raise e => (print ("Error fetching URL " +:+ url +:+ ": " +:+ exn_msg e) ;;; ret "") w
    end.

(** The loop over [search_results[:max_urls]]. *)
Fixpoint fetch_results (results : list SearchResult) (url_contents : list UrlContent)
    : M (list UrlContent) :=
  match results with
  | [] => ret url_contents
  | result :: later =>
      fetched <- attempt (_fetch_url_content (href result)) ;;
      match fetched with
      | Ok content =>
          if String.eqb content "" then fetch_results later url_contents
          else fetch_results later
                 (url_contents ++ [mkUrlContent (href result)
                                     (default "" (hit_title result))
                                     (PyStr.take 2000 content)])
      | Raise e =>
          print ("Error fetching " +:+ href result +:+ ": " +:+ exn_msg e) ;;;
          fetch_results later url_contents
      end
  end.

Definition research_prompt (company_name content_text : string) : string :=
  PyStr.lines
    ["Research this company and extract key information in JSON format:";
     "";
     "Company: " +:+ company_name;
     "";
     "Sources:";
     PyStr.take 5000 content_text;
     "";
     "Return a JSON object with:";
     "- company: company name";
     "- summary: brief company overview (2-3 sentences)";
     "- tech_stack: array of technologies they use (if tech company)";
     "- values: array of company values/culture points";
     "- recent_news: array of recent news items (max 3)";
     "- culture: description of company culture (2-3 sentences)";
     "- size: company size if mentioned (e.g., " +:+ PyStr.quoted "500-1000 employees" +:+ ")";
     "- industry: primary industry";
     "- funding_stage: funding stage if startup (e.g., " +:+ PyStr.quoted "Series B" +:+ ", "
       +:+ PyStr.quoted "Public" +:+ ")";
     "";
     "Example output:";
     "{";
     PyStr.json_field "company" (PyStr.quoted "Tech Corp" +:+ ",");
     PyStr.json_field "summary" (PyStr.quoted "Tech Corp is a leading SaaS company..." +:+ ",");
     PyStr.json_field "tech_stack"
       (PyStr.json_strings ["Python"; "React"; "AWS"; "Kubernetes"] +:+ ",");
     PyStr.json_field "values"
       (PyStr.json_strings ["Innovation"; "Work-life balance"; "Diversity"] +:+ ",");
     PyStr.json_field "recent_news"
       (PyStr.json_strings ["Raised Series B funding"; "Launched new product"] +:+ ",");
     PyStr.json_field "culture"
       (PyStr.quoted "Fast-paced startup culture with emphasis on collaboration" +:+ ",");
     PyStr.json_field "size" (PyStr.quoted "200-500 employees" +:+ ",");
     PyStr.json_field "industry" (PyStr.quoted "SaaS" +:+ ",");
     PyStr.json_field "funding_stage" (PyStr.quoted "Series B");
     "}";
     "";
     "Return ONLY valid JSON, no other text:"].

(** The profile returned when no page gave any text. *)
Definition no_information (company_name : string) : Dict :=
  dict_of
    [("company", VStr company_name);
     ("summary", VStr "No information found");
     ("tech_stack", VList []);
     ("values", VList []);
     ("recent_news", VList []);
     ("culture", VStr "Unknown")].

Definition sources_of (url_contents : list UrlContent) : value :=
  VList (map (fun item => VStr (uc_url item)) url_contents).

(** The profile returned when the Gateway reports an error. *)
Definition research_failed (company_name : string) (url_contents : list UrlContent)
    (research_result : Dict) : Dict :=
  dict_of
    [("company", VStr company_name);
     ("summary",
      VStr ("Research failed: " +:+ fmt (Py.get research_result "error" (VStr "Unknown error"))));
     ("tech_stack", VList []);
     ("values", VList []);
     ("recent_news", VList []);
     ("culture", VStr "Unknown");
     ("size", VStr "Unknown");
     ("industry", VStr "Unknown");
     ("funding_stage", VStr "Unknown");
     ("sources", sources_of url_contents);
     ("error", Py.get research_result "error" (VStr "Unknown"))].

(** The statements of [research_company] after the error check. *)
Definition research_defaults (company_name : string) (url_contents : list UrlContent)
    (research_result : Dict) : Dict :=
  let research_result := setdefault "company" (VStr company_name) research_result in
  let research_result := setdefault "tech_stack" (VList []) research_result in
  let research_result := setdefault "values" (VList []) research_result in
  let research_result := setdefault "recent_news" (VList []) research_result in
  <["sources" := sources_of url_contents]> research_result.

Definition research_company_n (company_name : string) (max_urls : nat) : M Dict :=
  search_results <- _search_company company_name max_urls ;;
  url_contents <- fetch_results (firstn max_urls search_results) [] ;;
  match url_contents with
  | [] => ret (no_information company_name)
  | _ =>
      let content_text :=
        PyStr.join (PyStr.nl +:+ PyStr.nl +:+ "---" +:+ PyStr.nl +:+ PyStr.nl)
          (map (fun item =>
                  "URL: " +:+ uc_url item +:+ PyStr.nl
                  +:+ "Title: " +:+ uc_title item +:+ PyStr.nl
                  +:+ "Content: " +:+ uc_content item)
               url_contents) in
      research_result <- parse_structured (research_prompt company_name content_text) ;;
      if Py.has_key research_result "error"
      then ret (research_failed company_name url_contents research_result)
      else ret (research_defaults company_name url_contents research_result)
  end.

(** [research_company(company_name)], with the default [max_urls=5]. *)
Definition research_company (company_name : string) : M Dict :=
  research_company_n company_name 5.

End Pipeline.

(** *** company_researcher.py: the text of a page *)

(** The line boundaries of [str.splitlines] among the ASCII characters:
    LF, VT, FF, CR, FS, GS and RS. *)
Definition is_line_break (c : ascii) : bool :=
  let n := PyStr.code c in
  ((10 <=? n) && (n <=? 13) || (28 <=? n) && (n <=? 30))%nat.

(** The pieces [pieces] with [c] put in front of the first one. *)
Definition prepend (c : ascii) (pieces : list string) : list string :=
  match pieces with
  | piece :: later => String c piece :: later
  | [] => [String c EmptyString]
  end.

(** [s.splitlines()]: CR LF is one boundary, and a boundary at the end of
    the text opens no further line. *)
Fixpoint splitlines (s : string) : list string :=
  match s with
  | EmptyString => []
  | String c rest =>
      if is_line_break c then
        EmptyString ::
          match rest with
          | String c2 rest2 =>
              if ((PyStr.code c =? 13) && (PyStr.code c2 =? 10))%nat
              then splitlines rest2 else splitlines rest
          | EmptyString => []
          end
      else prepend c (splitlines rest)
  end.

Definition is_blank (c : ascii) : bool := (PyStr.code c =? 32)%nat.

(** [s.split("  ")]: the pieces between the pairs of blanks, the pairs
    being found from the left. *)
Fixpoint split_two_blanks (s : string) : list string :=
  match s with
  | EmptyString => [EmptyString]
  | String c rest =>
      match rest with
      | String c2 rest2 =>
          if is_blank c && is_blank c2
          then EmptyString :: split_two_blanks rest2
          else prepend c (split_two_blanks rest)
      | EmptyString => [String c EmptyString]
      end
  end.

(** The last statements of the [try] block of [_fetch_url_content], which
    clean up the white space of the text of a page:
    [lines = (line.strip() for line in text.splitlines())],
    [chunks = (phrase.strip() for line in lines for phrase in line.split("  "))],
    [' '.join(chunk for chunk in chunks if chunk)]. *)
Definition clean_up_whitespace (text : string) : string :=
  let lines := map PyStr.strip (splitlines text) in
  let chunks :=
    flat_map (fun line => map PyStr.strip (split_two_blanks line)) lines in
  PyStr.join " " (List.filter (fun chunk => negb (String.eqb chunk "")) chunks).

(** ** Operations on values of any type *)

Notation "x <~ r ;; k" := (result_bind r (fun x => k))
  (at level 100, r at next level, right associativity).

Module PyAny.

(** [type(v).__name__] *)
Definition type_name (v : value) : string :=
  match v with
  | VNone => "NoneType"
  | VBool _ => "bool"
  | VInt _ => "int"
  | VFloat _ => "float"
  | VStr _ => "str"
  | VList _ => "list"
  | VDict _ => "dict"
  end.

(** [AttributeError].  No handler of the program names this class, and it
    derives from [Exception] only: it is recorded as an [Exception], which
    every handler treats as it would treat an [AttributeError]. *)
Definition attribute_error {A} (v : value) (attribute : string) : result A :=
  Raise (Exn Exception
           ("'" +:+ type_name v +:+ "' object has no attribute '" +:+ attribute +:+ "'")).

(** [v.get(k, default)] *)
Definition get (v : value) (k : string) (default : value) : result value :=
  match v with
  | VDict d => Ok (Py.get d k default)
  | _ => attribute_error v "get"
  end.

(** [k in v] for a text [k]: a key of a dictionary, an item of a list, a
    part of a text. *)
Definition contains (k : string) (v : value) : result bool :=
  match v with
  | VDict d => Ok (Py.has_key d k)
  | VList l => Ok (existsb (fun x => Py.eq_str x k) l)
  | VStr s => Ok (PyStr.contains k s)
  | _ => type_error "argument is not iterable"
  end.

(** [v[k]] for a text [k] *)
Definition item (v : value) (k : string) : result value :=
  match v with
  | VDict d => item d k
  | VList _ | VStr _ => type_error "indices must be integers or slices, not str"
  | _ => type_error "object is not subscriptable"
  end.

(** [for x in v]: the items of a list, the characters of a text, the keys
    of a dictionary (in the order of [map_to_list]). *)
Definition iterate (v : value) : result (list value) :=
  match v with
  | VList l => Ok l
  | VStr s => Ok (map VStr (PyStr.chars s))
  | VDict d => Ok (map (fun kv => VStr (fst kv)) (map_to_list d))
  | _ => type_error "object is not iterable"
  end.

(** [v + [x]] *)
Definition append_item (v x : value) : result value :=
  match v with
  | VList l => Ok (VList (l ++ [x]))
  | _ => type_error "unsupported operand type(s) for +"
  end.

(** A value that a set can hold. *)
Definition hashable (v : value) : bool :=
  match v with
  | VList _ | VDict _ => false
  | _ => true
  end.

(** [a == b] between hashable values as a set compares them: texts with
    texts, numbers with numbers by their value, and NaN is found again
    because [json] decodes every NaN to one and the same object. *)
Definition same_key (a b : value) : bool :=
  match a, b with
  | VStr s, VStr t => String.eqb s t
  | VNone, VNone => true
  | VFloat S754_nan, VFloat S754_nan => true
  | _, _ =>
      match Py.num_compare a b with
      | Some Eq => true
      | _ => false
      end
  end.

End PyAny.

(** *** drive_client.py: the text of a document *)

(** The loop over [element['paragraph'].get('elements', [])]. *)
Fixpoint text_runs (elems : list value) : result (list value) :=
  match elems with
  | [] => Ok []
  | elem :: later =>
      has_text_run <~ PyAny.contains "textRun" elem ;;
      if has_text_run : bool then
        text_run <~ PyAny.item elem "textRun" ;;
        content <~ PyAny.get text_run "content" (VStr "") ;;
        rest <~ text_runs later ;;
        Ok (content :: rest)
      else text_runs later
  end.

(** The loop over [doc.get('body', {}).get('content', [])]. *)
Fixpoint paragraph_runs (elements : list value) : result (list value) :=
  match elements with
  | [] => Ok []
  | element :: later =>
      has_paragraph <~ PyAny.contains "paragraph" element ;;
      if has_paragraph : bool then
        paragraph <~ PyAny.item element "paragraph" ;;
        elems <~ PyAny.get paragraph "elements" (VList []) ;;
        elems <~ PyAny.iterate elems ;;
        runs <~ text_runs elems ;;
        rest <~ paragraph_runs later ;;
        Ok (runs ++ rest)%list
      else paragraph_runs later
  end.

(** The statements of [get_resume_text] that follow the request of the
    document [doc]. *)
Definition document_text (doc : value) : result string :=
  body <~ PyAny.get doc "body" (VDict ∅) ;;
  content <~ PyAny.get body "content" (VList []) ;;
  elements <~ PyAny.iterate content ;;
  text_content <~ paragraph_runs elements ;;
  Py.join "" (VList text_content).

(** *** gmail_client.py: the header and the body of a message *)

Section Messages.

(** [base64.urlsafe_b64decode(data).decode('utf-8', errors='ignore')] on a
    text. *)
Variable b64_text : string -> result string.

(** The pieces of text that [HTMLParser.feed] hands to [handle_data], in
    their order. *)
Variable html_data : string -> list string.

Definition decode_data (body_data : value) : result string :=
  match body_data with
  | VStr data => b64_text data
  | _ => type_error "argument should be a bytes-like object or ASCII string"
  end.

(** [HTMLTextExtractor]: [handle_data] collects the pieces and [get_text]
    joins them with blanks. *)
Definition html_get_text (html_content : string) : string :=
  PyStr.join " " (html_data html_content).

(** The loop over [payload['parts']]. *)
Fixpoint parts_body (parts : list value) (body : string) : result string :=
  match parts with
  | [] => Ok body
  | part :: later =>
      mime_type <~ PyAny.get part "mimeType" (VStr "") ;;
      part_body <~ PyAny.get part "body" (VDict ∅) ;;
      body_data <~ PyAny.get part_body "data" (VStr "") ;;
      if Py.eq_str mime_type "text/plain" && Py.truthy body_data then
        text <~ decode_data body_data ;;
        parts_body later (body +:+ text)
      else if Py.eq_str mime_type "text/html" && Py.truthy body_data then
        html_content <~ decode_data body_data ;;
        parts_body later (body +:+ html_get_text html_content)
      else parts_body later body
  end.

Definition _extract_email_body (message : value) : result string :=
  payload <~ PyAny.get message "payload" (VDict ∅) ;;
  has_parts <~ PyAny.contains "parts" payload ;;
  if has_parts : bool then
    parts <~ PyAny.item payload "parts" ;;
    parts <~ PyAny.iterate parts ;;
    parts_body parts ""
  else
    payload_body <~ PyAny.get payload "body" (VDict ∅) ;;
    body_data <~ PyAny.get payload_body "data" (VStr "") ;;
    if Py.truthy body_data then decode_data body_data else Ok "".

End Messages.

(** The loop of [_get_header]. *)
Fixpoint find_header (headers : list value) (name : string) : result value :=
  match headers with
  | [] => Ok (VStr "")
  | header :: later =>
      header_name <~ PyAny.item header "name" ;;
      if Py.eq_str header_name name then PyAny.item header "value"
      else find_header later name
  end.

Definition _get_header (message : value) (name : string) : result value :=
  payload <~ PyAny.item message "payload" ;;
  headers <~ PyAny.get payload "headers" (VList []) ;;
  headers <~ PyAny.iterate headers ;;
  find_header headers name.

(** *** storage.py: save_job *)

Section Catalogue.

Variable P : Platform.

(** [self.collection.upsert(ids=..., documents=..., metadatas=...)]: the
    vector index and its embedding of the description are the library's;
    the call is given the identifier, the document and the metadata, and
    it returns or raises.  What it stores is not modelled: nothing in the
    program reads the index. *)
Variable collection_upsert : World -> string -> value -> Dict -> result unit.

(** [save_job(job)].  (The source stamps the identifier into the
    dictionary it was given, which its caller sees too.) *)
Definition save_job (job : Dict) : M string :=
  let job_id := _generate_job_id P job in
  let job := <["id" := VStr job_id]> job in
  write_job P job_id job ;;;
  (fun w =>
     (collection_upsert w job_id (Py.get job "description" (VStr ""))
        (dict_of [("title", Py.get job "title" (VStr ""));
                  ("company", Py.get job "company" (VStr ""));
                  ("location", Py.get job "location" (VStr ""));
                  ("score", Py.get job "score" (VInt 0));
                  ("source", Py.get job "source" (VStr ""))]),
      w)) ;;;
  ret job_id.

End Catalogue.

(** *** main.py: refresh_resume *)

Section Refresh.

Variable P : Platform.

(** The [try] block of [refresh_resume]. *)
Definition refresh_resume_try : M unit :=
  resume_data <- parse_resume P true ;;
  print "✅ Resume data refreshed" ;;;
  skills <- lift (Py.len (Py.get resume_data "skills" (VList []))) ;;
  print ("   Skills: " +:+ pretty skills +:+ " skills") ;;;
  print ("   Experience: "
         +:+ fmt P (Py.get resume_data "experience_years" (VInt 0)) +:+ " years") ;;;
  print ("   Level: " +:+ fmt P (Py.get resume_data "experience_level" (VStr "Unknown"))).

Definition refresh_resume : M unit :=
  print "🔄 Refreshing resume data..." ;;;
  outcome <- attempt refresh_resume_try ;;
  match outcome with
  | Ok _ => ret tt
  | Raise e => print ("❌ Error refreshing resume: " +:+ exn_msg e)
  end.

End Refresh.

(** *** config.py: the thresholds *)

(** [int(os.getenv("MIN_SCORE_FOR_RESEARCH", "70"))] and
    [int(os.getenv("MIN_SCORE_FOR_NOTIFICATION", "80"))], as the class
    [Config] holds them once the module is loaded. *)
Record Thresholds := mkThresholds {
  MIN_SCORE_FOR_RESEARCH : Z;
  MIN_SCORE_FOR_NOTIFICATION : Z
}.

(** *** main.py: research_high_scoring *)

Section Research.

Variable P : Platform.
Variable T : Thresholds.

(** [research_company(company)] for a company that is any value: a record
    holds what the model gave for it.  The value is formatted where the
    texts of the search and of the prompt are built and stored as it is.
    On a text this is [research_company]. *)
Definition research_company_of (company : value) : M Dict :=
  let max_urls := 5%nat in
  search_results <- _search_company P (fmt P company) max_urls ;;
  url_contents <- fetch_results P (firstn max_urls search_results) [] ;;
  match url_contents with
  | [] => ret (<["company" := company]> (no_information (fmt P company)))
  | _ =>
      let content_text :=
        PyStr.join (PyStr.nl +:+ PyStr.nl +:+ "---" +:+ PyStr.nl +:+ PyStr.nl)
          (map (fun item =>
                  "URL: " +:+ uc_url item +:+ PyStr.nl
                  +:+ "Title: " +:+ uc_title item +:+ PyStr.nl
                  +:+ "Content: " +:+ uc_content item)
               url_contents) in
      research_result <- parse_structured P (research_prompt (fmt P company) content_text) ;;
      if Py.has_key research_result "error"
      then ret (<["company" := company]>
                  (research_failed P (fmt P company) url_contents research_result))
      else
        let research_result := setdefault "company" company research_result in
        let research_result := setdefault "tech_stack" (VList []) research_result in
        let research_result := setdefault "values" (VList []) research_result in
        let research_result := setdefault "recent_news" (VList []) research_result in
        ret (<["sources" := sources_of url_contents]> research_result)
  end.

(** The [try] block of the loop of [research_high_scoring]. *)
Definition research_and_save (job : Dict) (company : value) : M unit :=
  research <- research_company_of company ;;
  let job := <["company_research" := VDict research]> job in
  job_id <- lift (item job "id") ;;
  write_job P (fmt P job_id) job ;;;
  print ("✅ Researched: " +:+ fmt P company).

(** The loop of [research_high_scoring]; [researched_companies] is the set
    of that name, in the order in which the companies entered it. *)
Fixpoint research_loop (jobs : list Dict) (researched_companies : list value)
    : M (list value) :=
  match jobs with
  | [] => ret researched_companies
  | job :: later =>
      let company := Py.get job "company" (VStr "") in
      if negb (Py.truthy company) then research_loop later researched_companies
      else if negb (PyAny.hashable company)
      then raise (Exn TypeError ("unhashable type: '" +:+ PyAny.type_name company +:+ "'"))
      else if existsb (PyAny.same_key company) researched_companies
      then research_loop later researched_companies
      else
        let researched_companies := (researched_companies ++ [company])%list in
        outcome <- attempt (research_and_save job company) ;;
        match outcome with
        | Ok _ => research_loop later researched_companies
        | Raise e =>
            print ("❌ Error researching " +:+ fmt P company +:+ ": " +:+ exn_msg e) ;;;
            research_loop later researched_companies
        end
  end.

Definition research_high_scoring : M unit :=
  jobs <- get_high_scoring_jobs (MIN_SCORE_FOR_RESEARCH T) ;;
  match jobs with
  | [] => print "No high-scoring jobs to research"
  | _ =>
      print ("🔍 Researching " +:+ pretty (length jobs) +:+ " high-scoring companies...") ;;;
      researched_companies <- research_loop jobs [] ;;
      print (PyStr.nl +:+ "✨ Researched " +:+ pretty (length researched_companies)
             +:+ " companies")
  end.

End Research.

(** *** material_generator.py *)

(** The texts written for the applications, by the path of their file,
    and the prompts sent to the creative model, oldest first. *)
Record Desk := mkDesk {
  world : World;
  cover_letters : gmap string string;
  resume_highlights : gmap string string;
  creative_calls : list string
}.

Definition G (A : Type) : Type := Desk -> result A * Desk.

Definition gret {A} (a : A) : G A := fun d => (Ok a, d).

Definition gbind {A B} (c : G A) (k : A -> G B) : G B :=
  fun d =>
    match c d with
    | (Ok a, d') => k a d'
    | (Raise e, d') => (Raise e, d')
    end.

Definition gattempt {A} (c : G A) : G (result A) :=
  fun d => let '(r, d') := c d in (Ok r, d').

Definition glift {A} (r : result A) : G A := fun d => (r, d).

(** A computation that touches the world only. *)
Definition on_world {A} (c : M A) : G A :=
  fun d =>
    let '(r, w) := c (world d) in
    (r, mkDesk w (cover_letters d) (resume_highlights d) (creative_calls d)).

Notation "x <-- c ;; k" := (gbind c (fun x => k))
  (at level 100, c at next level, right associativity).
Notation "c ;;- k" := (gbind c (fun _ => k))
  (at level 100, right associativity).

Section Materials.

Variable P : Platform.
Variable T : Thresholds.

(** [self.llm_creative.invoke(prompt)], which answers with a text or
    raises. *)
Variable llm_creative_invoke : Desk -> string -> result string.

(** [Path(name).mkdir(exist_ok=True)] *)
Variable make_dir : Desk -> string -> result unit.

(** The opening of a file for writing. *)
Variable open_text : Desk -> string -> result unit.

(** [Path(directory) / name], as a text. *)
Variable path_str : string -> string -> string.

(** What [get_job] finds for an identifier that is no plain name. *)
Variable stray_file : World -> string -> result (option value).

(** [self.ollama.generate_text(prompt, creative=True)]; the call is
    recorded. *)
Definition generate_text (prompt : string) : G string :=
  fun d => (llm_creative_invoke d prompt,
            mkDesk (world d) (cover_letters d) (resume_highlights d)
                   (creative_calls d ++ [prompt])).

(** The list comprehension of [generate_cover_letter] over the projects. *)
Fixpoint project_lines (resume_projects : list value) : result (list string) :=
  match resume_projects with
  | [] => Ok []
  | proj :: later =>
      name <~ PyAny.get proj "name" (VStr "") ;;
      description <~ PyAny.get proj "description" (VStr "") ;;
      technologies <~ PyAny.get proj "technologies" (VList []) ;;
      technologies <~ Py.join ", " technologies ;;
      rest <~ project_lines later ;;
      Ok (("- " +:+ fmt P name +:+ ": " +:+ fmt P description
           +:+ " (Technologies: " +:+ technologies +:+ ")") :: rest)
  end.

Definition company_information (company_research : value) : result string :=
  summary <~ PyAny.get company_research "summary" (VStr "") ;;
  tech_stack <~ PyAny.get company_research "tech_stack" (VList []) ;;
  tech_stack <~ Py.join ", " tech_stack ;;
  values <~ PyAny.get company_research "values" (VList []) ;;
  values <~ Py.join ", " values ;;
  culture <~ PyAny.get company_research "culture" (VStr "") ;;
  Ok (PyStr.lines
        [""; "Company Information:";
         "- Summary: " +:+ fmt P summary;
         "- Tech Stack: " +:+ tech_stack;
         "- Values: " +:+ values;
         "- Culture: " +:+ fmt P culture;
         ""]).

Definition cover_letter_prompt (title company location description : value)
    (company_info : string) (resume_experience : value)
    (resume_skills projects_text : string) : string :=
  PyStr.lines
    ["Write a professional, customized cover letter for this job application.";
     "";
     "JOB INFORMATION:";
     "Title: " +:+ fmt P title;
     "Company: " +:+ fmt P company;
     "Location: " +:+ fmt P location;
     "Description: " +:+ fmt P description;
     "";
     company_info;
     "";
     "MY BACKGROUND:";
     "Current Role: " +:+ fmt P resume_experience;
     "Key Skills: " +:+ resume_skills;
     "Notable Projects:";
     projects_text;
     "";
     "INSTRUCTIONS:";
     "1. Address the letter professionally (use " +:+ PyStr.quoted "Dear Hiring Manager"
       +:+ " if name unknown)";
     "2. Express genuine interest in the specific role and company";
     "3. Mention 2-3 specific skills or experiences that match the job requirements";
     "4. Reference something specific about the company (from research if available, or general interest)";
     "5. Highlight one relevant project or achievement";
     "6. Keep it concise (3-4 paragraphs, ~300 words)";
     "7. End with enthusiasm and call to action";
     "8. Use professional but warm tone";
     "";
     "Write the cover letter now:"].

(** [generate_cover_letter(job, company_research)]; the job is whatever
    [get_job] or the directory gave. *)
Definition generate_cover_letter (resume_data : Dict) (job company_research : value)
    : G string :=
  resume_skills <-- glift (Py.join ", " (Py.get resume_data "skills" (VList []))) ;;
  let resume_experience := Py.get resume_data "current_role" (VStr "") in
  resume_projects <--
    glift (Py.slice_to 3 (Py.get resume_data "notable_projects" (VList []))) ;;
  resume_projects <-- glift (PyAny.iterate resume_projects) ;;
  project_texts <-- glift (project_lines resume_projects) ;;
  let projects_text := PyStr.join PyStr.nl project_texts in
  company_info <--
    glift (if Py.truthy company_research then company_information company_research
           else Ok "") ;;
  title <-- glift (PyAny.get job "title" (VStr "")) ;;
  company <-- glift (PyAny.get job "company" (VStr "")) ;;
  location <-- glift (PyAny.get job "location" (VStr "")) ;;
  description <-- glift (PyAny.get job "description" (VStr "")) ;;
  description <-- glift (Py.slice_to 800 description) ;;
  cover_letter <--
    generate_text (cover_letter_prompt title company location description company_info
                     resume_experience resume_skills projects_text) ;;
  gret (PyStr.strip cover_letter).

Definition highlights_prompt (title company description : value)
    (resume_skills : string) (projects experience : nat) : string :=
  PyStr.lines
    ["Generate a list of resume highlights tailored to this job posting.";
     "";
     "JOB POSTING:";
     "Title: " +:+ fmt P title;
     "Company: " +:+ fmt P company;
     "Description: " +:+ fmt P description;
     "";
     "MY RESUME:";
     "Skills: " +:+ resume_skills;
     "Projects: " +:+ pretty projects +:+ " notable projects";
     "Experience: " +:+ pretty experience +:+ " roles";
     "";
     "INSTRUCTIONS:";
     "Create 4-6 bullet points that highlight:";
     "1. Most relevant skills that match the job";
     "2. Relevant projects or achievements";
     "3. Relevant experience";
     "4. Why you're a good fit";
     "";
     "Format as bullet points, each 1-2 sentences. Be specific and quantify achievements where possible.";
     "";
     "Example format:";
     "- 5+ years of experience with Python and AWS, building scalable backend systems";
     "- Led development of [Project Name] using [Technologies], resulting in [Achievement]";
     "- Expertise in [Skill] with [X] years of hands-on experience";
     "";
     "Generate the highlights now:"].

Definition generate_resume_highlights (resume_data : Dict) (job : value) : G string :=
  job_description <-- glift (PyAny.get job "description" (VStr "")) ;;
  job_description <-- glift (Py.slice_to 1000 job_description) ;;
  let resume_skills := Py.get resume_data "skills" (VList []) in
  let resume_projects := Py.get resume_data "notable_projects" (VList []) in
  resume_experience <--
    glift (PyAny.append_item
             (Py.get resume_data "previous_roles" (VList []))
             (VDict (dict_of [("title", Py.get resume_data "current_role" (VStr ""));
                              ("company", VStr "Current");
                              ("responsibilities", VStr "")]))) ;;
  title <-- glift (PyAny.get job "title" (VStr "")) ;;
  company <-- glift (PyAny.get job "company" (VStr "")) ;;
  description <-- glift (PyAny.get job "description" (VStr "")) ;;
  description <-- glift (Py.slice_to 1000 description) ;;
  skills <-- glift (Py.join ", " resume_skills) ;;
  projects <-- glift (Py.len resume_projects) ;;
  experience <-- glift (Py.len resume_experience) ;;
  highlights <--
    generate_text (highlights_prompt title company description skills projects experience) ;;
  gret (PyStr.strip highlights).

Definition cover_letter_path (job_id : value) : string :=
  path_str "cover_letters" (fmt P job_id +:+ "_cover_letter.txt").

Definition highlights_path (job_id : value) : string :=
  path_str "resume_highlights" (fmt P job_id +:+ "_highlights.txt").

(** [save_cover_letter(job_id, cover_letter)]; a file that cannot be
    opened leaves the directory as it was. *)
Definition save_cover_letter (job_id : value) (cover_letter : string) : G string :=
  (fun d => (make_dir d "cover_letters", d)) ;;-
  let file_path := cover_letter_path job_id in
  (fun d =>
     match open_text d file_path with
     | Ok _ => (Ok tt, mkDesk (world d) (<[file_path := cover_letter]> (cover_letters d))
                              (resume_highlights d) (creative_calls d))
     | Raise e => (Raise e, d)
     end) ;;-
  gret file_path.

Definition save_resume_highlights (job_id : value) (highlights : string) : G string :=
  (fun d => (make_dir d "resume_highlights", d)) ;;-
  let file_path := highlights_path job_id in
  (fun d =>
     match open_text d file_path with
     | Ok _ => (Ok tt, mkDesk (world d) (cover_letters d)
                              (<[file_path := highlights]> (resume_highlights d))
                              (creative_calls d))
     | Raise e => (Raise e, d)
     end) ;;-
  gret file_path.

(** *** main.py: generate_materials *)

(** The [try] block of the loop of [generate_materials]. *)
Definition generate_for (resume_data : Dict) (job : value) : G unit :=
  company_research <-- glift (PyAny.get job "company_research" VNone) ;;
  cover_letter <-- generate_cover_letter resume_data job company_research ;;
  job_id <-- glift (PyAny.item job "id") ;;
  cover_letter_path <-- save_cover_letter job_id cover_letter ;;
  highlights <-- generate_resume_highlights resume_data job ;;
  job_id <-- glift (PyAny.item job "id") ;;
  highlights_path <-- save_resume_highlights job_id highlights ;;
  title <-- glift (PyAny.get job "title" (VStr "Unknown")) ;;
  company <-- glift (PyAny.get job "company" (VStr "Unknown")) ;;
  on_world
    (print ("✅ Generated materials for: " +:+ fmt P title +:+ " at " +:+ fmt P company) ;;;
     print ("   Cover letter: " +:+ cover_letter_path) ;;;
     print ("   Highlights: " +:+ highlights_path)).

(** The loop of [generate_materials].  The handler reads the identifier
    of the job for its message, outside of any [try]. *)
Fixpoint materials_loop (resume_data : Dict) (jobs : list value) : G unit :=
  match jobs with
  | [] => gret tt
  | job :: later =>
      outcome <-- gattempt (generate_for resume_data job) ;;
      match outcome with
      | Ok _ => materials_loop resume_data later
      | Raise e =>
          job_id <-- glift (PyAny.get job "id" (VStr "Unknown")) ;;
          on_world
            (print ("❌ Error generating materials for job "
                    +:+ fmt P job_id +:+ ": " +:+ exn_msg e)) ;;-
          materials_loop resume_data later
      end
  end.

(** The jobs that [generate_materials] works on: [None] when it has
    reported that the job is not there. *)
Definition selected_jobs (job_id : option string) : M (option (list value)) :=
  match job_id with
  | Some job_id =>
      if negb (String.eqb job_id "") then
        job <- get_job stray_file job_id ;;
        match job with
        | Some job =>
            if Py.truthy job then ret (Some [job])
            else print ("Job " +:+ job_id +:+ " not found") ;;; ret None
        | None => print ("Job " +:+ job_id +:+ " not found") ;;; ret None
        end
      else
        jobs <- get_high_scoring_jobs (MIN_SCORE_FOR_NOTIFICATION T) ;;
        ret (Some (map VDict jobs))
  | None =>
      jobs <- get_high_scoring_jobs (MIN_SCORE_FOR_NOTIFICATION T) ;;
      ret (Some (map VDict jobs))
  end.

Definition generate_materials (job_id : option string) : G unit :=
  selection <-- on_world (selected_jobs job_id) ;;
  match selection with
  | None => gret tt
  | Some [] => on_world (print "No jobs found for material generation")
  | Some jobs =>
      loaded <-- on_world (attempt (parse_resume P false)) ;;
      match loaded with
      | Raise e => on_world (print ("❌ Error loading resume: " +:+ exn_msg e))
      | Ok resume_data =>
          on_world (print ("📝 Generating materials for " +:+ pretty (length jobs)
                           +:+ " jobs...")) ;;-
          materials_loop resume_data jobs ;;-
          on_world (print (PyStr.nl +:+ "✨ Generated materials for "
                           +:+ pretty (length jobs) +:+ " jobs"))
      end
  end.

End Materials.

(** *** main.py: the listing of review_jobs and the report of research_company *)

(** ['='*80] and ['-'*80] *)
Definition rule (c : string) : string := PyStr.join "" (repeat c 80).

Section Reports.

Variable P : Platform.

(** The body of the loop of [review_jobs]. *)
Definition print_job (job : Dict) : M unit :=
  let score := Py.get job "score" (VStr "Not scored") in
  print ("Title: " +:+ fmt P (Py.get job "title" (VStr "Unknown"))) ;;;
  print ("Company: " +:+ fmt P (Py.get job "company" (VStr "Unknown"))) ;;;
  print ("Location: " +:+ fmt P (Py.get job "location" (VStr "Unknown"))) ;;;
  print ("Score: " +:+ fmt P score +:+ "/100") ;;;
  (if Py.has_key job "scoring" then
     scoring <- lift (item job "scoring") ;;
     reasoning <- lift (PyAny.get scoring "reasoning" (VStr "N/A")) ;;
     reasoning <- lift (Py.slice_to 100 reasoning) ;;
     print ("Reasoning: " +:+ fmt P reasoning +:+ "...")
   else ret tt) ;;;
  print ("URL: " +:+ fmt P (Py.get job "url" (VStr "N/A"))) ;;;
  print ("Source: " +:+ fmt P (Py.get job "source" (VStr "Unknown"))) ;;;
  print ("ID: " +:+ fmt P (Py.get job "id" (VStr "Unknown"))) ;;;
  print (rule "-" +:+ PyStr.nl).

Fixpoint print_jobs (jobs : list Dict) : M unit :=
  match jobs with
  | [] => ret tt
  | job :: later => print_job job ;;; print_jobs later
  end.

(** The statements of [review_jobs] that follow the selection. *)
Definition print_listing (jobs : list Dict) : M unit :=
  match jobs with
  | [] => print "No jobs found"
  | _ =>
      print (PyStr.nl +:+ rule "=") ;;;
      print ("📋 JOB LISTING (" +:+ pretty (length jobs) +:+ " jobs)") ;;;
      print (rule "=" +:+ PyStr.nl) ;;;
      print_jobs jobs
  end.

(** [review_jobs(min_score)] as a whole. *)
Definition review_jobs_command (min_score : option Z) : M unit :=
  jobs <- review_jobs min_score ;;
  print_listing jobs.

(** The loop over [research.get('recent_news', [])]. *)
Fixpoint print_news (recent_news : list value) : M unit :=
  match recent_news with
  | [] => ret tt
  | news :: later => print ("  - " +:+ fmt P news) ;;; print_news later
  end.

(** The statements of [research_company] of main.py that follow the
    research. *)
Definition print_research (company_name : string) (research : Dict) : M unit :=
  print (PyStr.nl +:+ rule "=") ;;;
  print ("📊 COMPANY RESEARCH: " +:+ fmt P (Py.get research "company" (VStr company_name))) ;;;
  print (rule "=" +:+ PyStr.nl) ;;;
  print ("Summary: " +:+ fmt P (Py.get research "summary" (VStr "N/A"))) ;;;
  tech_stack <- lift (Py.join ", " (Py.get research "tech_stack" (VList []))) ;;
  print (PyStr.nl +:+ "Tech Stack: " +:+ tech_stack) ;;;
  values <- lift (Py.join ", " (Py.get research "values" (VList []))) ;;
  print ("Values: " +:+ values) ;;;
  print ("Size: " +:+ fmt P (Py.get research "size" (VStr "N/A"))) ;;;
  print ("Industry: " +:+ fmt P (Py.get research "industry" (VStr "N/A"))) ;;;
  print ("Funding Stage: " +:+ fmt P (Py.get research "funding_stage" (VStr "N/A"))) ;;;
  print (PyStr.nl +:+ "Culture: " +:+ fmt P (Py.get research "culture" (VStr "N/A"))) ;;;
  print (PyStr.nl +:+ "Recent News:") ;;;
  recent_news <- lift (PyAny.iterate (Py.get research "recent_news" (VList []))) ;;
  print_news recent_news ;;;
  sources <- lift (Py.join ", " (Py.get research "sources" (VList []))) ;;
  print (PyStr.nl +:+ "Sources: " +:+ sources).

(** [research_company(company_name)] of main.py, the command. *)
Definition research_company_command (company_name : string) : M unit :=
  print ("🔍 Researching " +:+ company_name +:+ "...") ;;;
  research <- research_company P company_name ;;
  print_research company_name research.

End Reports.

(** ** Vocabulary of the properties *)

(** The world after the prompts [prompts] have been sent to the model, and
    nothing else has happened. *)
Definition add_calls (w : World) (prompts : list string) : World :=
  mkWorld (jobs_dir w) (resume_cache w) (llm_calls w ++ prompts)
          (read_marks w) (console w).

(** No JSON object can be decoded from [text]: neither the span between
    its braces nor the trimmed text decodes to a dictionary. *)
Definition undecodable (P : Platform) (text : string) : Prop :=
  forall d : Dict,
    json_loads P (PyStr.strip text) <> Ok (VDict d)
    /\ (forall span, search_braces text = Some span -> json_loads P span <> Ok (VDict d)).

(** Every key of [keys] is present in [d]. *)
Definition has_all (d : Dict) (keys : list string) : Prop :=
  Forall (fun k => is_Some (d !! k)) keys.

(** The records of the jobs directory, as [get_all_jobs] lists them. *)
Definition records (w : World) : list Dict := map snd (map_to_list (jobs_dir w)).

(** The record is the one with the identifier [job_id]. *)
Definition has_id (job_id : string) (job : Dict) : bool :=
  Py.eq_str (Py.get job "id" VNone) job_id.

(** Every record is filed under its own identifier, as [check_emails]
    writes it. *)
Definition filed_by_id (jobs : gmap string Dict) : Prop :=
  forall name job, jobs !! name = Some job -> job !! "id" = Some (VStr name).

(** The score of a record is an integer when it has one. *)
Definition integer_score (job : Dict) : Prop :=
  job !! "score" = None \/ exists n, job !! "score" = Some (VInt n).

(** The score of a record, 0 when it has none. *)
Definition score_of (job : Dict) : Z :=
  match job !! "score" with
  | Some (VInt n) => n
  | _ => 0
  end.

(** The score of a record as a value, the integer 0 when it has none. *)
Definition score_value (job : Dict) : value := default (VInt 0) (job !! "score").

(** [a >= b] between two numbers; [False] when one of them is NaN. *)
Definition at_least (a b : value) : bool :=
  match Py.num_compare a b with
  | Some Gt | Some Eq => true
  | _ => false
  end.

(** A float of Python: a binary64 number, an infinity or NaN. *)
Definition binary64 (f : spec_float) : bool := valid_binary 53 1024 f.

(** The score of a record is a number when it has one: an integer, a
    boolean or a float. *)
Definition number_score (job : Dict) : Prop :=
  match job !! "score" with
  | None | Some (VInt _) | Some (VBool _) => True
  | Some (VFloat f) => binary64 f = true
  | Some _ => False
  end.

(** A number other than NaN. *)
Definition ordered_number (v : value) : Prop :=
  match v with
  | VInt _ | VBool _ => True
  | VFloat S754_nan => False
  | VFloat f => binary64 f = true
  | _ => False
  end.

(** -1, 0 and 1 for minus infinity, the finite numbers and infinity. *)
Definition infinity_of (v : value) : Z :=
  match v with
  | VFloat (S754_infinity s) => if s then -1 else 1
  | _ => 0
  end.

(** The exponent of a finite float that is not zero; 0 for every other
    number. *)
Definition exponent_of (v : value) : Z :=
  match v with
  | VFloat (S754_finite _ _ e) => e
  | _ => 0
  end.

(** A finite number counted in units of [2 ^ E], for an [E] that is at
    most 0 and at most its exponent. *)
Definition in_units (E : Z) (v : value) : Z :=
  match v with
  | VInt n => n * 2 ^ (- E)
  | VBool b => Py.int_of_bool b * 2 ^ (- E)
  | VFloat (S754_finite s m e) => (if s then Z.neg m else Z.pos m) * 2 ^ (e - E)
  | _ => 0
  end.

(** The order of two numbers other than NaN: first by infinity, then by
    the count of units. *)
Definition compare_in_units (E : Z) (a b : value) : comparison :=
  match infinity_of a ?= infinity_of b with
  | Eq => in_units E a ?= in_units E b
  | c => c
  end.

(** Title, company and url of two postings are the same up to letter case. *)
Definition same_up_to_case (P : Platform) (a b : Dict) : Prop :=
  Forall (fun k => PyStr.lower (fmt P (Py.get a k (VStr "")))
                   = PyStr.lower (fmt P (Py.get b k (VStr ""))))
         ["title"; "company"; "url"].

(** The fields that each prompt asks the model for. *)
Definition email_fields : list string :=
  ["title"; "company"; "location"; "description"; "url"; "source"; "salary";
   "employment_type"].
Definition resume_fields : list string :=
  ["skills"; "experience_years"; "experience_level"; "education"; "notable_projects";
   "areas_of_expertise"; "current_role"; "previous_roles"].
Definition company_fields : list string :=
  ["company"; "summary"; "tech_stack"; "values"; "recent_news"; "culture"; "size";
   "industry"; "funding_stage"].

(** The title that [clean_up] leaves: the model's when it is there and not
    empty, the one drawn from the subject otherwise. *)
Definition kept_title (subject : string) (job_data : Dict) : value :=
  match job_data !! "title" with
  | Some title => if Py.truthy title then title else VStr (_extract_title_from_subject subject)
  | None => VStr (_extract_title_from_subject subject)
  end.

(** The url that the documentation gives for a posting without one: the
    first url of the body with a job keyword in it, else the first url of
    the body, else the empty string. *)
Definition documented_url (body : string) : string :=
  match find looks_like_job (findall_urls body) with
  | Some url => url
  | None => hd "" (findall_urls body)
  end.

(** The provider list of the documentation. *)
Definition providers : list (string * string) :=
  [("linkedin", "LinkedIn"); ("indeed", "Indeed"); ("glassdoor", "Glassdoor");
   ("ziprecruiter", "ZipRecruiter"); ("monster", "Monster")].

(** The source that the documentation gives for a posting without one: the
    first provider whose keyword occurs in the sender, else "Unknown". *)
Definition documented_source (sender : string) : string :=
  match find (fun p => PyStr.contains (fst p) (PyStr.lower sender)) providers with
  | Some p => snd p
  | None => "Unknown"
  end.

(** A string of lower-case hexadecimal digits. *)
Definition hex_string (s : string) : Prop :=
  Forall (fun c => In c (list_ascii_of_string "0123456789abcdef"))
         (list_ascii_of_string s).

(** What one turn of the loop of [check_emails] did with a message: it
    stored a new record, it skipped a duplicate, or its [try] block was left
    by an exception before the message was marked read. *)
Inductive turn (P : Platform) (email : Email) (before : nat * World)
    (after : nat * World) : Prop :=
| turn_stored (job_data : Dict) :
    fst (parse_email P (email_subject email) (email_body email) (email_from email)
           (snd before)) = Ok job_data ->
    existsb (has_id (_generate_job_id P job_data)) (records (snd before)) = false ->
    fst after = S (fst before) ->
    jobs_dir (snd after)
    = <[_generate_job_id P job_data :=
          <["id" := VStr (_generate_job_id P job_data)]> job_data]> (jobs_dir (snd before)) ->
    read_marks (snd after) = (read_marks (snd before) ++ [email_id email])%list ->
    turn P email before after
| turn_duplicate (job_data : Dict) :
    fst (parse_email P (email_subject email) (email_body email) (email_from email)
           (snd before)) = Ok job_data ->
    existsb (has_id (_generate_job_id P job_data)) (records (snd before)) = true ->
    fst after = fst before ->
    jobs_dir (snd after) = jobs_dir (snd before) ->
    read_marks (snd after) = (read_marks (snd before) ++ [email_id email])%list ->
    turn P email before after
| turn_failed (e : exn) :
    fst (check_email_try P email (fst before) (snd before)) = Raise e ->
    fst after = fst before ->
    jobs_dir (snd after) = jobs_dir (snd before) ->
    read_marks (snd after) = read_marks (snd before) ->
    last (console (snd after)) = Some ("❌ Error parsing email: " +:+ exn_msg e) ->
    turn P email before after.

(** What an attempt of [parse_structured] made from the world [w] comes
    to: the dictionary decoded from the model's answer, [None] when the
    answer decodes to something else, or the exception of the model or of
    the decoder. *)
Definition attempt_outcome (P : Platform) (prompt : string) (w : World)
    : result (option Dict) :=
  match llm_invoke P w prompt with
  | Ok answer => decode_response P answer
  | Raise e => Raise e
  end.

(** The attempt gives no dictionary. *)
Definition fruitless (outcome : result (option Dict)) : Prop :=
  forall d, outcome <> Ok (Some d).

(** The variable [response] of [parse_structured] after an attempt made
    from the world [w]: the model's answer, or what it held before when the
    model raised. *)
Definition response_after (P : Platform) (prompt : string) (w : World)
    (response : string) : string :=
  match llm_invoke P w prompt with
  | Ok answer => answer
  | Raise _ => response
  end.

(** The [error] entry after a last attempt with the outcome [last]. *)
Definition failure_message (last : result (option Dict)) : string :=
  match last with
  | Raise e => exn_msg e
  | Ok _ => "Failed to parse after retries"
  end.

(** Between the worlds [w] and [w'] nothing happened but calls of the
    model, at most [n] of them. *)
Definition only_calls (n : nat) (w w' : World) : Prop :=
  exists prompts, w' = add_calls w prompts /\ (length prompts <= n)%nat.

(** The record [after] is the record [before] with the outcome of a
    scoring: the mapping [scoring] that [score_job] returned, and its score,
    an integer between 0 and 100. *)
Definition rescored (before after : Dict) : Prop :=
  exists scoring n,
    0 <= n <= 100
    /\ scoring !! "score" = Some (VInt n)
    /\ after = <["scoring" := VDict scoring]> (<["score" := VInt n]> before).

(** A text without line boundary, without white space at its ends and
    without two blanks in a row. *)
Definition tidy (text : string) : Prop :=
  Forall (fun c => is_line_break c = false) (list_ascii_of_string text)
  /\ PyStr.strip text = text
  /\ PyStr.contains "  " text = false.

(** A part of a message that is neither a plain text nor an HTML text: a
    container of further parts, an attachment. *)
Definition other_part (part : value) : Prop :=
  exists d body,
    part = VDict d
    /\ Py.get d "body" (VDict ∅) = VDict body
    /\ Py.eq_str (Py.get d "mimeType" (VStr "")) "text/plain" = false
    /\ Py.eq_str (Py.get d "mimeType" (VStr "")) "text/html" = false.

(** An element of a document that is no paragraph: a table, a section
    break, a table of contents. *)
Definition no_paragraph (element : value) : Prop :=
  exists d, element = VDict d /\ d !! "paragraph" = None.

(** The platform [P] reads a document by asking [docs_get] for it and
    collecting its text as [get_resume_text] does. *)
Definition reads_documents (docs_get : World -> string -> result value)
    (P : Platform) : Prop :=
  forall w document_id,
    docs_text P w document_id = (doc <~ docs_get w document_id ;; document_text doc).

(** The company of a record, as [research_high_scoring] reads it. *)
Definition company_of (job : Dict) : value := Py.get job "company" (VStr "").

(** The record [after] is the record [before] with a company profile
    attached. *)
Definition researched (before after : Dict) : Prop :=
  exists research, after = <["company_research" := VDict research]> before.

(** Between the desks [d] and [d'] nothing happened but calls of the
    creative model, at most [n] of them. *)
Definition only_creative_calls (n : nat) (d d' : Desk) : Prop :=
  world d' = world d
  /\ cover_letters d' = cover_letters d
  /\ resume_highlights d' = resume_highlights d
  /\ exists prompts,
       creative_calls d' = (creative_calls d ++ prompts)%list
       /\ (length prompts <= n)%nat.

(** What stands at [path] among the files [after] stood there among the
    files [before], or it is a text without white space at its ends, written
    for one of the [jobs] at the path of its identifier, and [also] holds of
    this identifier. *)
Definition written_for (path_of : value -> string) (jobs : list value)
    (also : value -> Prop) (before after : gmap string string) (path : string) : Prop :=
  after !! path = before !! path
  \/ exists job job_id text,
       In job jobs /\ PyAny.item job "id" = Ok job_id /\ path = path_of job_id
       /\ after !! path = Some text /\ PyStr.strip text = text /\ also job_id.

(** The jobs that [generate_materials] works on from the world [w]: the
    one that [get_job] finds for a given identifier, else the records that
    reach [MIN_SCORE_FOR_NOTIFICATION]; none when the selection raises or
    finds nothing. *)
Definition jobs_selected (T : Thresholds)
    (stray_file : World -> string -> result (option value))
    (job_id : option string) (w : World) : list value :=
  match fst (selected_jobs T stray_file job_id w) with
  | Ok (Some jobs) => jobs
  | _ => []
  end.

(** The job is a record of the directory of the world [w]. *)
Definition stored_record (w : World) (job : value) : Prop :=
  exists record, job = VDict record /\ In record (records w).

(** A value that [v[:n]] accepts. *)
Definition sliceable (v : value) : Prop :=
  match v with
  | VStr _ | VList _ => True
  | _ => False
  end.

(** The listing can print the record: it has no [scoring], or its
    [scoring] is a dictionary whose [reasoning] can be cut. *)
Definition listable (job : Dict) : Prop :=
  match job !! "scoring" with
  | None => True
  | Some (VDict scoring) => sliceable (Py.get scoring "reasoning" (VStr "N/A"))
  | Some _ => False
  end.

(** Between the worlds [w] and [w'] nothing happened but printing. *)
Definition only_prints (w w' : World) : Prop :=
  jobs_dir w' = jobs_dir w
  /\ resume_cache w' = resume_cache w
  /\ llm_calls w' = llm_calls w
  /\ read_marks w' = read_marks w
  /\ exists lines, console w' = (console w ++ lines)%list.

(** The operation returns a value, it does not raise. *)
Definition succeeds {A} (r : result A) : Prop := exists a, r = Ok a.

(** ** Sample platforms and inputs *)

Module Samples.

Definition empty_object : string := "{}".

(** The text [{"score": Infinity}] *)
Definition infinite_score : string := PyStr.json_object [("score", "Infinity")].

(** The text [{"title": "", "company": "", "location": ""}] *)
Definition blank_fields : string :=
  PyStr.json_object [("title", PyStr.quoted ""); ("company", PyStr.quoted "");
                     ("location", PyStr.quoted "")].

(** The text [{"title": "Backend Engineer", "company": "Acme", "url": "https://acme.com/careers/123"}] *)
Definition acme_posting : string :=
  PyStr.json_object [("title", PyStr.quoted "Backend Engineer");
                     ("company", PyStr.quoted "Acme");
                     ("url", PyStr.quoted "https://acme.com/careers/123")].

(** [json.loads] on the four texts above, which are the only ones that the
    examples decode; any other text is refused. *)
Definition loads (text : string) : result value :=
  if String.eqb text empty_object then Ok (VDict ∅)
  else if String.eqb text infinite_score
  then Ok (VDict (dict_of [("score", VFloat (S754_infinity false))]))
  else if String.eqb text blank_fields
  then Ok (VDict (dict_of [("title", VStr ""); ("company", VStr ""); ("location", VStr "")]))
  else if String.eqb text acme_posting
  then Ok (VDict (dict_of [("title", VStr "Backend Engineer"); ("company", VStr "Acme");
                           ("url", VStr "https://acme.com/careers/123")]))
  else Raise (Exn JSONDecodeError "Expecting value: line 1 column 1 (char 0)").

Definition refused {A} (reason : string) : result A := Raise (Exn ConnectionError reason).

(** [str(v)] on [None], the booleans and the integers; the examples format
    no float, list or dictionary. *)
Definition str (v : value) : string :=
  match v with
  | VNone => "None"
  | VBool true => "True"
  | VBool false => "False"
  | VInt n => pretty n
  | VStr s => s
  | VFloat _ | VList _ | VDict _ => "..."
  end.

(** A platform whose model answers [answer] to every prompt; the mailbox
    holds [emails], the web search finds [hits], no page can be fetched and
    every write succeeds. *)
Definition answering (answer : string) (emails : list Email) (hits : list SearchResult)
    : Platform :=
  mkPlatform loads str "resume-doc" [] ""
    (fun _ _ => Ok answer)
    (fun _ _ => Ok emails)
    (fun _ _ => Ok tt)
    (fun _ _ => Ok "Python developer, five years")
    (fun _ _ _ => Ok hits)
    (fun _ _ => refused "connection timed out")
    (fun _ _ => Ok tt).

(** The same platform with a web on which every page reads [page]. *)
Definition browsing (answer page : string) (hits : list SearchResult) : Platform :=
  mkPlatform loads str "resume-doc" [] ""
    (fun _ _ => Ok answer)
    (fun _ _ => Ok [])
    (fun _ _ => Ok tt)
    (fun _ _ => Ok "Python developer, five years")
    (fun _ _ _ => Ok hits)
    (fun _ _ => Ok page)
    (fun _ _ => Ok tt).

Definition acme_hits : list SearchResult :=
  [mkSearchResult "https://acme.com/about" (Some "About Acme");
   mkSearchResult "https://news.example.com/acme" None].

Definition fresh : World := mkWorld ∅ None [] [] [].

Definition acme_email : Email :=
  mkEmail "msg-1" "Senior Backend Engineer - Acme Corp"
          "jobs@linkedin.com" "Apply at https://acme.com/careers/123 today".

Definition other_email : Email :=
  mkEmail "msg-2" "Fwd: Data Analyst | Initech" "alerts@indeed.com" "No link here".

Definition engineer_at_acme : Dict :=
  dict_of [("title", VStr "Engineer"); ("company", VStr "Acme");
           ("url", VStr "https://acme.com/jobs/1"); ("location", VStr "Remote")].

(** The same posting as [engineer_at_acme], found by another source. *)
Definition engineer_at_acme_again : Dict :=
  dict_of [("title", VStr "Engineer"); ("company", VStr "Acme");
           ("url", VStr "https://acme.com/jobs/1"); ("location", VStr "Berlin");
           ("source", VStr "Indeed")].

(** [engineer_at_acme] with another letter case in title and company. *)
Definition engineer_at_acme_shouted : Dict :=
  dict_of [("title", VStr "ENGINEER"); ("company", VStr "ACME");
           ("url", VStr "https://acme.com/jobs/1"); ("location", VStr "Remote")].

(** The file that the posting of [acme_email] goes to when the model
    answers [empty_object]. *)
Definition protected_path : string :=
  "jobs/"
  +:+ _generate_job_id (answering empty_object [] [])
        (clean_up (email_subject acme_email) (email_body acme_email)
                  (email_from acme_email) ∅)
  +:+ ".json".

(** A platform whose model answers [empty_object] to every prompt, whose
    mailbox holds [acme_email] and [other_email], and on which the file
    [protected_path] cannot be written. *)
Definition write_protected : Platform :=
  mkPlatform loads str "resume-doc" [] ""
    (fun _ _ => Ok empty_object)
    (fun _ _ => Ok [acme_email; other_email])
    (fun _ _ => Ok tt)
    (fun _ _ => Ok "Python developer, five years")
    (fun _ _ _ => Ok [])
    (fun _ _ => refused "connection timed out")
    (fun _ path =>
       if String.eqb path protected_path
       then Raise (Exn OSError "[Errno 13] Permission denied")
       else Ok tt).

(** The world when the loop of [check_emails] starts, from [fresh]. *)
Definition at_loop_start : World :=
  mkWorld ∅ None [] []
    ["🔍 Checking Gmail for job alerts..."; "Found 2 unread job emails"].

(** The world after [acme_email] has been ingested once, from [fresh], on
    a platform whose model answers [acme_posting]. *)
Definition ingested_once : World :=
  snd (check_email (answering acme_posting [acme_email] []) acme_email 0 fresh).

Definition scored (job_id title : string) (score : option Z) : Dict :=
  dict_of (("id", VStr job_id) :: ("title", VStr title)
           :: match score with Some n => [("score", VInt n)] | None => [] end).

(** Five records with the scores 95, 60, 80, 0 and none. *)
Definition five_records : World :=
  mkWorld
    (list_to_map
       [("0a0000000001", scored "0a0000000001" "Staff Engineer" (Some 95));
        ("0a0000000002", scored "0a0000000002" "Support Agent" (Some 60));
        ("0a0000000003", scored "0a0000000003" "Backend Engineer" (Some 80));
        ("0a0000000004", scored "0a0000000004" "Driver" (Some 0));
        ("0a0000000005", scored "0a0000000005" "Data Analyst" None)])
    None [] [] [].

Definition python_resume : Dict :=
  dict_of [("skills", VList [VStr "Python"; VStr "SQL"]);
           ("experience_years", VInt 5); ("experience_level", VStr "mid")].

(** A directory that holds [engineer_at_acme], not scored yet, and a
    cached resume. *)
Definition unscored_store : World :=
  mkWorld
    (list_to_map
       [("d346801e8a67", <["id" := VStr "d346801e8a67"]> engineer_at_acme)])
    (Some python_resume) [] [] [].

(** A reply that was forwarded: the job alert of [other_email]
    under the subject that a mail program gives it then, with two links
    in its body, the second of which leads to the posting. *)
Definition forwarded_reply : Email :=
  mkEmail "msg-3" "Fwd: Re: Data Analyst | Initech" "alerts@indeed.com"
          "See https://initech.com/about or https://initech.com/careers/77 now".

(** A directory with a record scored 95 and a record whose score is
    [null], as [check_emails] stores a posting for which the Gateway
    answered with ["score": null]. *)
Definition null_score : World :=
  mkWorld
    (list_to_map
       [("0a0000000001", scored "0a0000000001" "Staff Engineer" (Some 95));
        ("0a0000000006", <["score" := VNone]> (scored "0a0000000006" "Clerk" None))])
    None [] [] [].

(** The float 80.5 *)
Definition eighty_and_a_half : spec_float := S754_finite false 5664683906301952 (-46).

Definition scored_as (job_id : string) (score : value) : Dict :=
  dict_of [("id", VStr job_id); ("score", score)].

(** Six records with the scores 80.5, [True], 95, NaN, none and infinity. *)
Definition mixed_scores : World :=
  mkWorld
    (list_to_map
       [("0a0000000001", scored_as "0a0000000001" (VFloat eighty_and_a_half));
        ("0a0000000002", scored_as "0a0000000002" (VBool true));
        ("0a0000000003", scored_as "0a0000000003" (VInt 95));
        ("0a0000000004", scored_as "0a0000000004" (VFloat S754_nan));
        ("0a0000000005", scored "0a0000000005" "Data Analyst" None);
        ("0a0000000006", scored_as "0a0000000006" (VFloat (S754_infinity false)))])
    None [] [] [].

End Samples.

(** ** Further platforms and inputs *)

Module Cases.

(** A platform whose model answers [answer] to the first call and is out
    of reach afterwards. *)
Definition going_down (answer : string) : Platform :=
  mkPlatform Samples.loads Samples.str "resume-doc" [] ""
    (fun w _ => match llm_calls w with
                | [] => Ok answer
                | _ => Samples.refused "connection reset"
                end)
    (fun _ _ => Ok [])
    (fun _ _ => Ok tt)
    (fun _ _ => Ok "Python developer, five years")
    (fun _ _ _ => Ok [])
    (fun _ _ => Samples.refused "connection timed out")
    (fun _ _ => Ok tt).

(** A platform whose mail provider refuses the listing of the messages. *)
Definition mailbox_down : Platform :=
  mkPlatform Samples.loads Samples.str "resume-doc" [] ""
    (fun _ _ => Ok Samples.empty_object)
    (fun _ _ => Raise (Exn HttpError "<HttpError 503 Service Unavailable>"))
    (fun _ _ => Ok tt)
    (fun _ _ => Ok "Python developer, five years")
    (fun _ _ _ => Ok [])
    (fun _ _ => Samples.refused "connection timed out")
    (fun _ _ => Ok tt).

(** The text [{"score": 150}] *)
Definition score_150 : string := PyStr.json_object [("score", "150")].

(** [json.loads] on [score_150], besides the texts of [Samples.loads]. *)
Definition loads (text : string) : result value :=
  if String.eqb text score_150 then Ok (VDict (dict_of [("score", VInt 150)]))
  else Samples.loads text.

(** A platform whose model scores every posting 150. *)
Definition generous : Platform :=
  mkPlatform loads Samples.str "resume-doc" [] ""
    (fun _ _ => Ok score_150)
    (fun _ _ => Ok [])
    (fun _ _ => Ok tt)
    (fun _ _ => Ok "Python developer, five years")
    (fun _ _ _ => Ok [])
    (fun _ _ => Samples.refused "connection timed out")
    (fun _ _ => Ok tt).

(** What [score_job] returns for [Samples.engineer_at_acme] and
    [Samples.python_resume] on the platform [generous]. *)
Definition scoring_of_150 : Dict :=
  dict_of [("score", VInt 100);
           ("reasoning", VStr "Score calculated based on resume match");
           ("matched_skills", VList []); ("missing_skills", VList []);
           ("resume_skills_count", VInt 2);
           ("job_title", VStr "Engineer"); ("job_company", VStr "Acme")].

(** A document whose text sits in a table, after a section break. *)
Definition resume_in_a_table : value :=
  VDict (dict_of
    [("title", VStr "Resume");
     ("body",
      VDict (dict_of
        [("content",
          VList [VDict (dict_of [("sectionBreak", VDict ∅)]);
                 VDict (dict_of
                   [("table",
                     VDict (dict_of [("rows", VInt 1); ("columns", VInt 1)]))])])]))]).

(** A document with two paragraphs. *)
Definition resume_in_paragraphs : value :=
  let paragraph (text : string) :=
    VDict (dict_of
      [("paragraph",
        VDict (dict_of
          [("elements",
            VList [VDict (dict_of [("textRun", VDict (dict_of [("content", VStr text)]))])])]))]) in
  VDict (dict_of
    [("body",
      VDict (dict_of
        [("content",
          VList [VDict (dict_of [("sectionBreak", VDict ∅)]);
                 paragraph "Python developer, ";
                 paragraph "five years"])]))]).

(** A platform that reads the document [doc] under every identifier. *)
Definition reading (doc : value) : Platform :=
  mkPlatform Samples.loads Samples.str "resume-doc" [] ""
    (fun _ _ => Ok Samples.empty_object)
    (fun _ _ => Ok [])
    (fun _ _ => Ok tt)
    (fun _ _ => document_text doc)
    (fun _ _ _ => Ok [])
    (fun _ _ => Samples.refused "connection timed out")
    (fun _ _ => Ok tt).

(** A message with an attachment: its text sits in a container of
    alternatives, beside the attachment. *)
Definition message_with_attachment : Dict :=
  dict_of
    [("id", VStr "msg-3");
     ("payload",
      VDict (dict_of
        [("mimeType", VStr "multipart/mixed");
         ("headers",
          VList [VDict (dict_of [("name", VStr "From"); ("value", VStr "jobs@linkedin.com")]);
                 VDict (dict_of [("name", VStr "Subject"); ("value", VStr "Backend Engineer")])]);
         ("parts",
          VList [VDict (dict_of
                   [("mimeType", VStr "multipart/alternative");
                    ("body", VDict (dict_of [("size", VInt 0)]));
                    ("parts",
                     VList [VDict (dict_of
                              [("mimeType", VStr "text/plain");
                               ("body", VDict (dict_of [("data", VStr "QXBwbHkgbm93")]))])])]);
                 VDict (dict_of
                   [("mimeType", VStr "application/pdf");
                    ("filename", VStr "posting.pdf");
                    ("body", VDict (dict_of [("attachmentId", VStr "att-1")]))])])]))].

(** The thresholds when the environment sets none. *)
Definition thresholds : Thresholds := mkThresholds 70 80.

Definition posting_of (job_id company : string) (score : Z) : Dict :=
  dict_of [("id", VStr job_id); ("company", VStr company); ("score", VInt score)].

(** Four scored records: two of Acme and one of Initech above the
    threshold of the research, one of Globex below it. *)
Definition shortlist : World :=
  mkWorld
    (list_to_map
       [("0b0000000001", posting_of "0b0000000001" "Acme" 90);
        ("0b0000000002", posting_of "0b0000000002" "Acme" 85);
        ("0b0000000003", posting_of "0b0000000003" "Initech" 75);
        ("0b0000000004", posting_of "0b0000000004" "Globex" 40)])
    None [] [] [].

End Cases.

Module Letters.

(** A creative model that answers every prompt with [answer]. *)
Definition writing (answer : string) : Desk -> string -> result string :=
  fun _ _ => Ok answer.

(** A creative model that is out of reach. *)
Definition silent : Desk -> string -> result string :=
  fun _ _ => Samples.refused "connection refused".

Definition granted : Desk -> string -> result unit := fun _ _ => Ok tt.

(** The path of a file in a directory, for a plain name on a POSIX
    system. *)
Definition posix_path (directory name : string) : string :=
  directory +:+ "/" +:+ name.

(** No file is reached by an identifier that is no plain name. *)
Definition nothing_astray : World -> string -> result (option value) :=
  fun _ _ => Ok None.

(** The identifier [../resume_cache] leads to the resume cache. *)
Definition cache_astray : World -> string -> result (option value) :=
  fun w job_id =>
    if String.eqb job_id "../resume_cache" then Ok (option_map VDict (resume_cache w))
    else Ok None.

Definition desk_of (w : World) : Desk := mkDesk w ∅ ∅ [].

Definition seasoned_resume : Dict :=
  dict_of
    [("skills", VList [VStr "Python"; VStr "SQL"]);
     ("experience_years", VInt 5); ("experience_level", VStr "mid");
     ("current_role", VStr "Engineer at Initech");
     ("notable_projects",
      VList [VDict (dict_of [("name", VStr "Ledger");
                             ("description", VStr "A billing service");
                             ("technologies", VList [VStr "Python"; VStr "Postgres"])]);
             VDict (dict_of [("name", VStr "Atlas")])]);
     ("previous_roles", VList [VDict (dict_of [("title", VStr "Developer")])])].

Definition researched_posting : Dict :=
  dict_of
    [("id", VStr "0c0000000001"); ("title", VStr "Backend Engineer");
     ("company", VStr "Acme"); ("location", VStr "Remote");
     ("description", VStr "Build services."); ("score", VInt 90);
     ("company_research",
      VDict (dict_of [("summary", VStr "Acme builds rockets.");
                      ("tech_stack", VList [VStr "Python"; VStr "Go"]);
                      ("values", VList [VStr "Safety"]);
                      ("culture", VStr "Careful")]))].

Definition plain_posting : Dict :=
  dict_of [("id", VStr "0c0000000002"); ("title", VStr "Data Analyst");
           ("company", VStr "Initech"); ("score", VInt 85)].

(** Two records above the threshold of the notification and a cached
    resume. *)
Definition two_postings : World :=
  mkWorld
    (list_to_map [("0c0000000001", researched_posting);
                  ("0c0000000002", plain_posting)])
    (Some Samples.python_resume) [] [] [].

End Letters.

Module Listings.

Definition scored_posting : Dict :=
  dict_of
    [("id", VStr "0d0000000001"); ("title", VStr "Backend Engineer");
     ("company", VStr "Acme"); ("location", VStr "Remote"); ("score", VInt 90);
     ("scoring",
      VDict (dict_of [("score", VInt 90);
                      ("reasoning", VStr "Strong match on Python and SQL.")]));
     ("url", VStr "https://acme.com/jobs/1"); ("source", VStr "LinkedIn")].

Definition bare_posting : Dict :=
  dict_of [("id", VStr "0d0000000002"); ("title", VStr "Data Analyst")].

(** A record whose scoring holds a number as its reasoning. *)
Definition oddly_scored_posting : Dict :=
  dict_of
    [("id", VStr "0d0000000003"); ("title", VStr "Driver"); ("score", VInt 40);
     ("scoring", VDict (dict_of [("score", VInt 40); ("reasoning", VInt 7)]))].

Definition acme_profile : Dict :=
  dict_of
    [("company", VStr "Acme"); ("summary", VStr "Acme builds rockets.");
     ("tech_stack", VList [VStr "Python"; VStr "Go"]);
     ("values", VList [VStr "Safety"]);
     ("recent_news", VList [VStr "Raised Series B"; VStr "Launched"]);
     ("culture", VStr "Careful"); ("size", VStr "200");
     ("sources", VList [VStr "https://acme.com/about"])].

(** The lines of the console in one text, with the character 0 between
    them. *)
Definition transcript (w : World) : string :=
  PyStr.join (String (ascii_of_nat 0) EmptyString) (console w).

End Listings.

(** * Properties *)

(** ** Strings *)

Lemma length_take_le n s : (String.length (PyStr.take n s) <= n)%nat.
Proof.
  revert s; induction n as [|n IH]; intros [|c s]; simpl; try lia.
  specialize (IH s). lia.
Qed.

(** ** MD5 and the prompts *)

(** The test suite of RFC 1321. *)
Example md5_of_empty : MD5.hexdigest "" = "d41d8cd98f00b204e9800998ecf8427e".
Proof. vm_compute. reflexivity. Qed.

Example md5_of_a : MD5.hexdigest "a" = "0cc175b9c0f1b6a831c399e269772661".
Proof. vm_compute. reflexivity. Qed.

Example md5_of_abc : MD5.hexdigest "abc" = "900150983cd24fb0d6963f7d28e17f72".
Proof. vm_compute. reflexivity. Qed.

Example md5_of_message_digest :
  MD5.hexdigest "message digest" = "f96b697d7cb7938d525a2f31aaf161d0".
Proof. vm_compute. reflexivity. Qed.

Example md5_of_two_blocks :
  MD5.hexdigest
    "12345678901234567890123456789012345678901234567890123456789012345678901234567890"
  = "57edf4a22be3c955ac49da2e2107b67a".
Proof. vm_compute. reflexivity. Qed.

(** The prompts are the f-strings of the sources, character for character:
    on the sample inputs they have the MD5 digests of the texts that the
    sources build. *)
Example parse_email_prompt_digest :
  MD5.hexdigest
    (parse_email_prompt "Senior Backend Engineer - Acme Corp"
       "Apply at https://acme.com/careers/123 today" "jobs@linkedin.com")
  = "1aaebdb05b9dc93bd5a8ae1368a1ee00".
Proof. vm_compute. reflexivity. Qed.

Example score_prompt_digest :
  MD5.hexdigest
    (score_prompt (Samples.answering "" [] []) Samples.python_resume
       (<["id" := VStr "d346801e8a67"]> Samples.engineer_at_acme)
       "Python, SQL" "" (VStr ""))
  = "c59ae669c21b9f027cd42107641e34e3".
Proof. vm_compute. reflexivity. Qed.

Example resume_prompt_digest :
  MD5.hexdigest (resume_prompt "Python developer, five years")
  = "e19d4f779d92dcc8a687fe0dc987dcdc".
Proof. vm_compute. reflexivity. Qed.

Example research_prompt_digest :
  MD5.hexdigest
    (research_prompt "Acme"
       (PyStr.lines
          ["URL: https://acme.com/about"; "Title: About Acme";
           "Content: Acme builds rockets."; ""; "---"; "";
           "URL: https://news.example.com/acme"; "Title: ";
           "Content: Acme builds rockets."]))
  = "7f1d26196cc091b4e18fc6ac579a7791".
Proof. vm_compute. reflexivity. Qed.

(** ** Conversions *)

Example int_of_padded_literal : Py.int (VStr " 8_5 ") = Ok 85.
Proof. reflexivity. Qed.

Example int_of_negative_literal : Py.int (VStr "-3") = Ok (-3).
Proof. reflexivity. Qed.

Example int_of_decimal_point :
  Py.int (VStr "85.5") = value_error "invalid literal for int() with base 10".
Proof. reflexivity. Qed.

(** 99.5 is 199 * 2^-1, and -0.5 is -(1 * 2^-1). *)
Example int_of_float : Py.int (VFloat (S754_finite false 199 (-1))) = Ok 99.
Proof. reflexivity. Qed.

Example int_of_small_negative_float : Py.int (VFloat (S754_finite true 1 (-1))) = Ok 0.
Proof. reflexivity. Qed.

Example braces_are_greedy : search_braces "ab}c{d{e}f}g{" = Some "{d{e}f}".
Proof. reflexivity. Qed.

Example braces_need_an_order : search_braces "}{" = None.
Proof. reflexivity. Qed.

(** ** The Gateway *)

Lemma add_calls_nil w : add_calls w [] = w.
Proof. destruct w; unfold add_calls; simpl. by rewrite app_nil_r. Qed.

Lemma add_calls_app w a b : add_calls (add_calls w a) b = add_calls w (a ++ b).
Proof. unfold add_calls; simpl. by rewrite app_assoc. Qed.

Lemma llm_run P prompt w :
  llm P prompt w = (llm_invoke P w prompt, add_calls w [prompt]).
Proof. reflexivity. Qed.

(** One turn of the loop of [parse_structured], spelled out. *)
Lemma parse_structured_from_cons P prompt max_retries attempt_no later response w :
  parse_structured_from P prompt max_retries (attempt_no :: later) response w =
  let w1 := add_calls w [prompt] in
  let except e response :=
    if (attempt_no =? max_retries - 1)%nat
    then (Ok (parse_failure (exn_msg e) response), w1)
    else parse_structured_from P prompt max_retries later response w1 in
  match llm_invoke P w prompt with
  | Raise e => except e response
  | Ok answer =>
      match decode_response P answer with
      | Ok (Some parsed) => (Ok parsed, w1)
      | Ok None => parse_structured_from P prompt max_retries later answer w1
      | Raise e => except e answer
      end
  end.
Proof.
  cbn [parse_structured_from]. unfold bind, attempt. rewrite llm_run. cbv zeta.
  destruct (llm_invoke P w prompt) as [answer|e].
  - destruct (decode_response P answer) as [[parsed|]|e]; try reflexivity.
    destruct (attempt_no =? max_retries - 1)%nat; reflexivity.
  - destruct (attempt_no =? max_retries - 1)%nat; reflexivity.
Qed.

(** [parse_structured] never raises: whatever the model and the decoder do,
    it returns a dictionary, after at least one call of the model and at
    most as many as there are attempts, all with the prompt it was given,
    and it touches nothing else. *)
Lemma parse_structured_from_total P prompt max_retries attempts :
  forall response w, exists d k,
    parse_structured_from P prompt max_retries attempts response w
    = (Ok d, add_calls w (repeat prompt k))
    /\ (Nat.min 1 (length attempts) <= k <= length attempts)%nat.
Proof.
  induction attempts as [|attempt_no later IH]; intros response w.
  - exists (parse_failure "Failed to parse after retries" response), 0%nat.
    simpl. rewrite add_calls_nil. split; [reflexivity | lia].
  - rewrite parse_structured_from_cons. cbv zeta.
    assert (Hlater : forall r, exists d k,
               parse_structured_from P prompt max_retries later r (add_calls w [prompt])
               = (Ok d, add_calls w (repeat prompt k))
               /\ (Nat.min 1 (length (attempt_no :: later)) <= k
                   <= length (attempt_no :: later))%nat).
    { intros r. destruct (IH r (add_calls w [prompt])) as (d & k & Hrun & Hk).
      exists d, (S k). rewrite Hrun, add_calls_app. simpl. split; [reflexivity | lia]. }
    assert (Hnow : forall d : Dict, exists (d' : Dict) k,
               (Ok d, add_calls w [prompt]) = (Ok d', add_calls w (repeat prompt k))
               /\ (Nat.min 1 (length (attempt_no :: later)) <= k
                   <= length (attempt_no :: later))%nat).
    { intros d. exists d, 1%nat. simpl. split; [reflexivity | lia]. }
    destruct (llm_invoke P w prompt) as [answer|e].
    + destruct (decode_response P answer) as [[parsed|]|e]; [apply Hnow | apply Hlater |].
      destruct (attempt_no =? max_retries - 1)%nat; [apply Hnow | apply Hlater].
    + destruct (attempt_no =? max_retries - 1)%nat; [apply Hnow | apply Hlater].
Qed.

Lemma parse_structured_total P prompt w :
  exists d k,
    parse_structured P prompt w = (Ok d, add_calls w (repeat prompt k))
    /\ (1 <= k <= 3)%nat.
Proof. apply (parse_structured_from_total P prompt 3 (seq 0 3) "" w). Qed.

Lemma decode_undecodable P text :
  undecodable P text ->
  decode_response P text = Ok None \/ exists e, decode_response P text = Raise e.
Proof.
  intros Hno. unfold decode_response.
  assert (Hwhole :
    match json_loads P (PyStr.strip text) with
    | Ok (VDict d) => Ok (Some d)
    | Ok _ => Ok None
    | Raise e => Raise e
    end = Ok None
    \/ exists e, match json_loads P (PyStr.strip text) with
                 | Ok (VDict d) => Ok (Some d)
                 | Ok _ => Ok None
                 | Raise e => Raise e
                 end = Raise e).
  { destruct (json_loads P (PyStr.strip text)) as [[| | | | | |d]|e] eqn:Hloads;
      try (left; reflexivity); [|right; eauto].
    destruct (Hno d) as [Hstrip _]. congruence. }
  destruct (search_braces text) as [span|] eqn:Hspan; [|exact Hwhole].
  destruct (json_loads P span) as [[| | | | | |d]|e] eqn:Hloads;
    try exact Hwhole; [|right; eauto].
  destruct (Hno d) as [_ Hbraces]. specialize (Hbraces span Hspan). congruence.
Qed.

(** The loop on answers that never decode: every attempt still to make is
    made, and the failure carries the answer of the last one. *)
Lemma parse_structured_from_undecodable P prompt max_retries :
  (forall w, exists text, llm_invoke P w prompt = Ok text /\ undecodable P text) ->
  forall n first response w,
    (first + S n = max_retries)%nat ->
    exists message last_answer,
      parse_structured_from P prompt max_retries (seq first (S n)) response w
      = (Ok (parse_failure message last_answer), add_calls w (repeat prompt (S n)))
      /\ llm_invoke P (add_calls w (repeat prompt n)) prompt = Ok last_answer.
Proof.
  intros Hmodel. induction n as [|n IH]; intros first response w Hlen.
  - cbn [seq]. rewrite parse_structured_from_cons. cbv zeta.
    destruct (Hmodel w) as (text & Hanswer & Hno). rewrite Hanswer.
    replace (first =? max_retries - 1)%nat with true
      by (symmetry; apply Nat.eqb_eq; lia).
    simpl repeat. rewrite add_calls_nil.
    destruct (decode_undecodable P text Hno) as [Hd|[e Hd]]; rewrite Hd; eauto.
  - cbn [seq]. rewrite parse_structured_from_cons. cbv zeta.
    destruct (Hmodel w) as (text & Hanswer & Hno). rewrite Hanswer.
    replace (first =? max_retries - 1)%nat with false
      by (symmetry; apply Nat.eqb_neq; lia).
    destruct (IH (S first) text (add_calls w [prompt]) ltac:(lia))
      as (message & last_answer & Hrun & Hlast).
    cbn [seq] in Hrun. rewrite add_calls_app in Hrun, Hlast.
    exists message, last_answer.
    destruct (decode_undecodable P text Hno) as [Hd|[e Hd]]; rewrite Hd; eauto.
Qed.

Lemma parse_failure_error message response :
  parse_failure message response !! "error" = Some (VStr message).
Proof. unfold parse_failure, dict_of. rewrite !list_to_map_cons. by simplify_map_eq. Qed.

Lemma parse_failure_raw_response message response :
  parse_failure message response !! "raw_response"
  = Some (VStr (PyStr.take 500 response)).
Proof. unfold parse_failure, dict_of. rewrite !list_to_map_cons. by simplify_map_eq. Qed.

(** C1.  [parse_structured] never raises: for every model and decoder it
    returns a mapping, after one to three calls of the model, each with
    the prompt it was given, and it changes nothing else.  When every
    answer of the model to the prompt is a text from which no JSON object
    can be decoded, the calls are exactly three, the mapping has an [error]
    entry, and its [raw_response] entry is the third answer cut to 500
    characters. *)
Theorem parse_structured_retry_bound P prompt w :
  (exists d k,
     parse_structured P prompt w = (Ok d, add_calls w (repeat prompt k))
     /\ (1 <= k <= 3)%nat)
  /\ ((forall w', exists text, llm_invoke P w' prompt = Ok text /\ undecodable P text) ->
      exists message last_answer,
        parse_structured P prompt w
        = (Ok (parse_failure message last_answer), add_calls w [prompt; prompt; prompt])
        /\ llm_invoke P (add_calls w [prompt; prompt]) prompt = Ok last_answer
        /\ parse_failure message last_answer !! "error" = Some (VStr message)
        /\ parse_failure message last_answer !! "raw_response"
           = Some (VStr (PyStr.take 500 last_answer))
        /\ (String.length (PyStr.take 500 last_answer) <= 500)%nat).
Proof.
  split; [apply parse_structured_total|].
  intros Hmodel.
  destruct (parse_structured_from_undecodable P prompt 3 Hmodel 2 0 "" w eq_refl)
    as (message & last_answer & Hrun & Hlast).
  exists message, last_answer.
  split; [exact Hrun|]. split; [exact Hlast|].
  split; [apply parse_failure_error|].
  split; [apply parse_failure_raw_response | apply length_take_le].
Qed.

(** C1 on a model that answers the same refusal to every prompt. *)
Lemma parse_structured_retry_bound_witness :
  undecodable (Samples.answering "I cannot help with that." [] [])
    "I cannot help with that."
  /\ exists message last_answer,
       parse_structured (Samples.answering "I cannot help with that." [] [])
                        "Extract the job" Samples.fresh
       = (Ok (parse_failure message last_answer),
          add_calls Samples.fresh ["Extract the job"; "Extract the job"; "Extract the job"])
       /\ parse_failure message last_answer !! "raw_response"
          = Some (VStr "I cannot help with that.").
Proof.
  assert (Hno : undecodable (Samples.answering "I cannot help with that." [] [])
                  "I cannot help with that.").
  { intros d. split; [vm_compute; discriminate|].
    intros span Hspan. vm_compute in Hspan. discriminate. }
  split; [exact Hno|].
  destruct (parse_structured_retry_bound
              (Samples.answering "I cannot help with that." [] [])
              "Extract the job" Samples.fresh) as [_ Hbound].
  destruct Hbound as (message & last_answer & Hrun & Hlast & _ & Hraw & _).
  - intros w'. exists "I cannot help with that.". split; [reflexivity | exact Hno].
  - exists message, last_answer. split; [exact Hrun|].
    rewrite Hraw. vm_compute in Hlast. injection Hlast as <-. reflexivity.
Defined.

(** ** Extraction of a posting from a message *)

Lemma setdefault_same k v (d : Dict) :
  setdefault k v d !! k = Some (default v (d !! k)).
Proof.
  unfold setdefault, Py.has_key. destruct (d !! k) as [x|] eqn:Hk; simpl.
  - exact Hk.
  - apply lookup_insert_eq.
Qed.

Lemma setdefault_other k k' v (d : Dict) :
  k <> k' -> setdefault k v d !! k' = d !! k'.
Proof.
  intros Hne. unfold setdefault. destruct (Py.has_key d k); [reflexivity|].
  by apply lookup_insert_ne.
Qed.

Lemma has_key_true (d : Dict) k : Py.has_key d k = true <-> is_Some (d !! k).
Proof.
  unfold Py.has_key. destruct (d !! k); split; intros H; try done; by eexists.
Qed.

Lemma has_key_false (d : Dict) k : Py.has_key d k = false <-> d !! k = None.
Proof. unfold Py.has_key. destruct (d !! k); split; intros H; done. Qed.

Lemma clean_up_lookup subject body sender (job_data : Dict) :
  let cleaned := clean_up subject body sender job_data in
  cleaned !! "title" = Some (kept_title subject job_data)
  /\ cleaned !! "company" = Some (default (VStr "Unknown") (job_data !! "company"))
  /\ cleaned !! "location" = Some (default (VStr "Unknown") (job_data !! "location"))
  /\ cleaned !! "url" = Some (default (VStr (_extract_url body)) (job_data !! "url"))
  /\ cleaned !! "source" = Some (default (VStr (_extract_source sender)) (job_data !! "source"))
  /\ cleaned !! "description"
     = Some (default (VStr (PyStr.take 500 body)) (job_data !! "description"))
  /\ (forall k, k ∉ ["title"; "company"; "location"; "url"; "source"; "description"] ->
      cleaned !! k = job_data !! k).
Proof.
  cbv zeta. unfold clean_up.
  set (titled := if negb (Py.has_key job_data "title")
                    || negb (Py.truthy (Py.get job_data "title" VNone))
                 then <["title" := VStr (_extract_title_from_subject subject)]> job_data
                 else job_data).
  assert (Htitle : titled !! "title" = Some (kept_title subject job_data)).
  { unfold titled, kept_title, Py.has_key, Py.get.
    destruct (job_data !! "title") as [title|] eqn:Ht; simpl.
    - destruct (Py.truthy title); simpl; [exact Ht | apply lookup_insert_eq].
    - apply lookup_insert_eq. }
  assert (Hrest : forall k, k <> "title" -> titled !! k = job_data !! k).
  { intros k Hk. unfold titled.
    destruct (negb _ || negb _); [by apply lookup_insert_ne | reflexivity]. }
  unfold Py.get.
  repeat split.
  - rewrite lookup_insert_ne by done. rewrite !setdefault_other by done. exact Htitle.
  - rewrite lookup_insert_ne by done. rewrite !setdefault_other by done.
    rewrite setdefault_same. by rewrite Hrest.
  - rewrite lookup_insert_ne by done. rewrite !setdefault_other by done.
    rewrite setdefault_same, setdefault_other by done. by rewrite Hrest.
  - rewrite lookup_insert_ne by done. rewrite !setdefault_other by done.
    rewrite setdefault_same, !setdefault_other by done. by rewrite Hrest.
  - rewrite lookup_insert_ne by done.
    rewrite setdefault_same, !setdefault_other by done. by rewrite Hrest.
  - rewrite lookup_insert_eq. rewrite !setdefault_other by done. rewrite Hrest by done.
    destruct (job_data !! "description"); reflexivity.
  - intros k Hk.
    assert (k <> "title" /\ k <> "company" /\ k <> "location" /\ k <> "url"
            /\ k <> "source" /\ k <> "description") as (? & ? & ? & ? & ? & ?).
    { repeat split; intros ->; apply Hk; set_solver. }
    rewrite lookup_insert_ne by done. rewrite !setdefault_other by done. by apply Hrest.
Qed.

Lemma clean_up_keys subject body sender (job_data : Dict) :
  has_all (clean_up subject body sender job_data)
    ["title"; "company"; "location"; "url"; "source"; "description"].
Proof.
  destruct (clean_up_lookup subject body sender job_data)
    as (Ht & Hc & Hl & Hu & Hs & Hd & _).
  unfold has_all. repeat constructor; by eexists.
Qed.

Lemma parse_email_run P subject body sender w job_data w1 :
  parse_structured P (parse_email_prompt subject body sender) w = (Ok job_data, w1) ->
  parse_email P subject body sender w = (Ok (clean_up subject body sender job_data), w1).
Proof. intros Hrun. unfold parse_email, bind. by rewrite Hrun. Qed.

(** [parse_email] never raises. *)
Lemma parse_email_total P subject body sender w :
  exists job_data k,
    parse_email P subject body sender w
    = (Ok (clean_up subject body sender job_data),
       add_calls w (repeat (parse_email_prompt subject body sender) k))
    /\ (1 <= k <= 3)%nat.
Proof.
  destruct (parse_structured_total P (parse_email_prompt subject body sender) w)
    as (job_data & k & Hrun & Hk).
  exists job_data, k. split; [by apply parse_email_run | exact Hk].
Qed.

Lemma prefer_job_url_find urls remaining :
  prefer_job_url urls remaining
  = match find looks_like_job remaining with
    | Some url => url
    | None => hd "" urls
    end.
Proof.
  induction remaining as [|url later IH]; simpl.
  - by destruct urls.
  - by destruct (looks_like_job url).
Qed.

(** The loop of [_extract_url] computes the documented default. *)
Lemma _extract_url_documented body : _extract_url body = documented_url body.
Proof. apply prefer_job_url_find. Qed.

(** The chain of tests of [_extract_source] is the lookup in the provider
    list. *)
Lemma _extract_source_documented sender :
  _extract_source sender = documented_source sender.
Proof.
  unfold _extract_source, documented_source, providers. cbn [find fst snd].
  repeat match goal with |- context [PyStr.contains ?k ?s] =>
    destruct (PyStr.contains k s); [reflexivity|] end.
  reflexivity.
Qed.

Lemma _extract_title_capped subject :
  (String.length (_extract_title_from_subject subject) <= 100)%nat.
Proof. apply length_take_le. Qed.

Example title_from_plain_subject :
  _extract_title_from_subject "Senior Backend Engineer - Acme Corp" = "Senior Backend Engineer".
Proof. reflexivity. Qed.

Example title_from_forwarded_reply :
  _extract_title_from_subject "RE: fwd:  Data Analyst | Initech" = "Data Analyst".
Proof. reflexivity. Qed.

Example url_prefers_job_link :
  _extract_url "See http://acme.com/about or https://acme.com/careers/123 now"
  = "https://acme.com/careers/123".
Proof. reflexivity. Qed.

Example url_first_when_no_job_link :
  _extract_url "See http://acme.com/about and http://acme.com/team" = "http://acme.com/about".
Proof. reflexivity. Qed.

Example url_empty_without_link : _extract_url "No link here" = "".
Proof. reflexivity. Qed.

(** The defaults of [parse_email], the part of C6 that holds.  Whatever
    the Gateway answers to the extraction prompt, [parse_email] returns a
    mapping that has all of title, company, location, url, source and
    description; each of them that the answer lacks holds its default:
    the title that [_extract_title_from_subject] draws from the subject
    (at most 100 characters), "Unknown" for company and location, the
    documented url of the body, the documented source of the sender, and
    the first 500 characters of the body. *)
Lemma parse_email_backfills P subject body sender w job_data w1 :
  parse_structured P (parse_email_prompt subject body sender) w = (Ok job_data, w1) ->
  exists parsed,
    parse_email P subject body sender w = (Ok parsed, w1)
    /\ has_all parsed ["title"; "company"; "location"; "url"; "source"; "description"]
    /\ (job_data !! "title" = None ->
        parsed !! "title" = Some (VStr (_extract_title_from_subject subject))
        /\ (String.length (_extract_title_from_subject subject) <= 100)%nat)
    /\ (job_data !! "company" = None -> parsed !! "company" = Some (VStr "Unknown"))
    /\ (job_data !! "location" = None -> parsed !! "location" = Some (VStr "Unknown"))
    /\ (job_data !! "url" = None -> parsed !! "url" = Some (VStr (documented_url body)))
    /\ (job_data !! "source" = None ->
        parsed !! "source" = Some (VStr (documented_source sender)))
    /\ (job_data !! "description" = None ->
        parsed !! "description" = Some (VStr (PyStr.take 500 body))
        /\ (String.length (PyStr.take 500 body) <= 500)%nat).
Proof.
  intros Hrun. exists (clean_up subject body sender job_data).
  destruct (clean_up_lookup subject body sender job_data)
    as (Ht & Hc & Hl & Hu & Hs & Hd & _).
  split; [by apply parse_email_run|].
  split; [apply clean_up_keys|].
  split.
  { intros Hnone. split; [|apply _extract_title_capped].
    rewrite Ht. unfold kept_title. by rewrite Hnone. }
  split; [intros Hnone; by rewrite Hc, Hnone|].
  split; [intros Hnone; by rewrite Hl, Hnone|].
  split; [intros Hnone; by rewrite Hu, Hnone, _extract_url_documented|].
  split; [intros Hnone; by rewrite Hs, Hnone, _extract_source_documented|].
  intros Hnone. split; [by rewrite Hd, Hnone | apply length_take_le].
Qed.

(** The defaults on the first scenario of the documentation: the model
    answers [{}] and every field comes from the message. *)
Example parse_email_defaults :
  exists parsed w1,
    parse_email (Samples.answering Samples.empty_object [] [])
      "Senior Backend Engineer - Acme Corp"
      "Apply at https://acme.com/careers/123 today" "jobs@linkedin.com" Samples.fresh
    = (Ok parsed, w1)
    /\ parsed !! "title" = Some (VStr "Senior Backend Engineer")
    /\ parsed !! "company" = Some (VStr "Unknown")
    /\ parsed !! "location" = Some (VStr "Unknown")
    /\ parsed !! "url" = Some (VStr "https://acme.com/careers/123")
    /\ parsed !! "source" = Some (VStr "LinkedIn")
    /\ parsed !! "description" = Some (VStr "Apply at https://acme.com/careers/123 today").
Proof.
  destruct (parse_email_backfills (Samples.answering Samples.empty_object [] [])
              "Senior Backend Engineer - Acme Corp"
              "Apply at https://acme.com/careers/123 today" "jobs@linkedin.com"
              Samples.fresh ∅
              (add_calls Samples.fresh
                 [parse_email_prompt "Senior Backend Engineer - Acme Corp"
                    "Apply at https://acme.com/careers/123 today" "jobs@linkedin.com"]))
    as (parsed & Hrun & _ & Ht & Hc & Hl & Hu & Hs & Hd).
  - vm_compute. reflexivity.
  - eexists parsed, _. split; [exact Hrun|].
    destruct (Ht eq_refl) as [-> _]. rewrite (Hc eq_refl), (Hl eq_refl), (Hu eq_refl),
      (Hs eq_refl). destruct (Hd eq_refl) as [-> _].
    repeat split.
Qed.

(** C6, at the failing input.  For the subject
    "Fwd: Re: Data Analyst | Initech" and an answer of the Gateway that
    has no title, [parse_email] gives the title "Re: Data Analyst".
    [_extract_title_from_subject] sets out to remove the prefixes (its
    comment reads "Remove common prefixes") and does remove both from
    "Re: Fwd: Data Analyst | Initech", but it tries "Re:" first and each
    prefix once, so that a "Re:" behind a "Fwd:", or behind another
    "Re:", stays in the title.  The other fields hold their documented
    defaults here: "Unknown" for company and location, the link with a
    job keyword although it is the second one, the source of the
    sender's domain, and the body as description. *)
Theorem forwarded_reply_keeps_its_prefix :
  let P := Samples.answering Samples.empty_object [] [] in
  let subject := email_subject Samples.forwarded_reply in
  let body := email_body Samples.forwarded_reply in
  let sender := email_from Samples.forwarded_reply in
  subject = "Fwd: Re: Data Analyst | Initech"
  /\ fst (parse_structured P (parse_email_prompt subject body sender) Samples.fresh) = Ok ∅
  /\ (exists parsed,
        fst (parse_email P subject body sender Samples.fresh) = Ok parsed
        /\ parsed !! "title" = Some (VStr "Re: Data Analyst")
        /\ parsed !! "company" = Some (VStr "Unknown")
        /\ parsed !! "location" = Some (VStr "Unknown")
        /\ parsed !! "url" = Some (VStr "https://initech.com/careers/77")
        /\ parsed !! "source" = Some (VStr "Indeed")
        /\ parsed !! "description" = Some (VStr body))
  /\ _extract_title_from_subject "Re: Fwd: Data Analyst | Initech" = "Data Analyst"
  /\ _extract_title_from_subject "Re: Re: Data Analyst | Initech" = "Re: Data Analyst"
  /\ _extract_title_from_subject "Data Analyst | Initech" = "Data Analyst".
Proof.
  cbv zeta. split; [reflexivity|]. split; [vm_compute; reflexivity|].
  split; [|repeat split; vm_compute; reflexivity].
  exists (clean_up (email_subject Samples.forwarded_reply)
            (email_body Samples.forwarded_reply)
            (email_from Samples.forwarded_reply) ∅).
  repeat split; vm_compute; reflexivity.
Qed.

(** ** Identity of a posting *)

Lemma length_hexdigest s : String.length (MD5.hexdigest s) = 32%nat.
Proof.
  unfold MD5.hexdigest, MD5.digest.
  set (r := MD5.process _ _ _). cbn [MD5.le_bytes app fold_right MD5.hex_byte].
  reflexivity.
Qed.

Lemma length_take_exact n s :
  (n <= String.length s)%nat -> String.length (PyStr.take n s) = n.
Proof.
  revert s; induction n as [|n IH]; intros [|c s] Hn; simpl in *; try lia.
  rewrite IH; lia.
Qed.

Lemma length_generate_job_id P job : String.length (_generate_job_id P job) = 12%nat.
Proof.
  unfold _generate_job_id. apply length_take_exact. rewrite length_hexdigest. lia.
Qed.

(** C10.  The fallback title replaces the Gateway's title both when the key
    is missing and when its value is empty (or falsy in another way), while
    company and location are set to "Unknown" only when their key is
    missing: a value that is present, the empty string included, is
    returned as it is, and an empty company then enters the identifier of
    the record as the empty string. *)
Theorem parse_email_backfill_asymmetry P subject body sender w job_data w1 :
  parse_structured P (parse_email_prompt subject body sender) w = (Ok job_data, w1) ->
  exists parsed,
    parse_email P subject body sender w = (Ok parsed, w1)
    /\ (job_data !! "title" = None
        \/ (exists title, job_data !! "title" = Some title /\ Py.truthy title = false) ->
        parsed !! "title" = Some (VStr (_extract_title_from_subject subject)))
    /\ Py.truthy (VStr "") = false
    /\ (forall field, field = "company" \/ field = "location" ->
        (job_data !! field = None -> parsed !! field = Some (VStr "Unknown"))
        /\ (forall v, job_data !! field = Some v -> parsed !! field = Some v))
    /\ (job_data !! "company" = Some (VStr "") ->
        parsed !! "company" = Some (VStr "")
        /\ _generate_job_id P parsed
           = PyStr.take 12
               (MD5.hexdigest (fmt P (Py.get parsed "title" (VStr "")) +:+ ""
                               +:+ fmt P (Py.get parsed "url" (VStr ""))))).
Proof.
  intros Hrun. exists (clean_up subject body sender job_data).
  destruct (clean_up_lookup subject body sender job_data)
    as (Ht & Hc & Hl & _).
  split; [by apply parse_email_run|].
  split.
  { rewrite Ht. unfold kept_title.
    intros [Hnone|(title & Hsome & Hfalsy)]; [by rewrite Hnone|].
    by rewrite Hsome, Hfalsy. }
  split; [reflexivity|].
  split.
  { intros field [->| ->]; split.
    - intros Hnone. by rewrite Hc, Hnone.
    - intros v Hsome. by rewrite Hc, Hsome.
    - intros Hnone. by rewrite Hl, Hnone.
    - intros v Hsome. by rewrite Hl, Hsome. }
  intros Hblank. rewrite Hblank in Hc. split; [exact Hc|].
  unfold _generate_job_id, Py.get at 2. rewrite Hc. reflexivity.
Qed.

(** C10 on a model that answers with an empty title, company and
    location. *)
Lemma parse_email_backfill_asymmetry_witness :
  exists parsed w1,
    parse_email (Samples.answering Samples.blank_fields [] [])
      "Senior Backend Engineer - Acme Corp"
      "Apply at https://acme.com/careers/123 today" "jobs@linkedin.com" Samples.fresh
    = (Ok parsed, w1)
    /\ parsed !! "title" = Some (VStr "Senior Backend Engineer")
    /\ parsed !! "company" = Some (VStr "")
    /\ parsed !! "location" = Some (VStr "")
    /\ _generate_job_id (Samples.answering Samples.blank_fields [] []) parsed
       = PyStr.take 12
           (MD5.hexdigest
              ("Senior Backend Engineer" +:+ ""
               +:+ fmt (Samples.answering Samples.blank_fields [] [])
                     (Py.get parsed "url" (VStr "")))).
Proof.
  destruct (parse_email_backfill_asymmetry
              (Samples.answering Samples.blank_fields [] [])
              "Senior Backend Engineer - Acme Corp"
              "Apply at https://acme.com/careers/123 today" "jobs@linkedin.com"
              Samples.fresh
              (dict_of [("title", VStr ""); ("company", VStr ""); ("location", VStr "")])
              (add_calls Samples.fresh
                 [parse_email_prompt "Senior Backend Engineer - Acme Corp"
                    "Apply at https://acme.com/careers/123 today" "jobs@linkedin.com"]))
    as (parsed & Hrun & Ht & _ & Hfield & Hid).
  - vm_compute. reflexivity.
  - eexists parsed, _. split; [exact Hrun|].
    assert (Htitle : parsed !! "title" = Some (VStr "Senior Backend Engineer")).
    { apply Ht. right. exists (VStr ""). split; reflexivity. }
    destruct (Hid eq_refl) as [Hcompany Hhash].
    destruct (Hfield "location" (or_intror eq_refl)) as [_ Hlocation].
    split; [exact Htitle|]. split; [exact Hcompany|].
    split; [apply Hlocation; reflexivity|].
    rewrite Hhash. unfold Py.get at 1. rewrite Htitle. reflexivity.
Defined.

Lemma hex_digit_in x :
  In (MD5.hex_digit x) (list_ascii_of_string "0123456789abcdef").
Proof.
  unfold MD5.hex_digit. apply nth_In. simpl length.
  pose proof (Z.mod_pos_bound x 16 eq_refl). lia.
Qed.

Lemma hex_string_fold bytes : hex_string (fold_right MD5.hex_byte EmptyString bytes).
Proof.
  unfold hex_string. induction bytes as [|b bytes IH]; simpl.
  - constructor.
  - constructor; [apply hex_digit_in|]. constructor; [apply hex_digit_in | exact IH].
Qed.

Lemma hex_string_take n s : hex_string s -> hex_string (PyStr.take n s).
Proof.
  unfold hex_string. revert s; induction n as [|n IH]; intros [|c s] Hs; simpl;
    try constructor.
  - by inversion Hs.
  - apply IH. by inversion Hs.
Qed.

(** Against C4 as it is stated.  The identifier is case sensitive: the
    postings [engineer_at_acme] and
    [engineer_at_acme_shouted] differ in letter case only and get
    different identifiers. *)
Lemma job_id_depends_on_case :
  ~ (forall (P : Platform) (a b : Dict),
       same_up_to_case P a b -> _generate_job_id P a = _generate_job_id P b).
Proof.
  intros Hclaim.
  specialize (Hclaim (Samples.answering "" [] [])
                Samples.engineer_at_acme Samples.engineer_at_acme_shouted).
  assert (Hcase : same_up_to_case (Samples.answering "" [] [])
                    Samples.engineer_at_acme Samples.engineer_at_acme_shouted)
    by (repeat constructor).
  apply Hclaim in Hcase. vm_compute in Hcase. discriminate Hcase.
Qed.

(** C4 (as amended).  The identifier is a function of the title, the
    company and the url as they are written: two postings with the same
    title, company and url get the same identifier, which is the first 12
    hexadecimal characters of the MD5 of the three texts in that order; a
    url that is missing or empty enters the hash as the empty string. *)
Theorem job_id_of_exact_triple P a b :
  Py.get a "title" (VStr "") = Py.get b "title" (VStr "") ->
  Py.get a "company" (VStr "") = Py.get b "company" (VStr "") ->
  Py.get a "url" (VStr "") = Py.get b "url" (VStr "") ->
  _generate_job_id P a = _generate_job_id P b
  /\ _generate_job_id P a
     = PyStr.take 12
         (MD5.hexdigest (fmt P (Py.get a "title" (VStr ""))
                         +:+ fmt P (Py.get a "company" (VStr ""))
                         +:+ fmt P (Py.get a "url" (VStr ""))))
  /\ String.length (_generate_job_id P a) = 12%nat
  /\ hex_string (_generate_job_id P a)
  /\ (a !! "url" = None \/ a !! "url" = Some (VStr "") ->
      _generate_job_id P a
      = PyStr.take 12
          (MD5.hexdigest (fmt P (Py.get a "title" (VStr ""))
                          +:+ fmt P (Py.get a "company" (VStr "")) +:+ ""))).
Proof.
  intros Htitle Hcompany Hurl.
  split; [unfold _generate_job_id; by rewrite Htitle, Hcompany, Hurl|].
  split; [reflexivity|].
  split; [apply length_generate_job_id|].
  split; [apply hex_string_take, hex_string_fold|].
  unfold _generate_job_id, Py.get at 3. intros [-> | ->]; reflexivity.
Qed.

(** C4 on two findings of the same posting. *)
Lemma job_id_of_exact_triple_witness :
  _generate_job_id (Samples.answering "" [] []) Samples.engineer_at_acme
  = _generate_job_id (Samples.answering "" [] []) Samples.engineer_at_acme_again
  /\ _generate_job_id (Samples.answering "" [] []) Samples.engineer_at_acme
     = PyStr.take 12 (MD5.hexdigest "EngineerAcmehttps://acme.com/jobs/1").
Proof.
  destruct (job_id_of_exact_triple (Samples.answering "" [] [])
              Samples.engineer_at_acme Samples.engineer_at_acme_again)
    as (Hsame & Hmd5 & _); [reflexivity | reflexivity | reflexivity |].
  split; [exact Hsame | exact Hmd5].
Defined.

Example job_id_of_engineer_at_acme :
  _generate_job_id (Samples.answering "" [] []) Samples.engineer_at_acme = "d346801e8a67".
Proof. vm_compute. reflexivity. Qed.

(** ** Ingestion of the mailbox *)

Lemma print_run_eq line w :
  print line w
  = (Ok tt, mkWorld (jobs_dir w) (resume_cache w) (llm_calls w) (read_marks w)
                    (console w ++ [line])).
Proof. reflexivity. Qed.

Lemma attempt_mark_as_read P message_id w :
  exists marked w',
    attempt (mark_as_read P message_id) w = (Ok marked, w')
    /\ jobs_dir w' = jobs_dir w
    /\ read_marks w' = (read_marks w ++ [message_id])%list.
Proof.
  unfold attempt, mark_as_read.
  destruct (gmail_modify P w message_id) as [[]|error];
    [|destruct (isinstance error HttpError)]; eexists _, _; repeat split.
Qed.

(** A turn of the loop never raises, and it is one of the three turns of
    [turn]. *)
Lemma check_email_turn P email parsed_count w :
  exists parsed_count' w',
    check_email P email parsed_count w = (Ok parsed_count', w')
    /\ turn P email (parsed_count, w) (parsed_count', w').
Proof.
  destruct (parse_email_total P (email_subject email) (email_body email)
              (email_from email) w) as (answer & k & Hparse & _).
  set (job_data := clean_up _ _ _ answer) in Hparse.
  set (w1 := add_calls w _) in Hparse.
  unfold check_email, bind at 1. unfold attempt at 1.
  unfold check_email_try, bind at 1. rewrite Hparse.
  unfold bind at 1. unfold get_all_jobs at 1.
  change (map snd (map_to_list (jobs_dir w1))) with (records w).
  change (fun job : Dict => Py.eq_str (Py.get job "id" VNone) (_generate_job_id P job_data))
    with (has_id (_generate_job_id P job_data)).
  destruct (existsb (has_id (_generate_job_id P job_data)) (records w)) eqn:Hdup.
  - unfold bind at 1. rewrite print_run_eq. unfold bind at 1.
    match goal with |- context [attempt (mark_as_read P ?i) ?w2] =>
      destruct (attempt_mark_as_read P i w2) as (marked & w3 & -> & Hjobs & Hmarks) end.
    unfold ret at 1.
    assert (Hturn : forall w4, jobs_dir w4 = jobs_dir w3 -> read_marks w4 = read_marks w3 ->
              turn P email (parsed_count, w) (parsed_count, w4)).
    { intros w4 Hj Hm. apply (turn_duplicate _ _ _ _ job_data); simpl.
      - by rewrite Hparse.
      - exact Hdup.
      - reflexivity.
      - by rewrite Hj, Hjobs.
      - by rewrite Hm, Hmarks. }
    destruct marked as [[]|e]; eexists _, _; (split; [reflexivity|]); by apply Hturn.
  - unfold bind at 1. unfold write_job at 1.
    destruct (fs_write P w1 _) as [[]|e] eqn:Hwrite.
    + unfold bind at 1. rewrite print_run_eq. unfold bind at 1.
      match goal with |- context [attempt (mark_as_read P ?i) ?w2] =>
        destruct (attempt_mark_as_read P i w2) as (marked & w3 & -> & Hjobs & Hmarks) end.
      unfold ret at 1.
      assert (Hturn : forall w4, jobs_dir w4 = jobs_dir w3 -> read_marks w4 = read_marks w3 ->
                turn P email (parsed_count, w) (S parsed_count, w4)).
      { intros w4 Hj Hm. apply (turn_stored _ _ _ _ job_data); simpl.
        - by rewrite Hparse.
        - exact Hdup.
        - reflexivity.
        - by rewrite Hj, Hjobs.
        - by rewrite Hm, Hmarks. }
      destruct marked as [[]|e]; eexists _, _; (split; [reflexivity|]); by apply Hturn.
    + eexists _, _. split; [reflexivity|].
      apply (turn_failed _ _ _ _ e); simpl; try reflexivity.
      * unfold check_email_try, bind at 1. rewrite Hparse.
        unfold bind at 1, get_all_jobs at 1.
        change (map snd (map_to_list (jobs_dir w1))) with (records w).
        change (fun job : Dict => Py.eq_str (Py.get job "id" VNone) (_generate_job_id P job_data))
          with (has_id (_generate_job_id P job_data)).
        rewrite Hdup. unfold bind at 1, write_job at 1. by rewrite Hwrite.
      * by rewrite last_snoc.
Qed.

Lemma check_email_loop_total P emails :
  forall parsed_count w, exists n w',
    check_email_loop P emails parsed_count w = (Ok n, w').
Proof.
  induction emails as [|email later IH]; intros parsed_count w.
  - by eexists _, _.
  - destruct (check_email_turn P email parsed_count w) as (c' & w' & Hturn & _).
    cbn [check_email_loop]. unfold bind. rewrite Hturn. apply IH.
Qed.

(** Against C7 as it is stated.  On the platform [write_protected] the
    first message of the batch cannot be stored: its turn ends in the exception handler, the message
    is not marked read, and the second message is stored and marked. *)
Lemma failed_message_stays_unread :
  let after := snd (check_emails Samples.write_protected Samples.fresh) in
  fst (check_emails Samples.write_protected Samples.fresh) = Ok 1%nat
  /\ gmail_unread Samples.write_protected Samples.fresh 50
     = Ok [Samples.acme_email; Samples.other_email]
  /\ fst (check_email_try Samples.write_protected Samples.acme_email 0
            Samples.at_loop_start)
     = Raise (Exn OSError "[Errno 13] Permission denied")
  /\ read_marks after = [email_id Samples.other_email]
  /\ ~ In (email_id Samples.acme_email) (read_marks after)
  /\ console after
     = ["🔍 Checking Gmail for job alerts..."; "Found 2 unread job emails";
        "❌ Error parsing email: [Errno 13] Permission denied";
        "✅ Parsed: Data Analyst at Unknown";
        PyStr.nl +:+ "✨ Parsed 1 new jobs"].
Proof.
  cbv zeta.
  split; [vm_compute; reflexivity|]. split; [reflexivity|].
  split; [vm_compute; reflexivity|].
  assert (Hmarks : read_marks (snd (check_emails Samples.write_protected Samples.fresh))
                   = [email_id Samples.other_email]) by (vm_compute; reflexivity).
  split; [exact Hmarks|]. split; [|vm_compute; reflexivity].
  rewrite Hmarks. intros [H|[]]. discriminate H.
Qed.

(** Scenario: the same posting arrives in two messages.  The second one is
    reported as a duplicate, one file is written, and both messages are
    marked read. *)
Example same_posting_in_two_messages :
  let P := Samples.answering Samples.acme_posting
             [Samples.acme_email; Samples.acme_email] [] in
  let after := snd (check_emails P Samples.fresh) in
  fst (check_emails P Samples.fresh) = Ok 1%nat
  /\ size (jobs_dir after) = 1%nat
  /\ read_marks after = ["msg-1"; "msg-1"]
  /\ console after
     = ["🔍 Checking Gmail for job alerts..."; "Found 2 unread job emails";
        "✅ Parsed: Backend Engineer at Acme";
        "⏭️  Skipping duplicate: Backend Engineer at Acme";
        PyStr.nl +:+ "✨ Parsed 1 new jobs"].
Proof.
  cbv zeta. split; [vm_compute; reflexivity|]. split; [vm_compute; reflexivity|].
  split; vm_compute; reflexivity.
Qed.

(** C7 (as amended).  A turn of the loop of [check_emails] never raises,
    so the loop goes on to the messages that follow, whatever happened to
    this one, and comes to its end; the message is marked read when it was
    stored as a new record and when it was skipped as a duplicate; when the
    [try] block is left by an exception raised before that, the error is
    printed and the message is not marked read. *)
Theorem check_email_marks_processed P email later parsed_count w :
  exists parsed_count' w',
    check_email P email parsed_count w = (Ok parsed_count', w')
    /\ check_email_loop P (email :: later) parsed_count w
       = check_email_loop P later parsed_count' w'
    /\ (exists n w'', check_email_loop P later parsed_count' w' = (Ok n, w''))
    /\ turn P email (parsed_count, w) (parsed_count', w').
Proof.
  destruct (check_email_turn P email parsed_count w) as (c' & w' & Hrun & Hturn).
  exists c', w'. split; [exact Hrun|]. split.
  { cbn [check_email_loop]. unfold bind. by rewrite Hrun. }
  split; [apply check_email_loop_total | exact Hturn].
Qed.

(** ** One record per identifier *)

Lemma filter_by_id_absent (l : list (string * Dict)) i :
  (forall name job, In (name, job) l -> job !! "id" = Some (VStr name)) ->
  ~ In i (map fst l) ->
  List.filter (has_id i) (map snd l) = [].
Proof.
  induction l as [|[name job] l IH]; intros Hfiled Habsent; [reflexivity|].
  simpl in *. unfold has_id at 1, Py.get. rewrite (Hfiled name job) by auto.
  simpl. destruct (String.eqb_spec name i) as [->|Hne]; [tauto|].
  apply IH; [|tauto]. intros n j Hin. apply Hfiled. auto.
Qed.

Lemma filter_by_id_present (l : list (string * Dict)) i :
  NoDup (map fst l) ->
  (forall name job, In (name, job) l -> job !! "id" = Some (VStr name)) ->
  In i (map fst l) ->
  length (List.filter (has_id i) (map snd l)) = 1%nat.
Proof.
  induction l as [|[name job] l IH]; intros Hnodup Hfiled Hin; [destruct Hin|].
  simpl in *. apply NoDup_cons in Hnodup as [Hfresh Hnodup].
  rewrite list_elem_of_In in Hfresh.
  assert (Hl : forall n j, In (n, j) l -> j !! "id" = Some (VStr n))
    by (intros n j Hnj; apply Hfiled; auto).
  unfold has_id at 1, Py.get. rewrite (Hfiled name job) by auto. simpl.
  destruct (String.eqb_spec name i) as [->|Hne].
  - rewrite (filter_by_id_absent l i Hl Hfresh). reflexivity.
  - apply IH; [exact Hnodup | exact Hl | tauto].
Qed.

Lemma records_filed (jobs : gmap string Dict) :
  filed_by_id jobs ->
  forall name job, In (name, job) (map_to_list jobs) -> job !! "id" = Some (VStr name).
Proof.
  intros Hfiled name job Hin. apply (Hfiled name job).
  apply elem_of_map_to_list. by apply list_elem_of_In.
Qed.

(** In a directory where every record is filed under its identifier, an
    identifier that some record carries is carried by exactly one. *)
Lemma one_record_per_id w i :
  filed_by_id (jobs_dir w) ->
  existsb (has_id i) (records w) = true ->
  length (List.filter (has_id i) (records w)) = 1%nat.
Proof.
  intros Hfiled Hdup. unfold records in *.
  apply filter_by_id_present.
  - apply (NoDup_fst_map_to_list (jobs_dir w)).
  - by apply records_filed.
  - apply existsb_exists in Hdup as (stored & Hin & Hid).
    apply in_map_iff in Hin as ([name job] & <- & Hin). simpl in Hid.
    pose proof (records_filed _ Hfiled name job Hin) as Hjob.
    unfold has_id, Py.get in Hid. rewrite Hjob in Hid. simpl in Hid.
    apply String.eqb_eq in Hid as <-.
    apply in_map_iff. by exists (name, job).
Qed.

Lemma parse_email_keeps_jobs P subject body sender w job_data w1 :
  parse_email P subject body sender w = (Ok job_data, w1) ->
  jobs_dir w1 = jobs_dir w /\ read_marks w1 = read_marks w.
Proof.
  intros Hrun.
  destruct (parse_email_total P subject body sender w) as (answer & k & Htotal & _).
  rewrite Htotal in Hrun. injection Hrun as _ <-. by split.
Qed.

(** The turn of a message whose posting is already stored. *)
Lemma check_email_duplicate P email parsed_count w job_data w1 :
  parse_email P (email_subject email) (email_body email) (email_from email) w
  = (Ok job_data, w1) ->
  existsb (has_id (_generate_job_id P job_data)) (records w) = true ->
  exists w',
    check_email P email parsed_count w = (Ok parsed_count, w')
    /\ jobs_dir w' = jobs_dir w
    /\ read_marks w' = (read_marks w ++ [email_id email])%list.
Proof.
  intros Hparse Hdup.
  destruct (parse_email_keeps_jobs _ _ _ _ _ _ _ Hparse) as [Hjobs1 Hmarks1].
  unfold check_email, bind at 1. unfold attempt at 1.
  unfold check_email_try, bind at 1. rewrite Hparse.
  unfold bind at 1. unfold get_all_jobs at 1.
  change (map snd (map_to_list (jobs_dir w1))) with (records w1).
  change (fun job : Dict => Py.eq_str (Py.get job "id" VNone) (_generate_job_id P job_data))
    with (has_id (_generate_job_id P job_data)).
  replace (records w1) with (records w) by (unfold records; by rewrite Hjobs1).
  rewrite Hdup.
  unfold bind at 1. rewrite print_run_eq. unfold bind at 1.
  match goal with |- context [attempt (mark_as_read P ?i) ?w2] =>
    destruct (attempt_mark_as_read P i w2) as (marked & w3 & -> & Hjobs & Hmarks) end.
  unfold ret at 1. simpl in Hjobs, Hmarks.
  destruct marked as [[]|e]; eexists; (split; [reflexivity|]); simpl;
    by rewrite Hjobs, Hmarks, Hjobs1, Hmarks1.
Qed.

(** Ingestion keeps every record filed under its identifier. *)
Lemma check_email_keeps_filing P email parsed_count w :
  filed_by_id (jobs_dir w) ->
  filed_by_id (jobs_dir (snd (check_email P email parsed_count w))).
Proof.
  intros Hfiled.
  destruct (check_email_turn P email parsed_count w) as (c' & w' & -> & Hturn).
  simpl. destruct Hturn as [job_data _ _ _ Hjobs _|job_data _ _ _ Hjobs _|e _ _ Hjobs _ _];
    simpl in Hjobs; rewrite Hjobs; try exact Hfiled.
  intros name job Hlookup.
  destruct (decide (_generate_job_id P job_data = name)) as [<-|Hne].
  - rewrite lookup_insert_eq in Hlookup. injection Hlookup as <-.
    apply lookup_insert_eq.
  - rewrite lookup_insert_ne in Hlookup by done. by apply Hfiled.
Qed.

(** C3.  When the posting parsed from a message has the identifier of a
    record that is already stored, whatever the directory holds, the turn
    of the loop writes nothing: the identifier is computed and looked for
    among the stored records before any write, the directory is left as
    it was, the message is marked read and not counted as new; and when
    the records are filed under their identifiers, as ingestion files
    them, exactly one record carries that identifier afterwards. *)
Theorem ingestion_is_idempotent P email parsed_count w job_data w1 :
  parse_email P (email_subject email) (email_body email) (email_from email) w
  = (Ok job_data, w1) ->
  (exists stored, In stored (records w)
                  /\ has_id (_generate_job_id P job_data) stored = true) ->
  exists w',
    check_email P email parsed_count w = (Ok parsed_count, w')
    /\ jobs_dir w' = jobs_dir w
    /\ records w' = records w
    /\ In (email_id email) (read_marks w')
    /\ (filed_by_id (jobs_dir w) ->
        filed_by_id (jobs_dir w')
        /\ length (List.filter (has_id (_generate_job_id P job_data)) (records w'))
           = 1%nat).
Proof.
  intros Hparse Hstored.
  assert (Hdup : existsb (has_id (_generate_job_id P job_data)) (records w) = true)
    by (by apply existsb_exists).
  destruct (check_email_duplicate P email parsed_count w job_data w1 Hparse Hdup)
    as (w' & Hrun & Hjobs & Hmarks).
  assert (Hrecords : records w' = records w) by (unfold records; by rewrite Hjobs).
  exists w'. split; [exact Hrun|]. split; [exact Hjobs|]. split; [exact Hrecords|].
  split; [rewrite Hmarks; apply in_or_app; right; by left|].
  intros Hfiled. rewrite Hjobs, Hrecords. split; [exact Hfiled|].
  by apply one_record_per_id.
Qed.

(** A message that comes again after its posting was stored is skipped,
    provided that the model gives it a posting with the same identifier. *)
Lemma second_ingestion_is_skipped P email parsed_count w job_data w1 parsed_again w2 :
  jobs_dir w1
  = <[_generate_job_id P job_data :=
        <["id" := VStr (_generate_job_id P job_data)]> job_data]> (jobs_dir w) ->
  parse_email P (email_subject email) (email_body email) (email_from email) w1
  = (Ok parsed_again, w2) ->
  _generate_job_id P parsed_again = _generate_job_id P job_data ->
  exists w',
    check_email P email parsed_count w1 = (Ok parsed_count, w')
    /\ jobs_dir w' = jobs_dir w1.
Proof.
  intros Hstored Hparse Hid.
  destruct (check_email_duplicate P email parsed_count w1 parsed_again w2 Hparse)
    as (w' & Hrun & Hjobs & _).
  - apply existsb_exists.
    exists (<["id" := VStr (_generate_job_id P job_data)]> job_data). split.
    + unfold records. apply in_map_iff.
      exists (_generate_job_id P job_data,
              <["id" := VStr (_generate_job_id P job_data)]> job_data).
      split; [reflexivity|]. apply list_elem_of_In, elem_of_map_to_list.
      rewrite Hstored. apply lookup_insert_eq.
    + rewrite Hid. unfold has_id, Py.get. rewrite lookup_insert_eq.
      apply String.eqb_refl.
  - by exists w'.
Qed.

Example acme_posting_id :
  _generate_job_id (Samples.answering Samples.acme_posting [Samples.acme_email] [])
    (clean_up (email_subject Samples.acme_email) (email_body Samples.acme_email)
       (email_from Samples.acme_email)
       (dict_of [("title", VStr "Backend Engineer"); ("company", VStr "Acme");
                 ("url", VStr "https://acme.com/careers/123")]))
  = "0f6ed0b02886".
Proof. vm_compute. reflexivity. Qed.

(** C3 on a message that is ingested a second time. *)
Lemma ingestion_is_idempotent_witness :
  let P := Samples.answering Samples.acme_posting [Samples.acme_email] [] in
  size (jobs_dir Samples.ingested_once) = 1%nat
  /\ filed_by_id (jobs_dir Samples.ingested_once)
  /\ exists w',
       check_email P Samples.acme_email 1 Samples.ingested_once = (Ok 1%nat, w')
       /\ jobs_dir w' = jobs_dir Samples.ingested_once
       /\ In "msg-1" (read_marks w')
       /\ length (List.filter (has_id "0f6ed0b02886") (records w')) = 1%nat.
Proof.
  cbv zeta. split; [vm_compute; reflexivity|].
  assert (Hfiled : filed_by_id (jobs_dir Samples.ingested_once)).
  { apply (check_email_keeps_filing _ _ 0%nat Samples.fresh). intros name job Hlookup.
    vm_compute in Hlookup. discriminate Hlookup. }
  split; [exact Hfiled|].
  rewrite <- acme_posting_id.
  destruct (ingestion_is_idempotent
              (Samples.answering Samples.acme_posting [Samples.acme_email] [])
              Samples.acme_email 1 Samples.ingested_once
              (clean_up (email_subject Samples.acme_email) (email_body Samples.acme_email)
                 (email_from Samples.acme_email)
                 (dict_of [("title", VStr "Backend Engineer"); ("company", VStr "Acme");
                           ("url", VStr "https://acme.com/careers/123")]))
              (add_calls Samples.ingested_once
                 [parse_email_prompt (email_subject Samples.acme_email)
                    (email_body Samples.acme_email) (email_from Samples.acme_email)]))
    as (w' & Hrun & Hjobs & _ & Hmarks & Hone).
  - vm_compute. reflexivity.
  - apply existsb_exists. vm_compute. reflexivity.
  - exists w'. split; [exact Hrun|]. split; [exact Hjobs|]. split; [exact Hmarks|].
    by apply Hone.
Defined.

(** ** Review *)

Lemma score_key_integer job :
  integer_score job -> score_key job = VInt (score_of job).
Proof.
  unfold integer_score, score_key, score_of, Py.get.
  intros [->|[n ->]]; reflexivity.
Qed.

Lemma ge_int_integer n min_score :
  Py.ge_int (VInt n) min_score = Ok (min_score <=? n).
Proof.
  unfold Py.ge_int, Py.num_compare. simpl.
  destruct (Z.compare_spec n min_score); f_equal; symmetry;
    [apply Z.leb_le | apply Z.leb_gt | apply Z.leb_le]; lia.
Qed.

Lemma lt_integer a b : Py.lt (VInt a) (VInt b) = (a <? b).
Proof.
  unfold Py.lt, Py.num_compare. simpl.
  destruct (Z.compare_spec a b); symmetry;
    [apply Z.ltb_ge | apply Z.ltb_lt | apply Z.ltb_ge]; lia.
Qed.

Lemma scoring_at_least_integer min_score jobs :
  Forall integer_score jobs ->
  scoring_at_least min_score jobs
  = Ok (List.filter (fun job => min_score <=? score_of job) jobs).
Proof.
  induction 1 as [|job jobs Hjob _ IH]; [reflexivity|].
  cbn [scoring_at_least List.filter].
  change (Py.get job "score" (VInt 0)) with (score_key job).
  rewrite (score_key_integer job Hjob), ge_int_integer, IH. simpl.
  by destruct (min_score <=? score_of job).
Qed.

Lemma insert_by_score_perm job sorted :
  Permutation (insert_by_score job sorted) (job :: sorted).
Proof.
  induction sorted as [|next rest IH]; simpl; [reflexivity|].
  destruct (Py.lt _ _); [|reflexivity].
  rewrite IH. apply perm_swap.
Qed.

Lemma sort_by_score_desc_perm jobs : Permutation (sort_by_score_desc jobs) jobs.
Proof.
  induction jobs as [|job jobs IH]; simpl; [reflexivity|].
  rewrite insert_by_score_perm. by constructor.
Qed.

Lemma insert_by_score_sorted job sorted :
  integer_score job -> Forall integer_score sorted ->
  Sorted (fun a b => score_of b <= score_of a) sorted ->
  Sorted (fun a b => score_of b <= score_of a) (insert_by_score job sorted).
Proof.
  intros Hjob Hall Hsorted.
  induction Hsorted as [|next rest Hrest IH Hhd]; simpl; [by repeat constructor|].
  apply Forall_cons in Hall as [Hnext Hall].
  rewrite (score_key_integer job Hjob), (score_key_integer next Hnext), lt_integer.
  destruct (Z.ltb_spec (score_of job) (score_of next)) as [Hlt|Hge].
  - constructor; [by apply IH|].
    destruct rest as [|third rest]; simpl.
    + constructor. lia.
    + apply Forall_cons in Hall as [Hthird _].
      rewrite (score_key_integer job Hjob), (score_key_integer third Hthird), lt_integer.
      destruct (Z.ltb_spec (score_of job) (score_of third)).
      * constructor. by inversion Hhd.
      * constructor. lia.
  - constructor; [by constructor|]. constructor. lia.
Qed.

Lemma sort_by_score_desc_sorted jobs :
  Forall integer_score jobs ->
  StronglySorted (fun a b => score_of b <= score_of a) (sort_by_score_desc jobs).
Proof.
  intros Hall. apply Sorted_StronglySorted; [intros a b c; lia|].
  induction Hall as [|job jobs Hjob Hall IH]; simpl; [constructor|].
  apply insert_by_score_sorted; [exact Hjob| |exact IH].
  by rewrite sort_by_score_desc_perm.
Qed.

(** Records with equal scores keep the order of the listing. *)
Example sort_is_stable :
  map (fun job => Py.get job "title" VNone)
    (sort_by_score_desc
       [Samples.scored "1" "a" (Some 1); Samples.scored "2" "b" (Some 2);
        Samples.scored "3" "c" (Some 1); Samples.scored "4" "d" (Some 2)])
  = [VStr "b"; VStr "d"; VStr "a"; VStr "c"].
Proof. vm_compute. reflexivity. Qed.

Lemma get_high_scoring_jobs_integer min_score w :
  Forall integer_score (records w) ->
  get_high_scoring_jobs min_score w
  = (Ok (List.filter (fun job => min_score <=? score_of job) (records w)), w).
Proof.
  intros Hall. unfold get_high_scoring_jobs, bind, get_all_jobs, lift.
  change (map snd (map_to_list (jobs_dir w))) with (records w).
  by rewrite scoring_at_least_integer.
Qed.

(** ** The order of numbers *)

Lemma digits2_pos_bounds m :
  2 ^ (Z.pos (digits2_pos m) - 1) <= Z.pos m < 2 ^ Z.pos (digits2_pos m).
Proof.
  induction m as [m IH|m IH|]; cbn [digits2_pos]; [| |simpl; lia];
    rewrite Pos2Z.inj_succ;
    set (d := Z.pos (digits2_pos m)) in *;
    assert (0 < d) by (unfold d; lia);
    replace (Z.succ d - 1) with (Z.succ (d - 1)) by lia;
    rewrite !Z.pow_succ_r by lia; lia.
Qed.

Lemma bounded_exponents m e :
  bounded 53 1024 m e = true ->
  -1074 <= e /\ Z.pos m < 2 ^ 53 /\ (-1074 < e -> 2 ^ 52 <= Z.pos m).
Proof.
  unfold bounded, canonical_mantissa, fexp, emin. intros H.
  apply andb_prop in H as [H _]. apply Z.eqb_eq in H.
  pose proof (digits2_pos_bounds m) as [Hlow Hhigh].
  set (d := Z.pos (digits2_pos m)) in *.
  assert (Hd : d <= 53) by lia.
  split; [lia|]. split.
  - eapply Z.lt_le_trans; [exact Hhigh|]. apply Z.pow_le_mono_r; lia.
  - intros He. assert (d = 53) as Hd' by lia. rewrite Hd' in Hlow. exact Hlow.
Qed.

(** Of two binary64 numbers of the same sign, the one with the greater
    exponent is the greater in magnitude. *)
Lemma greater_exponent m1 e1 m2 e2 E :
  bounded 53 1024 m1 e1 = true -> bounded 53 1024 m2 e2 = true ->
  e1 < e2 -> E <= e1 ->
  Z.pos m1 * 2 ^ (e1 - E) < Z.pos m2 * 2 ^ (e2 - E).
Proof.
  intros H1 H2 Hlt HE.
  apply bounded_exponents in H1 as (Hmin1 & Hhigh1 & _).
  apply bounded_exponents in H2 as (_ & _ & Hlow2).
  specialize (Hlow2 ltac:(lia)).
  replace (e2 - E) with ((e2 - e1 - 1) + 1 + (e1 - E)) by lia.
  rewrite !Z.pow_add_r by lia.
  assert (0 < 2 ^ (e1 - E)) by (apply Z.pow_pos_nonneg; lia).
  assert (1 <= 2 ^ (e2 - e1 - 1)) by (apply (Z.pow_le_mono_r 2 0); lia).
  change (2 ^ 1) with 2. change (2 ^ 53) with (2 * 2 ^ 52) in Hhigh1.
  generalize dependent (2 ^ 52). generalize dependent (2 ^ (e1 - E)).
  generalize dependent (2 ^ (e2 - e1 - 1)). intros B HB A HA K HK1 HK2.
  apply Z.lt_le_trans with (2 * K * A); [nia|].
  apply Z.le_trans with (Z.pos m2 * 2 * A); [nia|].
  assert (0 <= Z.pos m2 * 2 * A) by nia. nia.
Qed.

Lemma compare_in_units_of p n m : 0 < p -> (n * p ?= m * p) = (n ?= m).
Proof.
  intros Hp. destruct (Z.compare_spec n m) as [->|Hlt|Hgt].
  - apply Z.compare_refl.
  - apply Z.compare_lt_iff. nia.
  - apply Z.compare_gt_iff. nia.
Qed.

Lemma compare_in_units_antisym E a b :
  compare_in_units E a b = CompOpp (compare_in_units E b a).
Proof.
  unfold compare_in_units.
  rewrite (Z.compare_antisym (infinity_of a)), (Z.compare_antisym (in_units E a)).
  by destruct (infinity_of a ?= infinity_of b), (in_units E a ?= in_units E b).
Qed.

Lemma float_compare_int_in_units E f y :
  ordered_number (VFloat f) -> E <= 0 -> E <= exponent_of (VFloat f) ->
  Py.float_compare_int f y = Some (compare_in_units E (VFloat f) (VInt y)).
Proof.
  intros Hf HE He.
  assert (Hp : 0 < 2 ^ (- E)) by (apply Z.pow_pos_nonneg; lia).
  destruct f as [z|s| |s m e]; unfold compare_in_units;
    cbn [Py.float_compare_int infinity_of in_units exponent_of] in *.
  - change (0 ?= 0) with Eq. cbv iota.
    by rewrite <- (compare_in_units_of (2 ^ (- E)) 0 y Hp).
  - by destruct s.
  - destruct Hf.
  - change (0 ?= 0) with Eq. cbv iota beta zeta. f_equal.
    set (sm := if s then Z.neg m else Z.pos m).
    destruct (Z.leb_spec 0 e) as [Hpos|Hneg].
    + rewrite Z.shiftl_mul_pow2 by lia.
      replace (e - E) with (e + - E) by lia. rewrite Z.pow_add_r by lia.
      rewrite Z.mul_assoc. by rewrite compare_in_units_of.
    + rewrite Z.shiftl_mul_pow2 by lia.
      replace (- E) with (- e + (e - E)) at 1 by lia. rewrite Z.pow_add_r by lia.
      rewrite Z.mul_assoc. rewrite compare_in_units_of; [reflexivity|].
      apply Z.pow_pos_nonneg; lia.
Qed.

Lemma SFcompare_in_units E f g :
  ordered_number (VFloat f) -> ordered_number (VFloat g) ->
  E <= exponent_of (VFloat f) -> E <= exponent_of (VFloat g) ->
  SFcompare f g = Some (compare_in_units E (VFloat f) (VFloat g)).
Proof.
  intros Hf Hg Ef Eg.
  destruct f as [z1|s1| |s1 m1 e1]; destruct g as [z2|s2| |s2 m2 e2];
    try (exfalso; exact Hf); try (exfalso; exact Hg); unfold compare_in_units;
    cbn [SFcompare infinity_of in_units exponent_of] in *;
    try reflexivity; try (by destruct s1); try (by destruct s2);
    try (by destruct s1, s2).
  - change (0 ?= 0) with Eq. cbv iota. f_equal. symmetry.
    assert (0 < 2 ^ (e2 - E)) by (apply Z.pow_pos_nonneg; lia).
    destruct s2; [apply Z.compare_gt_iff | apply Z.compare_lt_iff]; nia.
  - change (0 ?= 0) with Eq. cbv iota. f_equal. symmetry.
    assert (0 < 2 ^ (e1 - E)) by (apply Z.pow_pos_nonneg; lia).
    destruct s1; [apply Z.compare_lt_iff | apply Z.compare_gt_iff]; nia.
  - change (0 ?= 0) with Eq. cbv iota. f_equal. symmetry.
    unfold binary64, valid_binary in Hf, Hg.
    assert (H1 : 0 < 2 ^ (e1 - E)) by (apply Z.pow_pos_nonneg; lia).
    assert (H2 : 0 < 2 ^ (e2 - E)) by (apply Z.pow_pos_nonneg; lia).
    destruct s1, s2.
    + destruct (Z.compare_spec e1 e2) as [->|Hlt|Hgt].
      * rewrite compare_in_units_of by exact H2.
        change (Z.neg m1 ?= Z.neg m2) with (CompOpp (m1 ?= m2)%positive).
        reflexivity.
      * apply Z.compare_gt_iff.
        pose proof (greater_exponent m1 e1 m2 e2 E Hf Hg Hlt Ef). lia.
      * apply Z.compare_lt_iff.
        pose proof (greater_exponent m2 e2 m1 e1 E Hg Hf ltac:(lia) Eg). lia.
    + apply Z.compare_lt_iff. nia.
    + apply Z.compare_gt_iff. nia.
    + destruct (Z.compare_spec e1 e2) as [->|Hlt|Hgt].
      * rewrite compare_in_units_of by exact H2. reflexivity.
      * apply Z.compare_lt_iff. by apply greater_exponent.
      * apply Z.compare_gt_iff. apply greater_exponent; [done|done|lia|done].
Qed.

Lemma num_compare_in_units E a b :
  ordered_number a -> ordered_number b ->
  E <= 0 -> E <= exponent_of a -> E <= exponent_of b ->
  Py.num_compare a b = Some (compare_in_units E a b).
Proof.
  intros Ha Hb HE Ea Eb.
  assert (Hp : 0 < 2 ^ (- E)) by (apply Z.pow_pos_nonneg; lia).
  destruct a as [|x|x|f| | |]; try (exfalso; exact Ha);
    destruct b as [|y|y|g| | |]; try (exfalso; exact Hb); unfold Py.num_compare.
  - unfold compare_in_units. cbn [infinity_of in_units]. change (0 ?= 0) with Eq.
    cbv iota. by rewrite compare_in_units_of.
  - unfold compare_in_units. cbn [infinity_of in_units]. change (0 ?= 0) with Eq.
    cbv iota. by rewrite compare_in_units_of.
  - rewrite (float_compare_int_in_units E g _ Hb HE Eb). cbn [option_map].
    by rewrite <- compare_in_units_antisym.
  - unfold compare_in_units. cbn [infinity_of in_units]. change (0 ?= 0) with Eq.
    cbv iota. by rewrite compare_in_units_of.
  - unfold compare_in_units. cbn [infinity_of in_units]. change (0 ?= 0) with Eq.
    cbv iota. by rewrite compare_in_units_of.
  - rewrite (float_compare_int_in_units E g _ Hb HE Eb). cbn [option_map].
    by rewrite <- compare_in_units_antisym.
  - exact (float_compare_int_in_units E f _ Ha HE Ea).
  - exact (float_compare_int_in_units E f _ Ha HE Ea).
  - by apply SFcompare_in_units.
Qed.

Lemma score_key_value job : score_key job = score_value job.
Proof. unfold score_key, score_value, Py.get. by destruct (job !! "score"). Qed.

Lemma at_least_in_units E a b :
  ordered_number a -> ordered_number b ->
  E <= 0 -> E <= exponent_of a -> E <= exponent_of b ->
  at_least a b = true
  <-> infinity_of b < infinity_of a
      \/ infinity_of a = infinity_of b /\ in_units E b <= in_units E a.
Proof.
  intros Ha Hb HE Ea Eb. unfold at_least.
  rewrite (num_compare_in_units E a b Ha Hb HE Ea Eb). unfold compare_in_units.
  destruct (Z.compare_spec (infinity_of a) (infinity_of b));
    destruct (Z.compare_spec (in_units E a) (in_units E b));
    split; (discriminate || lia || reflexivity || idtac); intros _; lia.
Qed.

Lemma at_least_trans a b c :
  ordered_number a -> ordered_number b -> ordered_number c ->
  at_least a b = true -> at_least b c = true -> at_least a c = true.
Proof.
  intros Ha Hb Hc.
  set (E := Z.min 0 (Z.min (exponent_of a) (Z.min (exponent_of b) (exponent_of c)))).
  rewrite (at_least_in_units E a b), (at_least_in_units E b c), (at_least_in_units E a c)
    by (assumption || lia).
  lia.
Qed.

Lemma at_least_or_less a b :
  ordered_number a -> ordered_number b ->
  at_least a b = negb (Py.lt a b) /\ (Py.lt a b = true -> at_least b a = true).
Proof.
  intros Ha Hb.
  set (E := Z.min 0 (Z.min (exponent_of a) (exponent_of b))).
  unfold at_least, Py.lt.
  rewrite (num_compare_in_units E a b), (num_compare_in_units E b a) by (assumption || lia).
  rewrite (compare_in_units_antisym E b a).
  by destruct (compare_in_units E a b).
Qed.

Lemma at_least_integers a b : at_least (VInt a) (VInt b) = (b <=? a).
Proof.
  unfold at_least, Py.num_compare.
  destruct (Z.compare_spec a b); symmetry;
    [apply Z.leb_le | apply Z.leb_gt | apply Z.leb_le]; lia.
Qed.

Lemma at_least_ordered v min_score :
  match v with VFloat f => binary64 f = true | _ => True end ->
  at_least v (VInt min_score) = true -> ordered_number v.
Proof. destruct v as [| | |[]| | |]; try done. Qed.

Lemma number_score_value job :
  number_score job ->
  Py.is_number (score_value job) = true
  /\ match score_value job with VFloat f => binary64 f = true | _ => True end.
Proof.
  unfold number_score, score_value.
  by destruct (job !! "score") as [[]|].
Qed.

(** ** The selection and the order of the review, on numbers *)

Lemma scoring_at_least_numbers min_score jobs :
  Forall number_score jobs ->
  scoring_at_least min_score jobs
  = Ok (List.filter (fun job => at_least (score_value job) (VInt min_score)) jobs).
Proof.
  induction 1 as [|job jobs Hjob _ IH]; [reflexivity|].
  cbn [scoring_at_least List.filter].
  change (Py.get job "score" (VInt 0)) with (score_key job).
  rewrite score_key_value. unfold Py.ge_int.
  destruct (number_score_value job Hjob) as [-> _]. rewrite IH. cbn [result_bind].
  fold (at_least (score_value job) (VInt min_score)).
  by destruct (at_least (score_value job) (VInt min_score)).
Qed.

Lemma insert_by_score_ordered job sorted :
  ordered_number (score_value job) ->
  Forall (fun other => ordered_number (score_value other)) sorted ->
  StronglySorted (fun a b => at_least (score_value a) (score_value b) = true) sorted ->
  StronglySorted (fun a b => at_least (score_value a) (score_value b) = true)
    (insert_by_score job sorted).
Proof.
  intros Hjob Hall Hsorted.
  induction Hsorted as [|next rest Hrest IH Hhd]; simpl; [by repeat constructor|].
  apply Forall_cons in Hall as [Hnext Hall].
  rewrite (score_key_value job), (score_key_value next).
  destruct (at_least_or_less (score_value job) (score_value next) Hjob Hnext)
    as [Hge Hless].
  destruct (Py.lt (score_value job) (score_value next)).
  - constructor; [by apply IH|].
    rewrite insert_by_score_perm. apply Forall_cons. split; [by apply Hless | exact Hhd].
  - constructor; [by constructor|]. apply Forall_cons. split; [exact Hge|].
    rewrite Forall_forall in Hhd, Hall. apply Forall_forall. intros other Hin.
    apply (at_least_trans _ (score_value next)); auto.
Qed.

Lemma sort_by_score_desc_ordered jobs :
  Forall (fun job => ordered_number (score_value job)) jobs ->
  StronglySorted (fun a b => at_least (score_value a) (score_value b) = true)
    (sort_by_score_desc jobs).
Proof.
  induction 1 as [|job jobs Hjob Hall IH]; simpl; [constructor|].
  apply insert_by_score_ordered; [exact Hjob| |exact IH].
  by rewrite sort_by_score_desc_perm.
Qed.

(** C9 (as amended).  Over a directory whose records have a number as
    score (an integer, a boolean or a float) or none, [review_jobs] with
    a minimum score changes nothing and lists exactly the records whose
    score, 0 for a record without one, is at least the minimum, each as
    often as it is stored, in descending order of score.  Where all the
    scores are integers this is the order of the integers. *)
Theorem review_lists_high_scores min_score w :
  Forall number_score (records w) ->
  exists listed,
    review_jobs (Some min_score) w = (Ok listed, w)
    /\ Permutation listed
         (List.filter (fun job => at_least (score_value job) (VInt min_score)) (records w))
    /\ (forall job, In job listed
          <-> In job (records w) /\ at_least (score_value job) (VInt min_score) = true)
    /\ StronglySorted (fun a b => at_least (score_value a) (score_value b) = true) listed
    /\ (Forall integer_score (records w) ->
        Permutation listed
          (List.filter (fun job => min_score <=? score_of job) (records w))
        /\ (forall job, In job listed <-> In job (records w) /\ min_score <= score_of job)
        /\ StronglySorted (fun a b => score_of b <= score_of a) listed).
Proof.
  intros Hall.
  set (kept := List.filter (fun job => at_least (score_value job) (VInt min_score))
                 (records w)).
  assert (Hin : forall job, In job kept
                  <-> In job (records w)
                      /\ at_least (score_value job) (VInt min_score) = true).
  { intros job. unfold kept. by rewrite filter_In. }
  assert (Hkept : Forall (fun job => ordered_number (score_value job)) kept).
  { apply Forall_forall. intros job Hjob. apply list_elem_of_In, Hin in Hjob as [Hjob Hge].
    rewrite Forall_forall in Hall. apply list_elem_of_In, Hall in Hjob.
    apply (at_least_ordered _ min_score); [|exact Hge].
    by apply number_score_value. }
  exists (sort_by_score_desc kept). split.
  { unfold review_jobs, bind, get_all_jobs, lift.
    change (map snd (map_to_list (jobs_dir w))) with (records w).
    by rewrite scoring_at_least_numbers. }
  split; [apply sort_by_score_desc_perm|].
  split.
  { intros job. rewrite <- Hin.
    by rewrite <- !list_elem_of_In, sort_by_score_desc_perm. }
  split; [by apply sort_by_score_desc_ordered|].
  intros Hint.
  assert (Hsame : kept = List.filter (fun job => min_score <=? score_of job) (records w)).
  { apply filter_ext_in. intros job Hjob.
    rewrite Forall_forall in Hint. apply list_elem_of_In, Hint in Hjob.
    rewrite <- score_key_value, (score_key_integer job Hjob). apply at_least_integers. }
  assert (Hkept' : Forall integer_score kept).
  { apply Forall_forall. intros job Hjob. apply list_elem_of_In, Hin in Hjob as [Hjob _].
    rewrite Forall_forall in Hint. by apply Hint, list_elem_of_In. }
  split; [rewrite <- Hsame; apply sort_by_score_desc_perm|].
  split; [|by apply sort_by_score_desc_sorted].
  intros job. rewrite <- !list_elem_of_In, sort_by_score_desc_perm, !list_elem_of_In.
  rewrite Hsame, filter_In, Z.leb_le. reflexivity.
Qed.

Example review_scenario :
  review_jobs (Some 80) Samples.five_records
  = (Ok [Samples.scored "0a0000000001" "Staff Engineer" (Some 95);
         Samples.scored "0a0000000003" "Backend Engineer" (Some 80)],
     Samples.five_records).
Proof. vm_compute. reflexivity. Qed.

(** C9 on five records with the scores 95, 60, 80, 0 and none, and the
    minimum 80. *)
Lemma review_lists_high_scores_witness :
  exists listed,
    review_jobs (Some 80) Samples.five_records = (Ok listed, Samples.five_records)
    /\ listed = [Samples.scored "0a0000000001" "Staff Engineer" (Some 95);
                 Samples.scored "0a0000000003" "Backend Engineer" (Some 80)]
    /\ StronglySorted (fun a b => at_least (score_value a) (score_value b) = true) listed
    /\ StronglySorted (fun a b => score_of b <= score_of a) listed.
Proof.
  destruct (review_lists_high_scores 80 Samples.five_records)
    as (listed & Hrun & _ & _ & Hsorted & Hintegers).
  - unfold records.
    let l := eval vm_compute in (map snd (map_to_list (jobs_dir Samples.five_records))) in
    change (Forall number_score l).
    repeat (apply Forall_cons; split; [vm_compute; exact I|]). constructor.
  - exists listed. split; [exact Hrun|].
    split; [rewrite review_scenario in Hrun; by injection Hrun as <-|].
    split; [exact Hsorted|]. apply Hintegers. unfold records.
    let l := eval vm_compute in (map snd (map_to_list (jobs_dir Samples.five_records))) in
    change (Forall integer_score l).
    repeat (apply Forall_cons; split;
            [first [left; vm_compute; reflexivity
                   | right; eexists; vm_compute; reflexivity]|]).
    constructor.
Defined.

(** The review on scores of several kinds: the float 80.5, [True], 95,
    NaN, no score and infinity, with the minimum 1. *)
Example review_with_mixed_numbers :
  Forall number_score (records Samples.mixed_scores)
  /\ map (fun job => (Py.get job "id" VNone, score_value job))
       (match fst (review_jobs (Some 1) Samples.mixed_scores) with
        | Ok listed => listed
        | Raise _ => []
        end)
     = [(VStr "0a0000000006", VFloat (S754_infinity false));
        (VStr "0a0000000003", VInt 95);
        (VStr "0a0000000001", VFloat Samples.eighty_and_a_half);
        (VStr "0a0000000002", VBool true)].
Proof.
  split; [|vm_compute; reflexivity].
  unfold records.
  let l := eval vm_compute in (map snd (map_to_list (jobs_dir Samples.mixed_scores))) in
  change (Forall number_score l).
  repeat (apply Forall_cons; split; [vm_compute; first [exact I | reflexivity]|]).
  constructor.
Qed.

(** Against C9 as it is stated.  The Gateway's answer to [parse_email]
    may hold ["score": null], which [clean_up] leaves as it is; on a
    directory with such a record the review with a minimum raises
    [TypeError] on the comparison of [None] with the minimum and lists
    nothing. *)
Lemma review_raises_on_a_null_score :
  clean_up "Clerk" "" "" (dict_of [("score", VNone)]) !! "score" = Some VNone
  /\ map score_value (records Samples.null_score) = [VInt 95; VNone]
  /\ review_jobs (Some 80) Samples.null_score
     = (Raise (Exn TypeError "'>=' not supported between these instances"),
        Samples.null_score)
  /\ ~ (exists listed,
          review_jobs (Some 80) Samples.null_score = (Ok listed, Samples.null_score)).
Proof.
  assert (Hrun : review_jobs (Some 80) Samples.null_score
                 = (Raise (Exn TypeError "'>=' not supported between these instances"),
                    Samples.null_score)) by (vm_compute; reflexivity).
  split; [vm_compute; reflexivity|]. split; [vm_compute; reflexivity|].
  split; [exact Hrun|]. intros [listed Hlisted]. rewrite Hrun in Hlisted. discriminate.
Qed.

(** ** Scoring *)

Lemma clamp_score_range (scoring_result clamped : Dict) :
  clamp_score scoring_result = Ok clamped ->
  exists n, clamped !! "score" = Some (VInt n) /\ 0 <= n <= 100.
Proof.
  unfold clamp_score.
  destruct (Py.int (Py.get scoring_result "score" (VInt 0))) as [score|e].
  - intros [= <-]. exists (Z.max 0 (Z.min 100 score)).
    split; [apply lookup_insert_eq | lia].
  - destruct (isinstance e ValueError || isinstance e TypeError); [|discriminate].
    intros [= <-]. exists 0. split; [apply lookup_insert_eq | lia].
Qed.

(** A score that is missing, [None], a list, a dictionary, NaN or a text
    that is no integer literal becomes 0. *)
Lemma clamp_score_not_a_number (scoring_result : Dict) :
  scoring_result !! "score" = None
  \/ (exists v, scoring_result !! "score" = Some v
                /\ (v = VNone \/ v = VFloat S754_nan
                    \/ (exists l, v = VList l) \/ (exists d, v = VDict d)
                    \/ (exists s, v = VStr s /\ Py.int_of_str s = None))) ->
  clamp_score scoring_result = Ok (<["score" := VInt 0]> scoring_result).
Proof.
  unfold clamp_score, Py.get.
  intros [->|(v & -> & [->|[->|[[l ->]|[[d ->]|(s & -> & Hs)]]]])]; simpl;
    try reflexivity.
  by rewrite Hs.
Qed.

(** The only scores on which the clamping raises are the two infinite
    floats. *)
Lemma clamp_score_raises (scoring_result : Dict) e :
  clamp_score scoring_result = Raise e <->
  (exists s, scoring_result !! "score" = Some (VFloat (S754_infinity s)))
  /\ e = Exn OverflowError "cannot convert float infinity to integer".
Proof.
  unfold clamp_score, Py.get. split.
  - destruct (scoring_result !! "score") as [[| | |[]| | |]|]; simpl;
      try discriminate; try (destruct (Py.int_of_str _); discriminate).
    intros [= <-]. split; [by eexists | reflexivity].
  - intros [[s ->] ->]. reflexivity.
Qed.

Lemma scoring_failed_score P (scoring_result : Dict) :
  scoring_failed P scoring_result !! "score" = Some (VInt 0).
Proof. unfold scoring_failed, dict_of. rewrite !list_to_map_cons. by simplify_map_eq. Qed.

(** Whenever [score_job] returns, also on the error of the Gateway, the
    score of its result is an integer between 0 and 100. *)
Lemma score_job_range P resume_data job w scoring_result w' :
  score_job P resume_data job w = (Ok scoring_result, w') ->
  exists n, scoring_result !! "score" = Some (VInt n) /\ 0 <= n <= 100.
Proof.
  unfold score_job, bind, lift, ret.
  destruct (Py.join ", " (Py.get resume_data "skills" (VList []))) as [skills|]; [|discriminate].
  destruct (Py.join ", " (Py.get resume_data "areas_of_expertise" (VList [])))
    as [expertise|]; [|discriminate].
  destruct (Py.slice_to 1000 (Py.get job "description" (VStr ""))) as [description|];
    [|discriminate].
  destruct (parse_structured P _ w) as [[answer|] w1]; [|discriminate].
  destruct (Py.has_key answer "error").
  - intros [= <- _]. exists 0. split; [apply scoring_failed_score | lia].
  - destruct (clamp_score answer) as [clamped|] eqn:Hclamp; [|discriminate].
    destruct (Py.len (Py.get resume_data "skills" (VList []))) as [count|]; [|discriminate].
    intros [= <- _].
    destruct (clamp_score_range answer clamped Hclamp) as (n & Hn & Hrange).
    exists n. split; [|exact Hrange].
    rewrite !lookup_insert_ne by done. by rewrite !setdefault_other.
Qed.

(** Whenever the [try] block of [score_jobs] comes to its end, the record
    it has written carries an integer score between 0 and 100. *)
Lemma score_and_save_range P resume_data job w w' :
  score_and_save P resume_data job w = (Ok tt, w') ->
  exists name saved n,
    jobs_dir w' = <[name := saved]> (jobs_dir w)
    /\ saved !! "score" = Some (VInt n) /\ 0 <= n <= 100.
Proof.
  unfold score_and_save. unfold bind at 1.
  destruct (score_job P resume_data job w) as [[scoring_result|] w1] eqn:Hscore;
    [|discriminate].
  destruct (score_job_range _ _ _ _ _ _ Hscore) as (n & Hn & Hrange).
  assert (Hjobs : jobs_dir w1 = jobs_dir w).
  { revert Hscore. unfold score_job, bind, lift, ret.
    destruct (Py.join ", " (Py.get resume_data "skills" (VList []))); [|discriminate].
    destruct (Py.join ", " (Py.get resume_data "areas_of_expertise" (VList [])));
      [|discriminate].
    destruct (Py.slice_to 1000 (Py.get job "description" (VStr ""))); [|discriminate].
    match goal with |- context [parse_structured P ?prompt w] =>
      destruct (parse_structured_total P prompt w) as (answer & k & -> & _) end.
    destruct (Py.has_key answer "error"); [by intros [= _ <-]|].
    destruct (clamp_score answer); [|discriminate].
    destruct (Py.len (Py.get resume_data "skills" (VList []))); [|discriminate].
    by intros [= _ <-]. }
  unfold bind at 1, lift at 1, item at 1. rewrite Hn.
  unfold bind at 1, lift at 1, item at 1.
  rewrite lookup_insert_ne by done. rewrite lookup_insert_ne by done.
  destruct (job !! "id") as [job_id|]; [|discriminate].
  unfold bind at 1, write_job at 1.
  destruct (fs_write P w1 _) as [[]|]; [|discriminate].
  rewrite print_run_eq. intros [= <-]. simpl.
  eexists _, _, n. split; [by rewrite Hjobs|].
  split; [|exact Hrange].
  rewrite lookup_insert_ne by done. apply lookup_insert_eq.
Qed.

(** C2, at the failing input.  The Gateway's answer
    [{"score": Infinity}] is accepted by [json.loads] and carries a score
    greater than 100; [int] raises [OverflowError] on it, which the
    [except (ValueError, TypeError)] of [score_job] does not catch: the
    function raises instead of clamping, [score_jobs] reports the error,
    and the record is left without any score. *)
Theorem infinite_score_is_not_clamped :
  let P := Samples.answering Samples.infinite_score [] [] in
  let stored := <["id" := VStr "d346801e8a67"]> Samples.engineer_at_acme in
  let after := snd (score_jobs P Samples.unscored_store) in
  json_loads P Samples.infinite_score
  = Ok (VDict (dict_of [("score", VFloat (S754_infinity false))]))
  /\ clamp_score (dict_of [("score", VFloat (S754_infinity false))])
     = Raise (Exn OverflowError "cannot convert float infinity to integer")
  /\ fst (score_job P Samples.python_resume stored Samples.unscored_store)
     = Raise (Exn OverflowError "cannot convert float infinity to integer")
  /\ fst (score_jobs P Samples.unscored_store) = Ok tt
  /\ jobs_dir after !! "d346801e8a67" = Some stored
  /\ stored !! "score" = None
  /\ console after
     = ["📊 Scoring jobs..."; "✅ Loaded resume data"; "Found 1 jobs to score";
        "❌ Error scoring job: cannot convert float infinity to integer";
        PyStr.nl +:+ "✨ Scored 0 jobs"].
Proof.
  cbv zeta. split; [reflexivity|]. split; [reflexivity|].
  split; [vm_compute; reflexivity|]. split; [vm_compute; reflexivity|].
  split; [vm_compute; reflexivity|]. split; vm_compute; reflexivity.
Qed.

(** ** Company research *)

(** The fetching of the pages never raises and never calls the model. *)
Lemma fetch_results_total P results :
  forall url_contents w, exists fetched w',
    fetch_results P results url_contents w = (Ok fetched, w')
    /\ llm_calls w' = llm_calls w /\ jobs_dir w' = jobs_dir w.
Proof.
  induction results as [|hit later IH]; intros url_contents w.
  - by eexists _, _.
  - cbn [fetch_results]. unfold bind at 1, attempt, _fetch_url_content.
    destruct (page_text P w (href hit)) as [text|e].
    + destruct (String.eqb text ""); apply IH.
    + unfold bind at 1. rewrite print_run_eq. unfold ret.
      rewrite String.eqb_refl.
      match goal with |- context [fetch_results P later url_contents ?w1] =>
        destruct (IH url_contents w1) as (fetched & w' & -> & Hllm & Hjobs) end.
      by eexists _, _.
Qed.

Lemma _search_company_total P company_name max_results w :
  exists hits w',
    _search_company P company_name max_results w = (Ok hits, w')
    /\ llm_calls w' = llm_calls w /\ jobs_dir w' = jobs_dir w.
Proof.
  unfold _search_company. destruct (ddgs_text P w _ max_results) as [hits|e].
  - by eexists _, _.
  - unfold bind. rewrite print_run_eq. by eexists _, _.
Qed.

Lemma no_information_lookup company_name :
  let profile := no_information company_name in
  profile !! "company" = Some (VStr company_name)
  /\ profile !! "summary" = Some (VStr "No information found")
  /\ profile !! "tech_stack" = Some (VList [])
  /\ profile !! "values" = Some (VList [])
  /\ profile !! "recent_news" = Some (VList [])
  /\ profile !! "culture" = Some (VStr "Unknown")
  /\ profile !! "size" = None
  /\ profile !! "industry" = None
  /\ profile !! "funding_stage" = None
  /\ profile !! "sources" = None.
Proof.
  cbv zeta. unfold no_information, dict_of. rewrite !list_to_map_cons.
  repeat split; by simplify_map_eq.
Qed.

(** When no page gave any text, [research_company] returns the profile
    [no_information] without calling the Gateway. *)
Lemma research_company_without_pages P company_name max_urls w :
  fst ((search_results <- _search_company P company_name max_urls ;;
        fetch_results P (firstn max_urls search_results) []) w) = Ok [] ->
  exists w',
    research_company_n P company_name max_urls w = (Ok (no_information company_name), w')
    /\ llm_calls w' = llm_calls w.
Proof.
  unfold research_company_n, bind.
  destruct (_search_company_total P company_name max_urls w)
    as (hits & w1 & -> & Hllm1 & _).
  destruct (fetch_results_total P (firstn max_urls hits) [] w1)
    as (fetched & w2 & -> & Hllm2 & _).
  simpl. intros [= ->]. exists w2. split; [reflexivity | congruence].
Qed.

(** C8, at the failing input.  On a platform where the search finds two
    pages and neither can be fetched, [research_company] returns without
    calling the Gateway; the profile it returns has empty lists and the
    culture "Unknown", but no entry at all for size, industry,
    funding_stage and sources, which the profile returned on an error of
    the Gateway does hold. *)
Theorem research_without_pages_omits_fields :
  let P := Samples.answering Samples.empty_object [] Samples.acme_hits in
  (exists w',
     research_company P "Acme" Samples.fresh = (Ok (no_information "Acme"), w')
     /\ llm_calls w' = [])
  /\ no_information "Acme" !! "tech_stack" = Some (VList [])
  /\ no_information "Acme" !! "culture" = Some (VStr "Unknown")
  /\ Forall (fun k => no_information "Acme" !! k = None)
       ["size"; "industry"; "funding_stage"; "sources"]
  /\ Forall (fun k => is_Some (research_failed P "Acme" [] (parse_failure "no JSON" "") !! k))
       ["size"; "industry"; "funding_stage"; "sources"].
Proof.
  cbv zeta. split.
  { destruct (research_company_without_pages
                (Samples.answering Samples.empty_object [] Samples.acme_hits)
                "Acme" 5 Samples.fresh) as (w' & Hrun & Hllm); [vm_compute; reflexivity|].
    exists w'. split; [exact Hrun | exact Hllm]. }
  split; [vm_compute; reflexivity|]. split; [vm_compute; reflexivity|].
  split.
  - repeat (apply List.Forall_cons; [vm_compute; reflexivity|]). apply List.Forall_nil.
  - repeat (apply List.Forall_cons; [vm_compute; by eexists|]). apply List.Forall_nil.
Qed.

(** ** Defaults for the fields the stages rely on *)

Lemma resume_defaults_keys resume_text (resume_data : Dict) :
  has_all (resume_defaults resume_text resume_data)
    ["skills"; "experience_years"; "experience_level"; "raw_text"].
Proof.
  unfold has_all, resume_defaults. repeat apply List.Forall_cons; try apply List.Forall_nil.
  - rewrite lookup_insert_ne by done. rewrite !setdefault_other by done.
    rewrite setdefault_same. by eexists.
  - rewrite lookup_insert_ne by done. rewrite setdefault_other by done.
    rewrite setdefault_same. by eexists.
  - rewrite lookup_insert_ne by done. rewrite setdefault_same. by eexists.
  - rewrite lookup_insert_eq. by eexists.
Qed.

Lemma research_defaults_keys company_name url_contents (research_result : Dict) :
  has_all (research_defaults company_name url_contents research_result)
    ["company"; "tech_stack"; "values"; "recent_news"; "sources"].
Proof.
  unfold has_all, research_defaults. repeat apply List.Forall_cons; try apply List.Forall_nil.
  - rewrite lookup_insert_ne by done. rewrite !setdefault_other by done.
    rewrite setdefault_same. by eexists.
  - rewrite lookup_insert_ne by done. rewrite !setdefault_other by done.
    rewrite setdefault_same. by eexists.
  - rewrite lookup_insert_ne by done. rewrite setdefault_other by done.
    rewrite setdefault_same. by eexists.
  - rewrite lookup_insert_ne by done. rewrite setdefault_same. by eexists.
  - rewrite lookup_insert_eq. by eexists.
Qed.

Lemma research_failed_keys P company_name url_contents (research_result : Dict) :
  has_all (research_failed P company_name url_contents research_result)
    ["company"; "tech_stack"; "values"; "recent_news"; "sources"].
Proof.
  unfold has_all, research_failed, dict_of. rewrite !list_to_map_cons.
  repeat apply List.Forall_cons; try apply List.Forall_nil; simplify_map_eq; by eexists.
Qed.

Lemma has_all_sublist (d : Dict) keys more :
  has_all d (keys ++ more) -> has_all d keys.
Proof. unfold has_all. rewrite Forall_app. tauto. Qed.

(** [research_company] never raises, and the profile it returns always
    holds a company, a tech_stack, values and recent_news. *)
Lemma research_company_total P company_name max_urls w :
  exists research w',
    research_company_n P company_name max_urls w = (Ok research, w')
    /\ has_all research ["company"; "tech_stack"; "values"; "recent_news"].
Proof.
  unfold research_company_n, bind at 1.
  destruct (_search_company_total P company_name max_urls w) as (hits & w1 & -> & _).
  unfold bind at 1.
  destruct (fetch_results_total P (firstn max_urls hits) [] w1) as (fetched & w2 & -> & _).
  destruct fetched as [|first others].
  - eexists _, _. split; [reflexivity|].
    destruct (no_information_lookup company_name) as (Hc & _ & Ht & Hv & Hn & _).
    unfold has_all. repeat apply List.Forall_cons; try apply List.Forall_nil; by eexists.
  - unfold bind.
    match goal with |- context [parse_structured P ?prompt w2] =>
      destruct (parse_structured_total P prompt w2) as (answer & k & -> & _) end.
    destruct (Py.has_key answer "error"); eexists _, _; (split; [reflexivity|]).
    + apply (has_all_sublist _ _ ["sources"]), research_failed_keys.
    + apply (has_all_sublist _ _ ["sources"]), research_defaults_keys.
Qed.

Lemma fetch_and_parse_resume_keys P w profile w' :
  fetch_and_parse_resume P w = (Ok profile, w') ->
  has_all profile ["skills"; "experience_years"; "experience_level"; "raw_text"].
Proof.
  unfold fetch_and_parse_resume.
  destruct (String.eqb (GOOGLE_DRIVE_RESUME_ID P) ""); [discriminate|].
  unfold bind at 1. destruct (get_resume_text P _ w) as [[resume_text|] w1]; [|discriminate].
  destruct (String.eqb resume_text ""); [discriminate|].
  unfold bind at 1. destruct (parse_structured P _ w1) as [[answer|] w2]; [|discriminate].
  destruct (Py.has_key answer "error"); [discriminate|].
  unfold bind, ret. destruct (save_resume_data P _ w2) as [[[]|] w3]; [|discriminate].
  intros [= <- _]. apply resume_defaults_keys.
Qed.

(** Against C5 as it is stated.  On a platform whose model answers [{}],
    which every stage accepts, the posting has no salary and no employment_type, the resume profile has
    none of education, notable_projects, areas_of_expertise, current_role
    and previous_roles, and the company profile has none of summary,
    culture, size, industry and funding_stage, although the prompts ask
    for all of them. *)
Lemma requested_fields_can_be_missing :
  let posting :=
    clean_up "Senior Backend Engineer - Acme Corp"
      "Apply at https://acme.com/careers/123 today" "jobs@linkedin.com" ∅ in
  let profile := resume_defaults "Python developer, five years" ∅ in
  let research :=
    research_defaults "Acme"
      [mkUrlContent "https://acme.com/about" "About Acme" "Acme builds rockets.";
       mkUrlContent "https://news.example.com/acme" "" "Acme builds rockets."] ∅ in
  fst (parse_email (Samples.answering Samples.empty_object [] [])
         "Senior Backend Engineer - Acme Corp"
         "Apply at https://acme.com/careers/123 today" "jobs@linkedin.com" Samples.fresh)
  = Ok posting
  /\ Forall (fun k => In k email_fields /\ posting !! k = None)
       ["salary"; "employment_type"]
  /\ fst (parse_resume (Samples.answering Samples.empty_object [] []) true Samples.fresh)
     = Ok profile
  /\ Forall (fun k => In k resume_fields /\ profile !! k = None)
       ["education"; "notable_projects"; "areas_of_expertise"; "current_role";
        "previous_roles"]
  /\ fst (research_company
            (Samples.browsing Samples.empty_object "Acme builds rockets." Samples.acme_hits)
            "Acme" Samples.fresh)
     = Ok research
  /\ Forall (fun k => In k company_fields /\ research !! k = None)
       ["summary"; "culture"; "size"; "industry"; "funding_stage"].
Proof.
  cbv zeta.
  split; [vm_compute; reflexivity|]. split.
  { repeat (apply List.Forall_cons; [split; [simpl; tauto | vm_compute; reflexivity]|]).
    apply List.Forall_nil. }
  split; [vm_compute; reflexivity|]. split.
  { repeat (apply List.Forall_cons; [split; [simpl; tauto | vm_compute; reflexivity]|]).
    apply List.Forall_nil. }
  split; [vm_compute; reflexivity|].
  repeat (apply List.Forall_cons; [split; [simpl; tauto | vm_compute; reflexivity]|]).
  apply List.Forall_nil.
Qed.

(** C5 (as amended).  Each parsing stage gives a default to the fields that
    the stages downstream rely on, when the Gateway's answer lacks them:
    a parsed posting always has title, company, location, url, source and
    description; a resume profile parsed from the document always has
    skills, experience_years, experience_level and raw_text; a company
    profile always has company, tech_stack, values and recent_news. *)
Theorem required_fields_are_backfilled P :
  (forall subject body sender w,
     exists parsed w',
       parse_email P subject body sender w = (Ok parsed, w')
       /\ has_all parsed ["title"; "company"; "location"; "url"; "source"; "description"])
  /\ (forall w profile w',
        parse_resume P true w = (Ok profile, w') ->
        has_all profile ["skills"; "experience_years"; "experience_level"; "raw_text"])
  /\ (forall company_name w,
        exists research w',
          research_company P company_name w = (Ok research, w')
          /\ has_all research ["company"; "tech_stack"; "values"; "recent_news"]).
Proof.
  split; [|split].
  - intros subject body sender w.
    destruct (parse_email_total P subject body sender w) as (answer & k & Hrun & _).
    eexists _, _. split; [exact Hrun | apply clean_up_keys].
  - intros w profile w'. apply fetch_and_parse_resume_keys.
  - intros company_name w. apply research_company_total.
Qed.

(** C5 on a resume parsed from the answer [{}]. *)
Lemma required_fields_are_backfilled_witness :
  let P := Samples.answering Samples.empty_object [] [] in
  let profile := resume_defaults "Python developer, five years" ∅ in
  parse_resume P true Samples.fresh = (Ok profile, snd (parse_resume P true Samples.fresh))
  /\ has_all profile ["skills"; "experience_years"; "experience_level"; "raw_text"].
Proof.
  cbv zeta.
  assert (Hrun : parse_resume (Samples.answering Samples.empty_object [] []) true
                   Samples.fresh
                 = (Ok (resume_defaults "Python developer, five years" ∅),
                    snd (parse_resume (Samples.answering Samples.empty_object [] []) true
                           Samples.fresh)))
    by (vm_compute; reflexivity).
  split; [exact Hrun|].
  destruct (required_fields_are_backfilled (Samples.answering Samples.empty_object [] []))
    as (_ & Hresume & _).
  exact (Hresume _ _ _ Hrun).
Defined.

(** ** The record of a failed parse *)

(** A run is determined by its result and the world it leaves. *)
Lemma run_eq {A} (c : M A) (w : World) (r : result A) :
  fst (c w) = r -> c w = (r, snd (c w)).
Proof. destruct (c w). simpl. by intros ->. Qed.

(** X1 (ollama_client.py, parse_structured).  When none of the three
    attempts yields a dictionary, [parse_structured] does not raise: after
    exactly three calls of the model it returns the failure record.  Its
    [error] is the message of the exception of the third attempt, or
    "Failed to parse after retries" when the third answer decoded to
    something that is no dictionary; its [raw_response] is the first 500
    characters of the last answer the model gave, which is an answer of an
    earlier attempt when the model raised in the later ones, and the empty
    text when it never answered. *)
Theorem parse_structured_failure_record P prompt w :
  let w1 := add_calls w [prompt] in
  let w2 := add_calls w [prompt; prompt] in
  fruitless (attempt_outcome P prompt w) ->
  fruitless (attempt_outcome P prompt w1) ->
  fruitless (attempt_outcome P prompt w2) ->
  parse_structured P prompt w
  = (Ok (parse_failure
           (failure_message (attempt_outcome P prompt w2))
           (response_after P prompt w2
              (response_after P prompt w1 (response_after P prompt w "")))),
     add_calls w [prompt; prompt; prompt]).
Proof.
  cbv zeta. unfold fruitless, attempt_outcome, response_after, failure_message.
  intros H0 H1 H2.
  unfold parse_structured, parse_structured_n. cbn [seq].
  rewrite parse_structured_from_cons. cbv zeta.
  change (0 =? 3 - 1)%nat with false. cbv iota.
  destruct (llm_invoke P w prompt) as [a0|e0].
  - destruct (decode_response P a0) as [[d|]|e0]; [by destruct (H0 d) | |];
      rewrite parse_structured_from_cons; cbv zeta;
      change (1 =? 3 - 1)%nat with false; cbv iota;
      rewrite !add_calls_app; simpl app.
    all: destruct (llm_invoke P (add_calls w [prompt]) prompt) as [a1|e1].
    all: try (destruct (decode_response P a1) as [[d|]|e1]; [by destruct (H1 d) | |]).
    all: rewrite parse_structured_from_cons; cbv zeta;
      change (2 =? 3 - 1)%nat with true; cbv iota;
      rewrite !add_calls_app; simpl app.
    all: destruct (llm_invoke P (add_calls w [prompt; prompt]) prompt) as [a2|e2].
    all: try (destruct (decode_response P a2) as [[d|]|e2]; [by destruct (H2 d) | |]).
    all: reflexivity.
  - rewrite parse_structured_from_cons; cbv zeta;
      change (1 =? 3 - 1)%nat with false; cbv iota;
      rewrite !add_calls_app; simpl app.
    destruct (llm_invoke P (add_calls w [prompt]) prompt) as [a1|e1].
    all: try (destruct (decode_response P a1) as [[d|]|e1]; [by destruct (H1 d) | |]).
    all: rewrite parse_structured_from_cons; cbv zeta;
      change (2 =? 3 - 1)%nat with true; cbv iota;
      rewrite !add_calls_app; simpl app.
    all: destruct (llm_invoke P (add_calls w [prompt; prompt]) prompt) as [a2|e2].
    all: try (destruct (decode_response P a2) as [[d|]|e2]; [by destruct (H2 d) | |]).
    all: reflexivity.
Qed.

Lemma parse_structured_failure_record_witness :
  parse_structured (Cases.going_down "Sorry, no JSON today.") "Extract the job" Samples.fresh
  = (Ok (parse_failure "connection reset" "Sorry, no JSON today."),
     add_calls Samples.fresh ["Extract the job"; "Extract the job"; "Extract the job"]).
Proof.
  refine (parse_structured_failure_record
            (Cases.going_down "Sorry, no JSON today.") "Extract the job" Samples.fresh _ _ _);
    intros d; vm_compute; discriminate.
Defined.

(** ** The mailbox as a whole *)

Lemma filed_record_is_found (jobs : gmap string Dict) name job w :
  jobs_dir w = jobs ->
  filed_by_id jobs -> jobs !! name = Some job ->
  existsb (has_id name) (records w) = true.
Proof.
  intros <- Hfiled Hlookup. apply existsb_exists. exists job. split.
  - unfold records. apply in_map_iff. exists (name, job). split; [reflexivity|].
    by apply list_elem_of_In, elem_of_map_to_list.
  - unfold has_id, Py.get. rewrite (Hfiled name job Hlookup). apply String.eqb_refl.
Qed.

Lemma turn_only_adds P email c w c' w' :
  filed_by_id (jobs_dir w) ->
  turn P email (c, w) (c', w') ->
  jobs_dir w ⊆ jobs_dir w'
  /\ (size (jobs_dir w') + c = size (jobs_dir w) + c')%nat
  /\ filed_by_id (jobs_dir w')
  /\ exists marks,
       read_marks w' = (read_marks w ++ marks)%list
       /\ sublist marks [email_id email]
       /\ (c' - c <= length marks)%nat.
Proof.
  intros Hfiled [job_data _ Hnew Hc Hjobs Hmarks|job_data _ _ Hc Hjobs Hmarks
                |e _ Hc Hjobs Hmarks _]; simpl in *.
  - set (job_id := _generate_job_id P job_data) in *.
    assert (Hfresh : jobs_dir w !! job_id = None).
    { destruct (jobs_dir w !! job_id) as [job|] eqn:Hlookup; [|reflexivity].
      rewrite (filed_record_is_found _ _ _ w eq_refl Hfiled Hlookup) in Hnew.
      discriminate Hnew. }
    rewrite Hjobs, Hc. split; [by apply insert_subseteq|].
    split; [rewrite map_size_insert_None by done; lia|].
    split.
    { intros name job Hlookup.
      destruct (decide (job_id = name)) as [<-|Hne].
      - rewrite lookup_insert_eq in Hlookup. injection Hlookup as <-.
        apply lookup_insert_eq.
      - rewrite lookup_insert_ne in Hlookup by done. by apply Hfiled. }
    exists [email_id email]. split; [exact Hmarks|]. split; [reflexivity | simpl; lia].
  - rewrite Hjobs, Hc. split; [reflexivity|]. split; [lia|]. split; [exact Hfiled|].
    exists [email_id email]. split; [exact Hmarks|]. split; [reflexivity | simpl; lia].
  - rewrite Hjobs, Hc. split; [reflexivity|]. split; [lia|]. split; [exact Hfiled|].
    exists []. split; [by rewrite app_nil_r|]. split; [apply sublist_nil_l | simpl; lia].
Qed.

Lemma check_email_loop_only_adds P emails :
  forall c w c' w',
    filed_by_id (jobs_dir w) ->
    check_email_loop P emails c w = (Ok c', w') ->
    jobs_dir w ⊆ jobs_dir w'
    /\ (size (jobs_dir w') + c = size (jobs_dir w) + c')%nat
    /\ filed_by_id (jobs_dir w')
    /\ exists marks,
         read_marks w' = (read_marks w ++ marks)%list
         /\ sublist marks (map email_id emails)
         /\ (c' - c <= length marks)%nat.
Proof.
  induction emails as [|email later IH]; intros c w c' w' Hfiled Hrun.
  - injection Hrun as <- <-. split; [reflexivity|]. split; [lia|]. split; [exact Hfiled|].
    exists []. split; [by rewrite app_nil_r|]. split; [reflexivity | simpl; lia].
  - destruct (check_email_turn P email c w) as (c1 & w1 & Hturn & Hkind).
    cbn [check_email_loop] in Hrun. unfold bind in Hrun. rewrite Hturn in Hrun.
    destruct (turn_only_adds _ _ _ _ _ _ Hfiled Hkind)
      as (Hsub1 & Hsize1 & Hfiled1 & marks1 & Hmarks1 & Hsl1 & Hlen1).
    destruct (IH _ _ _ _ Hfiled1 Hrun)
      as (Hsub2 & Hsize2 & Hfiled2 & marks2 & Hmarks2 & Hsl2 & Hlen2).
    split; [by etrans|]. split; [lia|]. split; [exact Hfiled2|].
    exists (marks1 ++ marks2)%list.
    split; [by rewrite Hmarks2, Hmarks1, app_assoc|].
    split; [|rewrite length_app; lia].
    change (map email_id (email :: later)) with ([email_id email] ++ map email_id later)%list.
    by apply sublist_app.
Qed.

(** X2 (main.py, check_emails).  On a directory in which every record is
    filed under its own identifier, a run of [check_emails] that returns
    the count [n] only adds records: every record of before is still there
    unchanged, the directory has grown by exactly [n] records, every record
    is still filed under its identifier, and the messages marked as read
    are messages of the listing, in its order, at least [n] and at most as
    many as were listed. *)
Theorem check_emails_only_adds P w n w' :
  filed_by_id (jobs_dir w) ->
  check_emails P w = (Ok n, w') ->
  jobs_dir w ⊆ jobs_dir w'
  /\ size (jobs_dir w') = (size (jobs_dir w) + n)%nat
  /\ filed_by_id (jobs_dir w')
  /\ exists emails marks,
       fst (get_unread_job_emails P 50
              (snd (print "🔍 Checking Gmail for job alerts..." w))) = Ok emails
       /\ read_marks w' = (read_marks w ++ marks)%list
       /\ sublist marks (map email_id emails)
       /\ (n <= length marks <= length emails)%nat.
Proof.
  intros Hfiled. unfold check_emails. unfold bind at 1. rewrite print_run_eq.
  unfold bind at 1.
  set (w0 := mkWorld _ _ _ _ _).
  assert (Hlist : exists emails w1,
             get_unread_job_emails P 50 w0 = (Ok emails, w1)
             /\ jobs_dir w1 = jobs_dir w /\ read_marks w1 = read_marks w
             \/ exists e, get_unread_job_emails P 50 w0 = (Raise e, w0)).
  { unfold get_unread_job_emails. destruct (gmail_unread P w0 50) as [emails|e].
    - exists emails, w0. left. by repeat split.
    - destruct (isinstance e HttpError).
      + eexists [], _. left. unfold bind. rewrite print_run_eq. by repeat split.
      + exists [], w0. right. by exists e. }
  destruct Hlist as (emails & w1 & [(Hlist & Hjobs1 & Hmarks1)|[e Hlist]]);
    rewrite Hlist; [|discriminate].
  unfold bind at 1. rewrite print_run_eq. unfold bind at 1.
  set (w2 := mkWorld _ _ _ _ _).
  destruct (check_email_loop P emails 0 w2) as [[c|e] w3] eqn:Hloop; [|discriminate].
  unfold bind at 1. rewrite print_run_eq. unfold ret. intros [= <- <-].
  destruct (check_email_loop_only_adds P emails 0%nat w2 c w3) as
    (Hsub & Hsize & Hfiled3 & marks & Hmarks & Hsl & Hlen);
    [unfold w2; simpl; by rewrite Hjobs1 | exact Hloop |].
  unfold w2 in Hsub, Hsize, Hmarks. simpl in Hsub, Hsize, Hmarks.
  rewrite Hjobs1 in Hsub, Hsize. rewrite Hmarks1 in Hmarks. simpl.
  split; [exact Hsub|]. split; [lia|]. split; [exact Hfiled3|].
  exists emails, marks. split; [by rewrite Hlist|]. split; [exact Hmarks|].
  split; [exact Hsl|]. split; [lia|].
  apply sublist_length in Hsl. by rewrite length_map in Hsl.
Qed.

Lemma check_emails_only_adds_witness :
  let P := Samples.answering Samples.acme_posting
             [Samples.acme_email; Samples.acme_email] [] in
  let after := snd (check_emails P Samples.fresh) in
  jobs_dir Samples.fresh ⊆ jobs_dir after
  /\ size (jobs_dir after) = (size (jobs_dir Samples.fresh) + 1)%nat
  /\ filed_by_id (jobs_dir after).
Proof.
  cbv zeta.
  destruct (check_emails_only_adds
              (Samples.answering Samples.acme_posting
                 [Samples.acme_email; Samples.acme_email] [])
              Samples.fresh 1%nat
              (snd (check_emails
                      (Samples.answering Samples.acme_posting
                         [Samples.acme_email; Samples.acme_email] [])
                      Samples.fresh)))
    as (Hsub & Hsize & Hfiled & _).
  - intros name job Hlookup. vm_compute in Hlookup. discriminate Hlookup.
  - apply run_eq. vm_compute. exact eq_refl.
  - split; [exact Hsub|]. split; [exact Hsize | exact Hfiled].
Defined.

(** X3 (main.py, check_emails; gmail_client.py, get_unread_job_emails).
    When the listing of the unread messages raises: if the exception is an
    [HttpError], [check_emails] reports it, goes on with no message and
    returns 0, having printed exactly four lines and changed nothing else;
    any other exception leaves [check_emails], with the directory, the
    calls of the model and the marks as they were. *)
Theorem check_emails_without_mailbox P w e :
  gmail_unread P (snd (print "🔍 Checking Gmail for job alerts..." w)) 50 = Raise e ->
  if isinstance e HttpError
  then exists w',
         check_emails P w = (Ok 0%nat, w')
         /\ jobs_dir w' = jobs_dir w
         /\ llm_calls w' = llm_calls w
         /\ read_marks w' = read_marks w
         /\ console w'
            = (console w
               ++ ["🔍 Checking Gmail for job alerts...";
                   "Error fetching emails: " +:+ exn_msg e;
                   "Found 0 unread job emails";
                   PyStr.nl +:+ "✨ Parsed 0 new jobs"])%list
  else exists w', check_emails P w = (Raise e, w') /\ jobs_dir w' = jobs_dir w
                  /\ llm_calls w' = llm_calls w /\ read_marks w' = read_marks w.
Proof.
  intros Hlist. simpl in Hlist.
  destruct (isinstance e HttpError) eqn:Hclass;
    unfold check_emails; unfold bind at 1; rewrite print_run_eq;
    unfold bind at 1, get_unread_job_emails at 1; rewrite Hlist, Hclass.
  - eexists. split; [reflexivity|]. simpl. rewrite <- !app_assoc. by repeat split.
  - eexists. split; [reflexivity|]. by repeat split.
Qed.

Lemma check_emails_without_mailbox_witness :
  exists w',
    check_emails Cases.mailbox_down Samples.fresh = (Ok 0%nat, w')
    /\ jobs_dir w' = ∅ /\ llm_calls w' = [] /\ read_marks w' = []
    /\ console w'
       = ["🔍 Checking Gmail for job alerts...";
          "Error fetching emails: <HttpError 503 Service Unavailable>";
          "Found 0 unread job emails";
          PyStr.nl +:+ "✨ Parsed 0 new jobs"].
Proof.
  exact (check_emails_without_mailbox Cases.mailbox_down Samples.fresh
           (Exn HttpError "<HttpError 503 Service Unavailable>") eq_refl).
Defined.

(** ** Scoring of the stored records *)

Lemma only_calls_refl n w : only_calls n w w.
Proof. exists []. split; [by rewrite add_calls_nil | simpl; lia]. Qed.

Lemma only_calls_keeps n w w' :
  only_calls n w w' ->
  jobs_dir w' = jobs_dir w /\ resume_cache w' = resume_cache w
  /\ read_marks w' = read_marks w /\ console w' = console w.
Proof. intros (prompts & -> & _). by repeat split. Qed.

Lemma parse_structured_only_calls P prompt w :
  exists d w', parse_structured P prompt w = (Ok d, w') /\ only_calls 3 w w'.
Proof.
  destruct (parse_structured_total P prompt w) as (d & k & Hrun & Hk).
  exists d, (add_calls w (repeat prompt k)). split; [exact Hrun|].
  exists (repeat prompt k). split; [reflexivity|]. rewrite repeat_length. lia.
Qed.

(** [score_job] calls the model at most three times and does nothing
    else. *)
Lemma score_job_only_calls P resume_data job w :
  only_calls 3 w (snd (score_job P resume_data job w)).
Proof.
  unfold score_job, bind, lift, ret.
  destruct (Py.join ", " (Py.get resume_data "skills" (VList [])));
    [|apply only_calls_refl].
  destruct (Py.join ", " (Py.get resume_data "areas_of_expertise" (VList [])));
    [|apply only_calls_refl].
  destruct (Py.slice_to 1000 (Py.get job "description" (VStr "")));
    [|apply only_calls_refl].
  match goal with |- context [parse_structured P ?prompt w] =>
    destruct (parse_structured_only_calls P prompt w) as (answer & w1 & -> & Hcalls) end.
  destruct (Py.has_key answer "error"); [exact Hcalls|].
  destruct (clamp_score answer); [|exact Hcalls].
  destruct (Py.len (Py.get resume_data "skills" (VList []))); exact Hcalls.
Qed.

(** The [try] block of the loop of [score_jobs]: it ends with the record
    rewritten under the name that its [id] gives, or it is left by an
    exception and the directory is as before. *)
Lemma score_and_save_effect P resume_data job w r w' :
  score_and_save P resume_data job w = (r, w') ->
  (exists e, r = Raise e /\ jobs_dir w' = jobs_dir w)
  \/ (exists job_id after,
        r = Ok tt
        /\ job !! "id" = Some job_id
        /\ rescored job after
        /\ jobs_dir w' = <[fmt P job_id := after]> (jobs_dir w)).
Proof.
  unfold score_and_save. unfold bind at 1.
  pose proof (score_job_only_calls P resume_data job w) as Hcalls.
  destruct (score_job P resume_data job w) as [[scoring_result|e] w1] eqn:Hscore;
    simpl in Hcalls; apply only_calls_keeps in Hcalls as (Hjobs & _);
    [|intros [= <- <-]; left; by exists e].
  destruct (score_job_range _ _ _ _ _ _ Hscore) as (n & Hn & Hrange).
  unfold bind at 1, lift at 1, item at 1. rewrite Hn.
  unfold bind at 1, lift at 1, item at 1.
  rewrite lookup_insert_ne by done. rewrite lookup_insert_ne by done.
  destruct (job !! "id") as [job_id|] eqn:Hid; [|intros [= <- <-]; left; by eexists].
  unfold bind at 1, write_job at 1.
  destruct (fs_write P w1 _) as [[]|e]; [|intros [= <- <-]; left; by exists e].
  rewrite print_run_eq. intros [= <- <-]. right.
  exists job_id, (<["scoring" := VDict scoring_result]> (<["score" := VInt n]> job)).
  split; [reflexivity|]. split; [reflexivity|].
  split; [by exists scoring_result, n|]. simpl. by rewrite Hjobs.
Qed.

Lemma score_loop_effect P resume_data jobs :
  forall scored_count w,
    Forall (fun job : Dict => exists name, job !! "id" = Some (VStr name)) jobs ->
    exists scored_count' w',
      score_loop P resume_data jobs scored_count w = (Ok scored_count', w')
      /\ forall name,
           jobs_dir w' !! name = jobs_dir w !! name
           \/ exists job after,
                In job jobs /\ job !! "id" = Some (VStr name)
                /\ rescored job after /\ jobs_dir w' !! name = Some after.
Proof.
  induction jobs as [|job later IH]; intros scored_count w Hids.
  - eexists _, _. split; [reflexivity|]. intros name. by left.
  - apply Forall_cons in Hids as [[job_name Hid] Hids].
    cbn [score_loop]. unfold bind at 1, attempt.
    destruct (score_and_save P resume_data job w) as [r w1] eqn:Hrun.
    destruct (score_and_save_effect _ _ _ _ _ _ Hrun)
      as [(e & -> & Hjobs)|(job_id & after & -> & Hid' & Hafter & Hjobs)].
    + unfold bind at 1. rewrite print_run_eq.
      match goal with |- context [score_loop P resume_data later scored_count ?w2] =>
        destruct (IH scored_count w2 Hids) as (c' & w' & -> & Hnames) end.
      exists c', w'. split; [reflexivity|]. intros name.
      destruct (Hnames name) as [Hsame|(job' & after' & Hin & Hrest)].
      * left. simpl in Hsame. by rewrite Hsame, Hjobs.
      * right. exists job', after'. split; [by right | exact Hrest].
    + rewrite Hid in Hid'. injection Hid' as <-. simpl in Hjobs.
      destruct (IH (S scored_count) w1 Hids) as (c' & w' & -> & Hnames).
      exists c', w'. split; [reflexivity|]. intros name.
      destruct (Hnames name) as [Hsame|(job' & after' & Hin & Hrest)].
      * rewrite Hsame, Hjobs. destruct (decide (job_name = name)) as [<-|Hne].
        -- right. exists job, after. rewrite lookup_insert_eq. by repeat split; try left.
        -- left. by rewrite lookup_insert_ne.
      * right. exists job', after'. split; [by right | exact Hrest].
Qed.

Lemma parse_resume_keeps_jobs P force_refresh w :
  jobs_dir (snd (parse_resume P force_refresh w)) = jobs_dir w.
Proof.
  assert (Hfetch : jobs_dir (snd (fetch_and_parse_resume P w)) = jobs_dir w).
  { unfold fetch_and_parse_resume.
    destruct (String.eqb (GOOGLE_DRIVE_RESUME_ID P) ""); [reflexivity|].
    unfold bind at 1, get_resume_text.
    assert (Htext : exists r w1, (match docs_text P w (GOOGLE_DRIVE_RESUME_ID P) with
                                  | Ok text => (Ok text, w)
                                  | Raise error =>
                                      if isinstance error HttpError
                                      then (print ("Error fetching resume: " +:+ exn_msg error);;;
                                            ret "") w
                                      else (Raise error, w)
                                  end) = (r, w1) /\ jobs_dir w1 = jobs_dir w).
    { destruct (docs_text P w _) as [text|error]; [by eexists _, _|].
      destruct (isinstance error HttpError); by eexists _, _. }
    destruct Htext as (r & w1 & -> & Hjobs1). destruct r as [resume_text|e]; [|exact Hjobs1].
    destruct (String.eqb resume_text ""); [exact Hjobs1|].
    unfold bind at 1.
    match goal with |- context [parse_structured P ?prompt w1] =>
      destruct (parse_structured_only_calls P prompt w1) as (answer & w2 & -> & Hcalls) end.
    apply only_calls_keeps in Hcalls as (Hjobs2 & _).
    destruct (Py.has_key answer "error"); [simpl; congruence|].
    unfold bind, save_resume_data, ret.
    destruct (fs_write P w2 "resume_cache.json") as [[]|e]; simpl; congruence. }
  unfold parse_resume. destruct force_refresh; [exact Hfetch|].
  unfold bind, load_resume_data. destruct (resume_cache w) as [cached|]; [|exact Hfetch].
  destruct (Py.truthy (VDict cached)); [reflexivity | exact Hfetch].
Qed.

Lemma rescored_keeps_id before after :
  rescored before after -> after !! "id" = before !! "id".
Proof.
  intros (scoring & n & _ & _ & ->). rewrite lookup_insert_ne by done.
  by rewrite lookup_insert_ne.
Qed.

(** X4 (main.py, score_jobs).  On a directory filed by identifier,
    [score_jobs] never raises, and every record is afterwards either as it
    was, or it was unscored (no score, or the score 0) and has received a
    [scoring] and a [score] that is an integer between 0 and 100; no record
    is added or removed and every record is still filed under its
    identifier. *)
Theorem score_jobs_touches_only_unscored P w :
  filed_by_id (jobs_dir w) ->
  exists w',
    score_jobs P w = (Ok tt, w')
    /\ filed_by_id (jobs_dir w')
    /\ forall name,
         match jobs_dir w !! name with
         | Some job =>
             jobs_dir w' !! name = Some job
             \/ (unscored job = true
                 /\ exists after, rescored job after /\ jobs_dir w' !! name = Some after)
         | None => jobs_dir w' !! name = None
         end.
Proof.
  intros Hfiled.
  assert (Hsame : forall w', jobs_dir w' = jobs_dir w ->
            filed_by_id (jobs_dir w')
            /\ forall name,
                 match jobs_dir w !! name with
                 | Some job =>
                     jobs_dir w' !! name = Some job
                     \/ (unscored job = true
                         /\ exists after, rescored job after /\ jobs_dir w' !! name = Some after)
                 | None => jobs_dir w' !! name = None
                 end).
  { intros w' ->. split; [exact Hfiled|]. intros name.
    destruct (jobs_dir w !! name); [by left | reflexivity]. }
  unfold score_jobs. unfold bind at 1. rewrite print_run_eq.
  unfold bind at 1, attempt.
  match goal with |- context [parse_resume P false ?w0] =>
    pose proof (parse_resume_keeps_jobs P false w0) as Hjobs1;
    destruct (parse_resume P false w0) as [[resume_data|e] w1] end; simpl in Hjobs1;
    [|rewrite print_run_eq; eexists; split; [reflexivity | by apply Hsame]].
  unfold bind at 1. rewrite print_run_eq. unfold bind at 1, get_all_jobs at 1.
  cbn [jobs_dir]. rewrite Hjobs1. fold (records w).
  set (unscored_jobs := List.filter unscored (records w)).
  assert (Hfound : forall job, In job unscored_jobs ->
            unscored job = true
            /\ exists name, jobs_dir w !! name = Some job /\ job !! "id" = Some (VStr name)).
  { intros job Hin. apply filter_In in Hin as [Hin Hun]. split; [exact Hun|].
    unfold records in Hin. apply in_map_iff in Hin as ([name job'] & <- & Hin).
    apply list_elem_of_In, elem_of_map_to_list in Hin.
    exists name. split; [exact Hin | by apply Hfiled]. }
  assert (Hids : Forall (fun job : Dict => exists name, job !! "id" = Some (VStr name))
                   unscored_jobs).
  { apply Forall_forall. intros job Hin. apply list_elem_of_In in Hin.
    destruct (Hfound job Hin) as (_ & name & _ & Hid). by exists name. }
  destruct unscored_jobs as [|first others] eqn:Hlist;
    [rewrite print_run_eq; eexists; split; [reflexivity | by apply Hsame]|].
  rewrite <- Hlist in *. clear Hlist.
  unfold bind at 1. rewrite print_run_eq. unfold bind at 1.
  match goal with |- context [score_loop P resume_data unscored_jobs 0 ?w2] =>
    destruct (score_loop_effect P resume_data unscored_jobs 0%nat w2 Hids)
      as (scored_count & w3 & -> & Hnames) end.
  rewrite print_run_eq. eexists. split; [reflexivity|]. simpl in Hnames |- *.
  assert (Heach : forall name,
            match jobs_dir w !! name with
            | Some job =>
                jobs_dir w3 !! name = Some job
                \/ (unscored job = true
                    /\ exists after, rescored job after /\ jobs_dir w3 !! name = Some after)
            | None => jobs_dir w3 !! name = None
            end).
  { intros name.
    destruct (Hnames name) as [->|(job & after & Hin & Hid & Hafter & Hlookup)].
    - destruct (jobs_dir w !! name); [by left | reflexivity].
    - destruct (Hfound job Hin) as (Hun & name' & Hstored & Hid').
      rewrite Hid in Hid'. injection Hid' as <-. rewrite Hstored.
      right. split; [exact Hun|]. by exists after. }
  split; [|exact Heach].
  intros name job Hlookup. specialize (Heach name).
  destruct (jobs_dir w !! name) as [before|] eqn:Hbefore; [|congruence].
  destruct Heach as [Hkept|(_ & after & Hafter & Hnow)].
  - rewrite Hkept in Hlookup. injection Hlookup as <-. by apply Hfiled.
  - rewrite Hnow in Hlookup. injection Hlookup as <-.
    rewrite (rescored_keeps_id _ _ Hafter). by apply Hfiled.
Qed.

Lemma unscored_store_is_filed : filed_by_id (jobs_dir Samples.unscored_store).
Proof.
  intros name job Hlookup. simpl in Hlookup.
  apply lookup_insert_Some in Hlookup as [[<- <-]|[_ Hlookup]].
  - apply lookup_insert_eq.
  - rewrite lookup_empty in Hlookup. discriminate Hlookup.
Qed.

Lemma score_jobs_touches_only_unscored_witness :
  filed_by_id (jobs_dir Samples.unscored_store)
  /\ exists w',
       score_jobs Cases.generous Samples.unscored_store = (Ok tt, w')
       /\ filed_by_id (jobs_dir w').
Proof.
  split; [exact unscored_store_is_filed|].
  destruct (score_jobs_touches_only_unscored Cases.generous Samples.unscored_store
              unscored_store_is_filed) as (w' & Hrun & Hfiled & _).
  exists w'. split; [exact Hrun | exact Hfiled].
Defined.

(** The score 150 of the model is stored as 100. *)
Example score_above_100_is_stored_as_100 :
  jobs_dir (snd (score_jobs Cases.generous Samples.unscored_store)) !! "d346801e8a67"
  = Some (<["scoring" := VDict Cases.scoring_of_150]>
            (<["score" := VInt 100]>
               (<["id" := VStr "d346801e8a67"]> Samples.engineer_at_acme))).
Proof. vm_compute. exact eq_refl. Qed.

(** ** The resume and its cache *)

Lemma truthy_dict (d : Dict) k v : d !! k = Some v -> Py.truthy (VDict d) = true.
Proof.
  intros Hk. simpl. destruct (map_to_list d) as [|kv l] eqn:Hlist; [|reflexivity].
  apply map_to_list_empty_iff in Hlist. rewrite Hlist, lookup_empty in Hk.
  discriminate Hk.
Qed.

Lemma get_resume_text_run P document_id w :
  (exists text w1, get_resume_text P document_id w = (Ok text, w1)
                   /\ jobs_dir w1 = jobs_dir w /\ resume_cache w1 = resume_cache w
                   /\ llm_calls w1 = llm_calls w
                   /\ (text = "" \/ docs_text P w document_id = Ok text))
  \/ (exists e, get_resume_text P document_id w = (Raise e, w)
                /\ docs_text P w document_id = Raise e /\ isinstance e HttpError = false).
Proof.
  unfold get_resume_text. destruct (docs_text P w document_id) as [text|e].
  - left. exists text, w. repeat split. by right.
  - destruct (isinstance e HttpError) eqn:Hclass.
    + left. unfold bind. rewrite print_run_eq. eexists "", _. repeat split. by left.
    + right. by exists e.
Qed.

(** A profile that [parse_resume] returns is in the cache afterwards, and
    the next call returns it from there. *)
Lemma parse_resume_ok P force_refresh w profile w1 :
  parse_resume P force_refresh w = (Ok profile, w1) ->
  resume_cache w1 = Some profile
  /\ parse_resume P false w1 = (Ok profile, w1)
  /\ jobs_dir w1 = jobs_dir w.
Proof.
  intros Hrun.
  pose proof (parse_resume_keeps_jobs P force_refresh w) as Hjobs.
  rewrite Hrun in Hjobs. simpl in Hjobs.
  assert (Hhit : forall w2 cached,
            resume_cache w2 = Some cached -> Py.truthy (VDict cached) = true ->
            parse_resume P false w2 = (Ok cached, w2)).
  { intros w2 cached Hcache Htruthy. unfold parse_resume, bind, load_resume_data.
    by rewrite Hcache, Htruthy. }
  assert (Hfetch : fetch_and_parse_resume P w = (Ok profile, w1) ->
            resume_cache w1 = Some profile /\ parse_resume P false w1 = (Ok profile, w1)).
  { clear Hrun. unfold fetch_and_parse_resume.
    destruct (String.eqb (GOOGLE_DRIVE_RESUME_ID P) ""); [discriminate|].
    unfold bind at 1.
    destruct (get_resume_text P _ w) as [[resume_text|] w2]; [|discriminate].
    destruct (String.eqb resume_text ""); [discriminate|].
    unfold bind at 1. destruct (parse_structured P _ w2) as [[answer|] w3]; [|discriminate].
    destruct (Py.has_key answer "error"); [discriminate|].
    unfold bind, ret, save_resume_data.
    destruct (fs_write P w3 "resume_cache.json") as [[]|]; [|discriminate].
    intros [= <- <-]. split; [reflexivity|].
    apply Hhit; [reflexivity|].
    apply (truthy_dict _ "raw_text" (VStr resume_text)).
    unfold resume_defaults. apply lookup_insert_eq. }
  revert Hrun. unfold parse_resume.
  destruct force_refresh; [intros Hrun; by destruct (Hfetch Hrun)|].
  unfold bind, load_resume_data.
  destruct (resume_cache w) as [cached|] eqn:Hcache;
    [|intros Hrun; by destruct (Hfetch Hrun)].
  destruct (Py.truthy (VDict cached)) eqn:Htruthy;
    [|intros Hrun; by destruct (Hfetch Hrun)].
  intros [= <- <-]. split; [exact Hcache|]. split; [by apply Hhit | reflexivity].
Qed.

(** X5 (resume_parser.py, parse_resume).  A profile that [parse_resume]
    returns is the content of the cache afterwards, so that a second call
    without [force_refresh] returns the same profile and changes nothing;
    the directory of the records is not touched. *)
Theorem parse_resume_is_cached P force_refresh w profile w1 :
  parse_resume P force_refresh w = (Ok profile, w1) ->
  resume_cache w1 = Some profile
  /\ parse_resume P false w1 = (Ok profile, w1)
  /\ jobs_dir w1 = jobs_dir w.
Proof. apply parse_resume_ok. Qed.

Lemma parse_resume_is_cached_witness :
  let P := Samples.answering Samples.empty_object [] [] in
  let profile := resume_defaults "Python developer, five years" ∅ in
  let w1 := snd (parse_resume P true Samples.fresh) in
  parse_resume P true Samples.fresh = (Ok profile, w1)
  /\ resume_cache w1 = Some profile
  /\ parse_resume P false w1 = (Ok profile, w1).
Proof.
  cbv zeta.
  assert (Hrun : parse_resume (Samples.answering Samples.empty_object [] []) true
                   Samples.fresh
                 = (Ok (resume_defaults "Python developer, five years" ∅),
                    snd (parse_resume (Samples.answering Samples.empty_object [] []) true
                           Samples.fresh)))
    by (apply run_eq; vm_compute; exact eq_refl).
  split; [exact Hrun|].
  destruct (parse_resume_is_cached _ _ _ _ _ Hrun) as (Hcache & Hagain & _).
  split; [exact Hcache | exact Hagain].
Defined.

(** The ways in which [parse_resume] fails; none of them touches the
    cache. *)
Lemma parse_resume_raises P force_refresh w e w1 :
  parse_resume P force_refresh w = (Raise e, w1) ->
  resume_cache w1 = resume_cache w
  /\ jobs_dir w1 = jobs_dir w
  /\ ((e = Exn ValueError "GOOGLE_DRIVE_RESUME_ID not set in .env"
       /\ GOOGLE_DRIVE_RESUME_ID P = "" /\ w1 = w)
      \/ (docs_text P w (GOOGLE_DRIVE_RESUME_ID P) = Raise e
          /\ isinstance e HttpError = false /\ w1 = w)
      \/ (e = Exn ValueError "Failed to fetch resume from Google Docs"
          /\ llm_calls w1 = llm_calls w)
      \/ (exists message, e = Exn ValueError ("Failed to parse resume: " +:+ message))
      \/ (exists w0, fs_write P w0 "resume_cache.json" = Raise e)).
Proof.
  intros Hrun.
  pose proof (parse_resume_keeps_jobs P force_refresh w) as Hjobs.
  rewrite Hrun in Hjobs. simpl in Hjobs.
  assert (Hfetch : fetch_and_parse_resume P w = (Raise e, w1) ->
            resume_cache w1 = resume_cache w
            /\ ((e = Exn ValueError "GOOGLE_DRIVE_RESUME_ID not set in .env"
                 /\ GOOGLE_DRIVE_RESUME_ID P = "" /\ w1 = w)
                \/ (docs_text P w (GOOGLE_DRIVE_RESUME_ID P) = Raise e
                    /\ isinstance e HttpError = false /\ w1 = w)
                \/ (e = Exn ValueError "Failed to fetch resume from Google Docs"
                    /\ llm_calls w1 = llm_calls w)
                \/ (exists message, e = Exn ValueError ("Failed to parse resume: " +:+ message))
                \/ (exists w0, fs_write P w0 "resume_cache.json" = Raise e))).
  { clear Hrun Hjobs. unfold fetch_and_parse_resume.
    destruct (String.eqb_spec (GOOGLE_DRIVE_RESUME_ID P) "") as [Hid|Hid].
    { intros [= <- <-]. split; [reflexivity|]. left. by repeat split. }
    unfold bind at 1.
    destruct (get_resume_text_run P (GOOGLE_DRIVE_RESUME_ID P) w)
      as [(text & w2 & -> & _ & Hcache2 & Hllm2 & _)|(e' & -> & Hdocs & Hclass)].
    2:{ intros [= <- <-]. split; [reflexivity|]. right. left. by repeat split. }
    destruct (String.eqb text "").
    { intros [= <- <-]. split; [exact Hcache2|]. right. right. left. by split. }
    unfold bind at 1.
    match goal with |- context [parse_structured P ?prompt w2] =>
      destruct (parse_structured_only_calls P prompt w2) as (answer & w3 & -> & Hcalls) end.
    apply only_calls_keeps in Hcalls as (_ & Hcache3 & _).
    destruct (Py.has_key answer "error").
    { intros [= <- <-]. split; [congruence|]. right. right. right. left. by eexists. }
    unfold bind, ret, save_resume_data.
    destruct (fs_write P w3 "resume_cache.json") as [[]|e'] eqn:Hwrite; [discriminate|].
    intros [= <- <-]. split; [congruence|]. right. right. right. right. by exists w3. }
  revert Hrun. unfold parse_resume.
  destruct force_refresh; [intros Hrun; destruct (Hfetch Hrun); by repeat split|].
  unfold bind, load_resume_data.
  destruct (resume_cache w) as [cached|];
    [|intros Hrun; destruct (Hfetch Hrun); by repeat split].
  destruct (Py.truthy (VDict cached)); [discriminate|].
  intros Hrun; destruct (Hfetch Hrun); by repeat split.
Qed.

(** X6 (resume_parser.py, parse_resume; drive_client.py,
    get_resume_text).  When [parse_resume] raises, the cache and the
    directory are as they were, and the exception is one of five: the
    identifier of the document is not configured; the reading of the
    document raised something that is no [HttpError]; no text was fetched
    ("Failed to fetch resume from Google Docs", before any call of the
    model); the model's answer could not be parsed ("Failed to parse
    resume: ..."); the cache file could not be written. *)
Theorem parse_resume_failure P force_refresh w e w1 :
  parse_resume P force_refresh w = (Raise e, w1) ->
  resume_cache w1 = resume_cache w
  /\ jobs_dir w1 = jobs_dir w
  /\ ((e = Exn ValueError "GOOGLE_DRIVE_RESUME_ID not set in .env"
       /\ GOOGLE_DRIVE_RESUME_ID P = "" /\ w1 = w)
      \/ (docs_text P w (GOOGLE_DRIVE_RESUME_ID P) = Raise e
          /\ isinstance e HttpError = false /\ w1 = w)
      \/ (e = Exn ValueError "Failed to fetch resume from Google Docs"
          /\ llm_calls w1 = llm_calls w)
      \/ (exists message, e = Exn ValueError ("Failed to parse resume: " +:+ message))
      \/ (exists w0, fs_write P w0 "resume_cache.json" = Raise e)).
Proof. apply parse_resume_raises. Qed.

Lemma parse_resume_failure_witness :
  let P := Samples.answering "I cannot help with that." [] [] in
  let w1 := snd (parse_resume P true Samples.unscored_store) in
  parse_resume P true Samples.unscored_store
  = (Raise (Exn ValueError
              "Failed to parse resume: Expecting value: line 1 column 1 (char 0)"), w1)
  /\ resume_cache w1 = Some Samples.python_resume.
Proof.
  cbv zeta.
  assert (Hrun : parse_resume (Samples.answering "I cannot help with that." [] []) true
                   Samples.unscored_store
                 = (Raise (Exn ValueError
                             "Failed to parse resume: Expecting value: line 1 column 1 (char 0)"),
                    snd (parse_resume (Samples.answering "I cannot help with that." [] [])
                           true Samples.unscored_store)))
    by (apply run_eq; vm_compute; exact eq_refl).
  split; [exact Hrun|].
  destruct (parse_resume_failure _ _ _ _ _ Hrun) as (Hcache & _).
  exact Hcache.
Defined.

(** ** The outcome of a scoring *)

Lemma scoring_failed_lookup P (scoring_result : Dict) :
  let failed := scoring_failed P scoring_result in
  failed !! "score" = Some (VInt 0)
  /\ failed !! "reasoning"
     = Some (VStr ("Scoring failed: "
                   +:+ fmt P (Py.get scoring_result "error" (VStr "Unknown error"))))
  /\ failed !! "matched_skills" = Some (VList [])
  /\ failed !! "missing_skills" = Some (VList [])
  /\ failed !! "error" = Some (Py.get scoring_result "error" (VStr "Unknown"))
  /\ failed !! "resume_skills_count" = None
  /\ failed !! "job_title" = None
  /\ failed !! "job_company" = None.
Proof.
  cbv zeta. unfold scoring_failed, dict_of. rewrite !list_to_map_cons.
  repeat split; by simplify_map_eq.
Qed.

(** X7 (job_scorer.py, score_job).  What [score_job] returns always has
    the entries score, reasoning, matched_skills and missing_skills, its
    score is an integer between 0 and 100, and nothing happened but at most
    three calls of the model.  When it carries an [error], the score is 0,
    the reasoning starts with "Scoring failed: " and the entries
    resume_skills_count, job_title and job_company are absent; otherwise
    these three are present, with the number of skills of the resume and
    the title and the company of the posting. *)
Theorem score_job_fields P resume_data job w scoring w' :
  score_job P resume_data job w = (Ok scoring, w') ->
  has_all scoring ["score"; "reasoning"; "matched_skills"; "missing_skills"]
  /\ (exists n, scoring !! "score" = Some (VInt n) /\ 0 <= n <= 100)
  /\ only_calls 3 w w'
  /\ match scoring !! "error" with
     | Some _ =>
         scoring !! "score" = Some (VInt 0)
         /\ (exists error, scoring !! "reasoning" = Some (VStr ("Scoring failed: " +:+ error)))
         /\ Forall (fun k => scoring !! k = None)
              ["resume_skills_count"; "job_title"; "job_company"]
     | None =>
         (exists count, Py.len (Py.get resume_data "skills" (VList [])) = Ok count
                        /\ scoring !! "resume_skills_count" = Some (VInt (Z.of_nat count)))
         /\ scoring !! "job_title" = Some (Py.get job "title" (VStr ""))
         /\ scoring !! "job_company" = Some (Py.get job "company" (VStr ""))
     end.
Proof.
  intros Hrun.
  pose proof (score_job_only_calls P resume_data job w) as Hcalls.
  rewrite Hrun in Hcalls. simpl in Hcalls.
  pose proof (score_job_range _ _ _ _ _ _ Hrun) as Hrange.
  revert Hrun. unfold score_job, bind, lift, ret.
  destruct (Py.join ", " (Py.get resume_data "skills" (VList []))) as [skills|]; [|discriminate].
  destruct (Py.join ", " (Py.get resume_data "areas_of_expertise" (VList [])))
    as [expertise|]; [|discriminate].
  destruct (Py.slice_to 1000 (Py.get job "description" (VStr ""))) as [description|];
    [|discriminate].
  destruct (parse_structured P _ w) as [[answer|] w1]; [|discriminate].
  destruct (Py.has_key answer "error") eqn:Herror.
  - intros [= <- _].
    destruct (scoring_failed_lookup P answer) as (Hs & Hr & Hm & Hx & He & Hc & Ht & Hj).
    split; [unfold has_all; repeat apply List.Forall_cons; try apply List.Forall_nil;
            by eexists|].
    split; [exact Hrange|]. split; [exact Hcalls|].
    rewrite He. split; [exact Hs|]. split; [by eexists|].
    repeat apply List.Forall_cons; try apply List.Forall_nil; assumption.
  - destruct (clamp_score answer) as [clamped|] eqn:Hclamp; [|discriminate].
    destruct (Py.len (Py.get resume_data "skills" (VList []))) as [count|]; [|discriminate].
    intros [= <- _].
    assert (Hnoerror : clamped !! "error" = None).
    { apply has_key_false in Herror. revert Hclamp. unfold clamp_score.
      destruct (Py.int _) as [score|e0];
        [|destruct (isinstance e0 ValueError || isinstance e0 TypeError); [|discriminate]];
        intros [= <-]; by rewrite lookup_insert_ne. }
    split.
    { destruct Hrange as (n & Hn & _).
      unfold has_all. repeat apply List.Forall_cons; try apply List.Forall_nil.
      - by eexists.
      - rewrite !lookup_insert_ne by done. rewrite !setdefault_other by done.
        rewrite setdefault_same. by eexists.
      - rewrite !lookup_insert_ne by done. rewrite setdefault_other by done.
        rewrite setdefault_same. by eexists.
      - rewrite !lookup_insert_ne by done. rewrite setdefault_same. by eexists. }
    split; [exact Hrange|]. split; [exact Hcalls|].
    rewrite !lookup_insert_ne by done. rewrite !setdefault_other by done.
    rewrite Hnoerror. split; [exists count; split; [reflexivity|]|split].
    + apply lookup_insert_eq.
    + rewrite ?lookup_insert_ne by done. apply lookup_insert_eq.
    + rewrite ?lookup_insert_ne by done. apply lookup_insert_eq.
Qed.

Lemma score_job_fields_witness :
  let stored := <["id" := VStr "d346801e8a67"]> Samples.engineer_at_acme in
  let w' := snd (score_job Cases.generous Samples.python_resume stored
                   Samples.unscored_store) in
  score_job Cases.generous Samples.python_resume stored Samples.unscored_store
  = (Ok Cases.scoring_of_150, w')
  /\ has_all Cases.scoring_of_150 ["score"; "reasoning"; "matched_skills"; "missing_skills"]
  /\ only_calls 3 Samples.unscored_store w'.
Proof.
  cbv zeta.
  assert (Hrun : score_job Cases.generous Samples.python_resume
                   (<["id" := VStr "d346801e8a67"]> Samples.engineer_at_acme)
                   Samples.unscored_store
                 = (Ok Cases.scoring_of_150,
                    snd (score_job Cases.generous Samples.python_resume
                           (<["id" := VStr "d346801e8a67"]> Samples.engineer_at_acme)
                           Samples.unscored_store)))
    by (apply run_eq; vm_compute; exact eq_refl).
  split; [exact Hrun|].
  destruct (score_job_fields _ _ _ _ _ _ Hrun) as (Hkeys & _ & Hcalls & _).
  split; [exact Hkeys | exact Hcalls].
Defined.

(** ** The sources of a company profile *)

Lemma take_nonempty n s : (0 < n)%nat -> s <> "" -> PyStr.take n s <> "".
Proof. destruct n, s; [lia | lia | done | discriminate]. Qed.

(** The pages that [fetch_results] adds are pages of the hits, in their
    order, each with a text that is not empty and at most 2000 characters
    long. *)
Lemma fetch_results_urls P results :
  forall url_contents w, exists added w',
    fetch_results P results url_contents w = (Ok (url_contents ++ added)%list, w')
    /\ sublist (map uc_url added) (map href results)
    /\ Forall (fun page => uc_content page <> ""
                           /\ (String.length (uc_content page) <= 2000)%nat) added
    /\ llm_calls w' = llm_calls w /\ jobs_dir w' = jobs_dir w.
Proof.
  induction results as [|hit later IH]; intros url_contents w.
  - exists [], w. rewrite app_nil_r. by repeat split.
  - cbn [fetch_results]. unfold bind at 1, attempt, _fetch_url_content.
    assert (Hskip : forall w1, llm_calls w1 = llm_calls w -> jobs_dir w1 = jobs_dir w ->
              exists added w',
                fetch_results P later url_contents w1 = (Ok (url_contents ++ added)%list, w')
                /\ sublist (map uc_url added) (map href (hit :: later))
                /\ Forall (fun page => uc_content page <> ""
                                       /\ (String.length (uc_content page) <= 2000)%nat) added
                /\ llm_calls w' = llm_calls w /\ jobs_dir w' = jobs_dir w).
    { intros w1 Hllm Hjobs.
      destruct (IH url_contents w1) as (added & w' & Hrun & Hsub & Hall & Hllm' & Hjobs').
      exists added, w'. split; [exact Hrun|]. split; [by apply sublist_cons|].
      split; [exact Hall|]. split; congruence. }
    destruct (page_text P w (href hit)) as [text|e].
    + destruct (String.eqb_spec text "") as [->|Hne]; [by apply Hskip|].
      destruct (IH (url_contents
                    ++ [mkUrlContent (href hit) (default "" (hit_title hit))
                          (PyStr.take 2000 text)])%list w)
        as (added & w' & Hrun & Hsub & Hall & Hllm' & Hjobs').
      exists (mkUrlContent (href hit) (default "" (hit_title hit)) (PyStr.take 2000 text)
              :: added), w'.
      rewrite Hrun, <- app_assoc. split; [reflexivity|].
      split; [cbn [map uc_url]; by apply sublist_skip|].
      split; [|by split].
      apply List.Forall_cons; [|exact Hall]. cbn [uc_content].
      split; [apply take_nonempty; [lia | exact Hne] | apply length_take_le].
    + unfold bind at 1. rewrite print_run_eq. unfold ret. rewrite String.eqb_refl.
      by apply Hskip.
Qed.

Lemma sources_of_urls url_contents :
  sources_of url_contents = VList (map VStr (map uc_url url_contents)).
Proof. unfold sources_of. by rewrite map_map. Qed.

(** X8 (company_researcher.py, research_company).  [research_company]
    never raises and leaves the directory as it was.  Either no page could
    be read: the result is the record "No information found" and the model
    was not called; or the result lists as [sources] the addresses of the
    pages that were read: at least one, at most [max_urls], each among the
    first [max_urls] hits of the search and in their order, and the model
    was called between one and three times. *)
Theorem research_company_sources P company_name max_urls w :
  exists hits research w',
    fst (_search_company P company_name max_urls w) = Ok hits
    /\ research_company_n P company_name max_urls w = (Ok research, w')
    /\ jobs_dir w' = jobs_dir w
    /\ ((research = no_information company_name /\ llm_calls w' = llm_calls w)
        \/ exists urls calls,
             research !! "sources" = Some (VList (map VStr urls))
             /\ urls <> []
             /\ sublist urls (map href (firstn max_urls hits))
             /\ (length urls <= max_urls)%nat
             /\ llm_calls w' = (llm_calls w ++ calls)%list
             /\ (1 <= length calls <= 3)%nat).
Proof.
  unfold research_company_n, bind at 1.
  destruct (_search_company_total P company_name max_urls w)
    as (hits & w1 & Hsearch & Hllm1 & Hjobs1).
  rewrite Hsearch. exists hits. unfold bind at 1.
  destruct (fetch_results_urls P (firstn max_urls hits) [] w1)
    as (pages & w2 & -> & Hsub & _ & Hllm2 & Hjobs2).
  cbn [app].
  destruct pages as [|page others].
  - exists (no_information company_name), w2.
    split; [reflexivity|]. split; [reflexivity|]. split; [congruence|].
    left. split; [reflexivity | congruence].
  - cbv iota. set (pages := page :: others) in *.
    assert (Hurls : map uc_url pages <> []) by discriminate.
    assert (Hlen : (length (map uc_url pages) <= max_urls)%nat).
    { apply sublist_length in Hsub. rewrite !length_map, length_firstn in Hsub. rewrite length_map. lia. }
    unfold bind.
    match goal with |- context [parse_structured P ?prompt w2] =>
      destruct (parse_structured_total P prompt w2) as (answer & k & -> & Hk);
      set (calls := repeat prompt k) end.
    assert (Hcalls : (1 <= length calls <= 3)%nat)
      by (unfold calls; by rewrite repeat_length).
    destruct (Py.has_key answer "error"); eexists _, _;
      (split; [reflexivity|]); (split; [reflexivity|]);
      (split; [simpl; congruence|]); right; exists (map uc_url pages), calls;
      (split; [|split; [exact Hurls|]; split; [exact Hsub|]; split; [exact Hlen|];
                split; [simpl; congruence | exact Hcalls]]).
    + rewrite <- sources_of_urls. unfold research_failed, dict_of.
      rewrite !list_to_map_cons. by simplify_map_eq.
    + rewrite <- sources_of_urls. unfold research_defaults. apply lookup_insert_eq.
Qed.

(** ** The url drawn from the body of a message *)

Lemma prefix_take n s : String.prefix (PyStr.take n s) s = true.
Proof.
  revert s; induction n as [|n IH]; intros [|c s]; simpl; try reflexivity.
  destruct (ascii_dec c c); [apply IH | done].
Qed.

Lemma contains_prefix needle hay : String.prefix needle hay = true -> PyStr.contains needle hay = true.
Proof. intros H. destruct hay; cbn [PyStr.contains]; by rewrite H. Qed.

Lemma contains_later needle c hay :
  PyStr.contains needle hay = true -> PyStr.contains needle (String c hay) = true.
Proof. intros H. cbn [PyStr.contains]. rewrite H. apply orb_true_r. Qed.

Lemma findall_urls_from_in_body s :
  forall skip url, In url (findall_urls_from skip s) -> PyStr.contains url s = true.
Proof.
  induction s as [|c rest IH]; intros skip url Hin; [destruct Hin|].
  cbn [findall_urls_from] in Hin. destruct skip as [|k].
  - destruct (url_match (String c rest)) as [n|].
    + destruct Hin as [<-|Hin]; [apply contains_prefix, prefix_take|].
      apply contains_later. by apply (IH (n - 1)%nat).
    + apply contains_later. by apply (IH O).
  - apply contains_later. by apply (IH k).
Qed.

Lemma run_length_keeps keep s :
  Forall (fun c => keep c = true) (list_ascii_of_string (PyStr.take (run_length keep s) s)).
Proof.
  induction s as [|c rest IH]; simpl; [constructor|].
  destruct (keep c) eqn:Hc; simpl; [by constructor | constructor].
Qed.

Lemma append_cons c a b : String c a +:+ b = String c (a +:+ b).
Proof. reflexivity. Qed.

Lemma take_after_prefix p s n :
  String.prefix p s = true ->
  PyStr.take (String.length p + n) s = p +:+ PyStr.take n (PyStr.drop (String.length p) s).
Proof.
  revert s; induction p as [|c p IH]; intros s Hp.
  - by destruct s, n.
  - destruct s as [|c' s]; [discriminate|]. simpl in Hp.
    destruct (ascii_dec c c') as [<-|]; [|discriminate].
    rewrite append_cons. simpl. f_equal. by apply IH.
Qed.

Lemma prefix_append p rest : String.prefix p (p +:+ rest) = true.
Proof.
  induction p as [|c p IH]; [by destruct rest|].
  rewrite append_cons. simpl. by destruct (ascii_dec c c).
Qed.

Lemma list_ascii_append a b :
  list_ascii_of_string (a +:+ b) = (list_ascii_of_string a ++ list_ascii_of_string b)%list.
Proof.
  induction a as [|c a IH]; [reflexivity|]. rewrite append_cons. simpl. by rewrite IH.
Qed.

(** A match of the url pattern starts with its scheme and goes on with
    characters of the class, at least one. *)
Lemma url_match_shape s n :
  url_match s = Some n ->
  (String.prefix "http://" (PyStr.take n s) = true
   \/ String.prefix "https://" (PyStr.take n s) = true)
  /\ Forall (fun c => url_char c = true) (list_ascii_of_string (PyStr.take n s))
  /\ PyStr.take n s <> "".
Proof.
  unfold url_match.
  assert (Hscheme : forall scheme,
            String.prefix scheme s = true ->
            Forall (fun c => url_char c = true) (list_ascii_of_string scheme) ->
            scheme <> "" ->
            match run_length url_char (PyStr.drop (String.length scheme) s) with
            | O => None
            | S m => Some (String.length scheme + S m)%nat
            end = Some n ->
            String.prefix scheme (PyStr.take n s) = true
            /\ Forall (fun c => url_char c = true) (list_ascii_of_string (PyStr.take n s))
            /\ PyStr.take n s <> "").
  { intros scheme Hp Hchars Hne.
    pose proof (run_length_keeps url_char (PyStr.drop (String.length scheme) s)) as Hrun.
    destruct (run_length url_char (PyStr.drop (String.length scheme) s)) as [|m];
      [discriminate|].
    intros [= <-]. rewrite (take_after_prefix _ _ _ Hp).
    split; [apply prefix_append|]. split.
    - rewrite list_ascii_append. apply Forall_app. by split.
    - destruct scheme; [done | discriminate]. }
  destruct (String.prefix "https://" s) eqn:Hhttps.
  - intros Hn. destruct (Hscheme "https://" Hhttps) as (Hp & Hchars & Hne);
      [by repeat constructor | discriminate | exact Hn |]. split; [by right | by split].
  - destruct (String.prefix "http://" s) eqn:Hhttp; [|discriminate].
    intros Hn. destruct (Hscheme "http://" Hhttp) as (Hp & Hchars & Hne);
      [by repeat constructor | discriminate | exact Hn |]. split; [by left | by split].
Qed.

Lemma findall_urls_from_shape s :
  forall skip url, In url (findall_urls_from skip s) ->
    (String.prefix "http://" url = true \/ String.prefix "https://" url = true)
    /\ Forall (fun c => url_char c = true) (list_ascii_of_string url)
    /\ url <> "".
Proof.
  induction s as [|c rest IH]; intros skip url Hin; [destruct Hin|].
  cbn [findall_urls_from] in Hin. destruct skip as [|k]; [|by apply (IH k)].
  destruct (url_match (String c rest)) as [n|] eqn:Hmatch; [|by apply (IH O)].
  destruct Hin as [<-|Hin]; [by apply url_match_shape | by apply (IH (n - 1)%nat)].
Qed.

Lemma _extract_url_in_findall body :
  findall_urls body = [] /\ _extract_url body = ""
  \/ In (_extract_url body) (findall_urls body).
Proof.
  unfold _extract_url. rewrite prefer_job_url_find.
  destruct (find looks_like_job (findall_urls body)) as [url|] eqn:Hfind.
  - right. by apply find_some in Hfind as [Hin _].
  - destruct (findall_urls body) as [|first others]; [by left | right; by left].
Qed.

(** X9 (email_parser.py, _extract_url).  [_extract_url] returns the empty
    text exactly when the body holds no url.  Otherwise what it returns
    starts with http:// or https://, consists of characters that the
    pattern admits, and occurs in the body; and when some url of the body
    looks like a posting (it contains job, career, apply, position or
    opening, in any letter case), the url returned is such a one. *)
Theorem _extract_url_is_a_url body :
  (_extract_url body = "" <-> findall_urls body = [])
  /\ (_extract_url body <> "" ->
      (String.prefix "http://" (_extract_url body) = true
       \/ String.prefix "https://" (_extract_url body) = true)
      /\ Forall (fun c => url_char c = true) (list_ascii_of_string (_extract_url body))
      /\ PyStr.contains (_extract_url body) body = true)
  /\ (existsb looks_like_job (findall_urls body) = true ->
      looks_like_job (_extract_url body) = true).
Proof.
  destruct (_extract_url_in_findall body) as [[Hnone Hempty]|Hin].
  - rewrite Hempty, Hnone. split; [done|]. split; [done | discriminate].
  - destruct (findall_urls_from_shape body O _ Hin) as (Hscheme & Hchars & Hne).
    split; [|split].
    + split; [done|]. intros Hnone. rewrite Hnone in Hin. destruct Hin.
    + intros _. split; [exact Hscheme|]. split; [exact Hchars|].
      by apply (findall_urls_from_in_body body O).
    + intros Hsome. unfold _extract_url. rewrite prefer_job_url_find.
      apply existsb_exists in Hsome as (url & Hurl & Hjob).
      destruct (find looks_like_job (findall_urls body)) as [found|] eqn:Hfind.
      * by apply find_some in Hfind as [_ Hfound].
      * apply (find_none _ _ Hfind) in Hurl. congruence.
Qed.

(** What follows a link in a sentence belongs to it, when the class of the
    pattern accepts it. *)
Example url_keeps_the_full_stop :
  _extract_url "Apply here (https://acme.com/jobs/1). Thanks" = "https://acme.com/jobs/1).".
Proof. reflexivity. Qed.

(** ** The title drawn from the subject of a message *)

Lemma prefix_trans a : forall b c,
  String.prefix a b = true -> String.prefix b c = true -> String.prefix a c = true.
Proof.
  induction a as [|x a IH]; intros b c Hab Hbc; [by destruct c|].
  destruct b as [|y b]; [discriminate|]. destruct c as [|z c]; [discriminate|].
  simpl in *. destruct (ascii_dec x y) as [<-|]; [|discriminate].
  destruct (ascii_dec x z) as [<-|]; [|discriminate]. by apply (IH b).
Qed.

Lemma contains_in_prefix needle a : forall s,
  String.prefix a s = true -> PyStr.contains needle a = true ->
  PyStr.contains needle s = true.
Proof.
  induction a as [|x a IH]; intros s Ha Hin.
  - cbn [PyStr.contains] in Hin. rewrite orb_false_r in Hin.
    apply contains_prefix. by apply (prefix_trans _ "").
  - destruct s as [|y s]; [discriminate|].
    pose proof Ha as Htail. simpl in Htail.
    destruct (ascii_dec x y) as [<-|]; [|discriminate].
    cbn [PyStr.contains] in Hin. apply orb_true_iff in Hin as [Hhere|Hlater].
    + apply contains_prefix. by apply (prefix_trans _ (String x a)).
    + apply contains_later. by apply IH.
Qed.

Lemma contains_in_lstrip needle sp s :
  PyStr.contains needle (PyStr.lstrip_by sp s) = true -> PyStr.contains needle s = true.
Proof.
  induction s as [|c s IH]; [done|]. cbn [PyStr.lstrip_by].
  destruct (sp c); [|done]. intros Hin. apply contains_later. by apply IH.
Qed.

Lemma contains_in_drop needle n : forall s,
  PyStr.contains needle (PyStr.drop n s) = true -> PyStr.contains needle s = true.
Proof.
  induction n as [|n IH]; intros [|c s]; try done.
  cbn [PyStr.drop]. intros Hin. apply contains_later. by apply IH.
Qed.

Lemma prefix_rstrip sp s : String.prefix (PyStr.rstrip_by sp s) s = true.
Proof.
  induction s as [|c s IH]; [reflexivity|]. cbn [PyStr.rstrip_by].
  destruct (PyStr.rstrip_by sp s) as [|d kept] eqn:Hkept.
  - destruct (sp c); [reflexivity|]. simpl. by destruct (ascii_dec c c).
  - cbn [String.prefix]. by destruct (ascii_dec c c).
Qed.

Lemma contains_in_strip needle s :
  PyStr.contains needle (PyStr.strip s) = true -> PyStr.contains needle s = true.
Proof.
  unfold PyStr.strip, PyStr.lstrip. intros Hin.
  apply (contains_in_lstrip _ PyStr.is_space).
  by apply (contains_in_prefix _ _ _ (prefix_rstrip PyStr.is_space _)).
Qed.

Lemma prefix_first_segment s : String.prefix (first_segment s) s = true.
Proof.
  induction s as [|c s IH]; [reflexivity|]. cbn [first_segment].
  destruct (at_separator (String c s)); [reflexivity|].
  cbn [String.prefix]. by destruct (ascii_dec c c).
Qed.

Lemma first_segment_has_no_separator sep s :
  In sep ["|"; "-"; "–"; "—"] -> PyStr.contains sep (first_segment s) = false.
Proof.
  intros Hsep.
  assert (Hat : forall t, String.prefix sep t = true -> at_separator t = true).
  { intros t Ht. unfold at_separator.
    destruct Hsep as [<-|[<-|[<-|[<-|[]]]]]; rewrite Ht; by rewrite ?orb_true_r. }
  assert (Hne : String.prefix sep "" = false)
    by (destruct Hsep as [<-|[<-|[<-|[<-|[]]]]]; reflexivity).
  induction s as [|c s IH]; [cbn [first_segment PyStr.contains]; by rewrite Hne|].
  cbn [first_segment].
  destruct (at_separator (String c s)) eqn:Hhere;
    [cbn [PyStr.contains]; by rewrite Hne|].
  cbn [PyStr.contains]. rewrite IH, orb_false_r.
  destruct (String.prefix sep (String c (first_segment s))) eqn:Hp; [|reflexivity].
  rewrite (Hat (String c s)) in Hhere; [discriminate|].
  apply (prefix_trans _ _ _ Hp). cbn [String.prefix].
  destruct (ascii_dec c c); [apply prefix_first_segment | done].
Qed.

Lemma lstrip_of_strip s : PyStr.lstrip (PyStr.strip s) = PyStr.strip s.
Proof.
  unfold PyStr.strip, PyStr.lstrip.
  assert (Hfirst : PyStr.lstrip_by PyStr.is_space s = ""
                   \/ exists c rest, PyStr.lstrip_by PyStr.is_space s = String c rest
                                     /\ PyStr.is_space c = false).
  { induction s as [|c s IH]; [by left|]. cbn [PyStr.lstrip_by].
    destruct (PyStr.is_space c) eqn:Hc; [exact IH | right; by exists c, s]. }
  destruct Hfirst as [->|(c & rest & -> & Hc)]; [reflexivity|].
  cbn [PyStr.rstrip_by].
  destruct (PyStr.rstrip_by PyStr.is_space rest); rewrite ?Hc;
    cbn [PyStr.lstrip_by]; by rewrite Hc.
Qed.

Lemma lstrip_of_take n s : PyStr.lstrip s = s -> PyStr.lstrip (PyStr.take n s) = PyStr.take n s.
Proof.
  unfold PyStr.lstrip. destruct s as [|c s], n as [|n]; try reflexivity.
  cbn [PyStr.lstrip_by PyStr.take]. destruct (PyStr.is_space c) eqn:Hc; [|reflexivity].
  intros Hstrip. exfalso.
  assert (Hlen : forall t, (String.length (PyStr.lstrip_by PyStr.is_space t)
                            <= String.length t)%nat).
  { induction t as [|d t IH]; simpl; [lia|]. destruct (PyStr.is_space d); simpl; lia. }
  specialize (Hlen s). rewrite Hstrip in Hlen. simpl in Hlen. lia.
Qed.

(** X10 (email_parser.py, _extract_title_from_subject).  The title drawn
    from a subject contains none of the separators |, -, en dash and em
    dash (so a hyphen inside a word cuts the title), it does not start with
    white space and it is at most 100 characters long. *)
Theorem _extract_title_has_no_separator subject :
  let title := _extract_title_from_subject subject in
  Forall (fun sep => PyStr.contains sep title = false) ["|"; "-"; "–"; "—"]
  /\ PyStr.lstrip title = title
  /\ (String.length title <= 100)%nat.
Proof.
  cbv zeta. unfold _extract_title_from_subject.
  set (cleaned := match remove_prefix_ci "fwd:" _ with Some s => s | None => _ end).
  split; [|split; [apply lstrip_of_take, lstrip_of_strip | apply length_take_le]].
  apply Forall_forall. intros sep Hsep. apply list_elem_of_In in Hsep.
  destruct (PyStr.contains sep (PyStr.take 100 (PyStr.strip (first_segment cleaned))))
    eqn:Hin; [|reflexivity].
  apply (contains_in_prefix _ _ _ (prefix_take _ _)), contains_in_strip in Hin.
  by rewrite first_segment_has_no_separator in Hin.
Qed.

(** A title with a hyphen in it is cut at the hyphen. *)
Example title_of_hyphenated_subject :
  _extract_title_from_subject "New job: Full-Stack Engineer at Acme" = "New job: Full".
Proof. reflexivity. Qed.

(** ** Scores that are not numbers *)

Lemma scoring_at_least_raises min_score jobs :
  (forall e, scoring_at_least min_score jobs = Raise e ->
     e = Exn TypeError "'>=' not supported between these instances"
     /\ Exists (fun job => Py.is_number (score_key job) = false) jobs)
  /\ (Exists (fun job => Py.is_number (score_key job) = false) jobs ->
      exists e, scoring_at_least min_score jobs = Raise e).
Proof.
  induction jobs as [|job rest [IHraise IHexists]].
  - split; [intros e He; discriminate He|]. intros Hex. by apply Exists_nil in Hex.
  - cbn [scoring_at_least]. fold (score_key job). unfold Py.ge_int.
    destruct (Py.is_number (score_key job)) eqn:Hnum; cbn [result_bind].
    + destruct (scoring_at_least min_score rest) as [kept|e'] eqn:Hrest; cbn [result_bind].
      * split; [intros e He; discriminate He|].
        intros Hex. apply Exists_cons in Hex as [Hex|Hex];
          [congruence|]. destruct (IHexists Hex) as [e He]. discriminate He.
      * split.
        -- intros e [= <-]. destruct (IHraise e' eq_refl) as [-> Hex].
           split; [reflexivity | by apply Exists_cons_tl].
        -- intros _. by exists e'.
    + split.
      * intros e [= <-]. split; [reflexivity | by apply Exists_cons_hd].
      * intros _. by eexists.
Qed.

(** X11 (main.py, review_jobs; storage.py, get_high_scoring_jobs).  With
    a minimum score, the selection of [review_jobs] (the filter and the
    sort that come before the printing) raises exactly when some record has
    a score that is no number (a text, null, a list); what it raises is
    then the [TypeError] of the comparison, the same that
    [get_high_scoring_jobs] raises.  Without a minimum score the selection
    is the whole directory and never raises. *)
Theorem review_raises_on_ill_typed_score min_score w :
  ((exists e, fst (review_jobs (Some min_score) w) = Raise e)
   <-> Exists (fun job => Py.is_number (score_key job) = false) (records w))
  /\ (forall e, fst (review_jobs (Some min_score) w) = Raise e ->
        exn_cls e = TypeError
        /\ fst (get_high_scoring_jobs min_score w) = Raise e)
  /\ review_jobs None w = (Ok (records w), w).
Proof.
  assert (Hreview : fst (review_jobs (Some min_score) w)
                    = result_bind (scoring_at_least min_score (records w))
                        (fun jobs => Ok (sort_by_score_desc jobs))).
  { unfold review_jobs, bind, get_all_jobs, lift, ret. fold (records w).
    by destruct (scoring_at_least min_score (records w)). }
  assert (Hhigh : fst (get_high_scoring_jobs min_score w)
                  = scoring_at_least min_score (records w)).
  { unfold get_high_scoring_jobs, bind, get_all_jobs, lift. reflexivity. }
  destruct (scoring_at_least_raises min_score (records w)) as [Hraise Hexists].
  rewrite Hreview, Hhigh. split; [split|split; [|reflexivity]].
  - intros [e He]. destruct (scoring_at_least min_score (records w)) as [|e'] eqn:Hrun;
      [discriminate|]. by destruct (Hraise e' eq_refl).
  - intros Hex. destruct (Hexists Hex) as [e ->]. by exists e.
  - intros e He. destruct (scoring_at_least min_score (records w)) as [|e'] eqn:Hrun;
      [discriminate|]. injection He as <-. by destruct (Hraise e' eq_refl) as [-> _].
Qed.

(** A record whose score is [null] stops the review with a minimum. *)
Example review_with_a_null_score :
  let w := mkWorld (list_to_map [("0a0000000001", dict_of [("score", VNone)])])
                   None [] [] [] in
  fst (review_jobs (Some 80) w)
  = Raise (Exn TypeError "'>=' not supported between these instances")
  /\ fst (review_jobs None w) = Ok [dict_of [("score", VNone)]].
Proof. split; vm_compute; exact eq_refl. Qed.

(** ** The order of the review *)

Lemma insert_by_score_filter job sorted score :
  integer_score job -> Forall integer_score sorted ->
  List.filter (fun other => score_of other =? score) (insert_by_score job sorted)
  = List.filter (fun other => score_of other =? score) (job :: sorted).
Proof.
  intros Hjob Hall. induction Hall as [|next rest Hnext Hrest IH]; [reflexivity|].
  cbn [insert_by_score].
  rewrite (score_key_integer job Hjob), (score_key_integer next Hnext), lt_integer.
  destruct (Z.ltb_spec (score_of job) (score_of next)) as [Hlt|Hge]; [|reflexivity].
  cbn [List.filter] in *. rewrite IH.
  destruct (Z.eqb_spec (score_of job) score) as [Hj|Hj];
    destruct (Z.eqb_spec (score_of next) score) as [Hn|Hn]; try reflexivity. lia.
Qed.

Lemma sort_by_score_desc_integer jobs :
  Forall integer_score jobs -> Forall integer_score (sort_by_score_desc jobs).
Proof. intros Hall. by rewrite sort_by_score_desc_perm. Qed.

(** X12 (main.py, review_jobs).  The listing in the order of decreasing
    scores is stable: among records with integer scores, those with one and
    the same score keep the order in which the directory yielded them. *)
Theorem sort_by_score_desc_is_stable jobs score :
  Forall integer_score jobs ->
  List.filter (fun job => score_of job =? score) (sort_by_score_desc jobs)
  = List.filter (fun job => score_of job =? score) jobs.
Proof.
  induction 1 as [|job jobs Hjob Hall IH]; [reflexivity|].
  cbn [sort_by_score_desc fold_right]. fold (sort_by_score_desc jobs).
  rewrite insert_by_score_filter by (try apply sort_by_score_desc_integer; assumption).
  cbn [List.filter]. by rewrite IH.
Qed.

Lemma sort_by_score_desc_is_stable_witness :
  let jobs := [Samples.scored "1" "a" (Some 1); Samples.scored "2" "b" (Some 2);
               Samples.scored "3" "c" (Some 1); Samples.scored "4" "d" (Some 2)] in
  Forall integer_score jobs
  /\ List.filter (fun job => score_of job =? 2) (sort_by_score_desc jobs)
     = [Samples.scored "2" "b" (Some 2); Samples.scored "4" "d" (Some 2)].
Proof.
  cbv zeta.
  assert (Hall : Forall integer_score
                   [Samples.scored "1" "a" (Some 1); Samples.scored "2" "b" (Some 2);
                    Samples.scored "3" "c" (Some 1); Samples.scored "4" "d" (Some 2)]).
  { repeat (apply List.Forall_cons; [right; eexists; vm_compute; reflexivity|]).
    apply List.Forall_nil. }
  split; [exact Hall|].
  rewrite (sort_by_score_desc_is_stable _ 2 Hall). vm_compute. exact eq_refl.
Defined.

(** ** The white space of a page *)

Lemma length_lstrip_by sp s :
  (String.length (PyStr.lstrip_by sp s) <= String.length s)%nat.
Proof. induction s as [|c s IH]; simpl; [lia|]. destruct (sp c); simpl; lia. Qed.

Lemma length_rstrip_by sp s :
  (String.length (PyStr.rstrip_by sp s) <= String.length s)%nat.
Proof.
  induction s as [|c s IH]; simpl; [lia|].
  destruct (PyStr.rstrip_by sp s); [destruct (sp c)|]; simpl in *; lia.
Qed.

Lemma lstrip_by_fixed sp c s :
  PyStr.lstrip_by sp (String c s) = String c s <-> sp c = false.
Proof.
  cbn [PyStr.lstrip_by]. destruct (sp c); split; try done.
  intros H. pose proof (length_lstrip_by sp s) as Hlen. rewrite H in Hlen.
  simpl in Hlen. lia.
Qed.

Lemma lstrip_by_append sp a b :
  a <> "" -> PyStr.lstrip_by sp a = a -> PyStr.lstrip_by sp (a +:+ b) = a +:+ b.
Proof.
  destruct a as [|c a]; [done|]. intros _ Ha. apply lstrip_by_fixed in Ha.
  rewrite append_cons. by apply lstrip_by_fixed.
Qed.

Lemma rstrip_by_append sp a b :
  b <> "" -> PyStr.rstrip_by sp b = b -> PyStr.rstrip_by sp (a +:+ b) = a +:+ b.
Proof.
  intros Hne Hb. induction a as [|c a IH]; [exact Hb|].
  rewrite append_cons. cbn [PyStr.rstrip_by]. rewrite IH.
  destruct (a +:+ b) eqn:Hab; [|reflexivity].
  destruct a; [exfalso; apply Hne; exact Hab | rewrite append_cons in Hab; discriminate Hab].
Qed.

Lemma rstrip_by_idempotent sp s :
  PyStr.rstrip_by sp (PyStr.rstrip_by sp s) = PyStr.rstrip_by sp s.
Proof.
  induction s as [|c s IH]; [reflexivity|]. cbn [PyStr.rstrip_by].
  destruct (PyStr.rstrip_by sp s) as [|d kept] eqn:Hkept.
  - destruct (sp c) eqn:Hc; [reflexivity|]. cbn [PyStr.rstrip_by]. by rewrite Hc.
  - cbn [PyStr.rstrip_by] in *. by rewrite IH.
Qed.

Lemma rstrip_of_strip s : PyStr.rstrip_by PyStr.is_space (PyStr.strip s) = PyStr.strip s.
Proof. apply rstrip_by_idempotent. Qed.

(** A text is its own [strip] exactly when stripping on either side
    leaves it as it is. *)
Lemma strip_fixed s :
  PyStr.strip s = s
  <-> PyStr.lstrip s = s /\ PyStr.rstrip_by PyStr.is_space s = s.
Proof.
  unfold PyStr.strip, PyStr.lstrip. split.
  - intros Hs.
    assert (Hl : PyStr.lstrip_by PyStr.is_space s = s).
    { destruct s as [|c s]; [reflexivity|]. apply lstrip_by_fixed.
      destruct (PyStr.is_space c) eqn:Hc; [|reflexivity].
      pose proof (length_rstrip_by PyStr.is_space
                    (PyStr.lstrip_by PyStr.is_space (String c s))) as H1.
      rewrite Hs in H1. cbn [PyStr.lstrip_by] in H1. rewrite Hc in H1.
      pose proof (length_lstrip_by PyStr.is_space s). simpl in H1. lia. }
    split; [exact Hl | by rewrite Hl in Hs].
  - intros [-> ->]. reflexivity.
Qed.

Lemma chars_lstrip_by (Q : ascii -> Prop) sp s :
  Forall Q (list_ascii_of_string s) ->
  Forall Q (list_ascii_of_string (PyStr.lstrip_by sp s)).
Proof.
  induction s as [|c s IH]; [done|]. cbn [PyStr.lstrip_by]. intros Hall.
  destruct (sp c); [|exact Hall]. apply IH. simpl in Hall. by inversion Hall.
Qed.

Lemma chars_rstrip_by (Q : ascii -> Prop) sp s :
  Forall Q (list_ascii_of_string s) ->
  Forall Q (list_ascii_of_string (PyStr.rstrip_by sp s)).
Proof.
  induction s as [|c s IH]; [done|]. cbn [PyStr.rstrip_by]. simpl. intros Hall.
  inversion Hall as [|? ? Hc Hs]; subst.
  destruct (PyStr.rstrip_by sp s) as [|d kept].
  - destruct (sp c); simpl; by repeat constructor.
  - simpl. constructor; [exact Hc | by apply IH].
Qed.

Lemma chars_strip (Q : ascii -> Prop) s :
  Forall Q (list_ascii_of_string s) -> Forall Q (list_ascii_of_string (PyStr.strip s)).
Proof. intros H. by apply chars_rstrip_by, chars_lstrip_by. Qed.

Lemma Forall_prepend (Q : string -> Prop) c pieces :
  Q (String c "") ->
  (forall piece, Q piece -> Q (String c piece)) ->
  Forall Q pieces -> Forall Q (prepend c pieces).
Proof.
  intros Hone Hcons Hall. destruct Hall as [|piece later Hpiece Hlater]; simpl.
  - by repeat constructor.
  - constructor; [by apply Hcons | exact Hlater].
Qed.

(** No line of [splitlines] holds a line boundary. *)
Lemma splitlines_no_break s :
  Forall (fun line => Forall (fun c => is_line_break c = false)
                        (list_ascii_of_string line)) (splitlines s).
Proof.
  remember (String.length s) as n eqn:Hn. revert s Hn.
  induction n as [n IH] using lt_wf_ind. intros s ->.
  destruct s as [|c rest]; [constructor|]. cbn [splitlines].
  destruct (is_line_break c) eqn:Hc.
  - constructor; [constructor|].
    destruct rest as [|c2 rest2]; [constructor|].
    destruct ((PyStr.code c =? 13) && (PyStr.code c2 =? 10))%nat.
    + apply (IH (String.length rest2)); [simpl; lia | reflexivity].
    + apply (IH (String.length (String c2 rest2))); [simpl; lia | reflexivity].
  - apply Forall_prepend.
    + simpl. by repeat constructor.
    + intros piece Hpiece. simpl. by constructor.
    + apply (IH (String.length rest)); [simpl; lia | reflexivity].
Qed.

Lemma splitlines_of_a_line s :
  s <> "" ->
  Forall (fun c => is_line_break c = false) (list_ascii_of_string s) ->
  splitlines s = [s].
Proof.
  induction s as [|c rest IH]; [done|]. intros _ Hall. simpl in Hall.
  inversion Hall as [|? ? Hc Hrest]; subst. cbn [splitlines]. rewrite Hc.
  destruct rest as [|c2 rest2]; [reflexivity|]. by rewrite IH.
Qed.

Lemma split_two_blanks_chars (Q : ascii -> Prop) s :
  Forall Q (list_ascii_of_string s) ->
  Forall (fun piece => Forall Q (list_ascii_of_string piece)) (split_two_blanks s).
Proof.
  remember (String.length s) as n eqn:Hn. revert s Hn.
  induction n as [n IH] using lt_wf_ind. intros s -> Hall.
  destruct s as [|c rest]; [by repeat constructor|]. cbn [split_two_blanks].
  simpl in Hall. inversion Hall as [|? ? Hc Hrest]; subst.
  destruct rest as [|c2 rest2]; [simpl; by repeat constructor|].
  destruct (is_blank c && is_blank c2).
  - constructor; [constructor|]. simpl in Hrest. inversion Hrest; subst.
    by apply (IH (String.length rest2)); [simpl; lia | |].
  - apply Forall_prepend.
    + simpl. by repeat constructor.
    + intros piece Hpiece. simpl. by constructor.
    + by apply (IH (String.length (String c2 rest2))); [simpl; lia | |].
Qed.

Lemma is_blank_eq c : is_blank c = true <-> c = " "%char.
Proof.
  unfold is_blank, PyStr.code. rewrite Nat.eqb_eq. split; [|by intros ->].
  intros Hc. rewrite <- (ascii_nat_embedding c), Hc. reflexivity.
Qed.

Lemma prefix_blank c rest tail :
  String.prefix (String " " tail) (String c rest)
  = is_blank c && String.prefix tail rest.
Proof.
  cbn [String.prefix]. destruct (is_blank c) eqn:Hc.
  - apply is_blank_eq in Hc as ->. by destruct (ascii_dec " " " ").
  - destruct (ascii_dec " " c) as [<-|_]; [discriminate Hc | reflexivity].
Qed.

Lemma prefix_two_blanks c c2 rest :
  String.prefix "  " (String c (String c2 rest)) = is_blank c && is_blank c2.
Proof. rewrite !prefix_blank. by destruct rest, (is_blank c), (is_blank c2). Qed.

(** The first piece of a split is empty or starts as the text does. *)
Lemma split_two_blanks_head s :
  exists piece later,
    split_two_blanks s = piece :: later
    /\ (piece = "" \/ exists c rest tail, s = String c rest /\ piece = String c tail).
Proof.
  destruct s as [|c rest]; [eexists _, _; split; [reflexivity | by left]|].
  cbn [split_two_blanks]. destruct rest as [|c2 rest2].
  - eexists _, _. split; [reflexivity|]. right. by eexists _, _, _.
  - destruct (is_blank c && is_blank c2); [eexists _, _; split; [reflexivity | by left]|].
    destruct (split_two_blanks (String c2 rest2)) as [|piece later];
      eexists _, _; (split; [reflexivity|]); right; by eexists _, _, _.
Qed.

(** No piece of a split holds two blanks in a row. *)
Lemma split_two_blanks_no_pair s :
  Forall (fun piece => PyStr.contains "  " piece = false) (split_two_blanks s).
Proof.
  remember (String.length s) as n eqn:Hn. revert s Hn.
  induction n as [n IH] using lt_wf_ind. intros s ->.
  destruct s as [|c rest]; [by repeat constructor|]. cbn [split_two_blanks].
  destruct rest as [|c2 rest2].
  { constructor; [|constructor]. cbn [PyStr.contains]. rewrite prefix_blank.
    cbn [String.prefix]. by rewrite andb_false_r. }
  destruct (is_blank c && is_blank c2) eqn:Hpair.
  - constructor; [reflexivity|].
    apply (IH (String.length rest2)); [simpl; lia | reflexivity].
  - pose proof (IH (String.length (String c2 rest2)) ltac:(simpl; lia) _ eq_refl) as Hrest.
    destruct (split_two_blanks_head (String c2 rest2))
      as (piece & later & Hsplit & Hhead).
    rewrite Hsplit in Hrest |- *. cbn [prepend].
    apply Forall_cons in Hrest as [Hpiece Hlater].
    constructor; [|exact Hlater].
    cbn [PyStr.contains]. rewrite Hpiece, orb_false_r.
    destruct Hhead as [->|(c' & rest' & tail & [= <- <-] & ->)].
    + rewrite prefix_blank. cbn [String.prefix]. apply andb_false_r.
    + by rewrite prefix_two_blanks.
Qed.

Lemma split_two_blanks_of_a_chunk s :
  PyStr.contains "  " s = false -> split_two_blanks s = [s].
Proof.
  induction s as [|c rest IH]; [reflexivity|]. intros Hno.
  cbn [PyStr.contains] in Hno. apply orb_false_iff in Hno as [Hhere Hlater].
  cbn [split_two_blanks]. destruct rest as [|c2 rest2]; [reflexivity|].
  rewrite prefix_two_blanks in Hhere. rewrite Hhere. by rewrite IH.
Qed.

Lemma strip_is_tidy s :
  Forall (fun c => is_line_break c = false) (list_ascii_of_string s) ->
  PyStr.contains "  " s = false ->
  tidy (PyStr.strip s).
Proof.
  intros Hbreaks Hpair. split; [by apply chars_strip|]. split.
  - apply strip_fixed. split; [apply lstrip_of_strip | apply rstrip_of_strip].
  - destruct (PyStr.contains "  " (PyStr.strip s)) eqn:Hin; [|reflexivity].
    apply contains_in_strip in Hin. congruence.
Qed.

Lemma contains_two_blanks_append a b :
  a <> "" -> PyStr.rstrip_by PyStr.is_space a = a -> PyStr.contains "  " a = false ->
  b <> "" -> PyStr.lstrip b = b -> PyStr.contains "  " b = false ->
  PyStr.contains "  " (a +:+ " " +:+ b) = false.
Proof.
  intros _ Hright Ha Hb Hleft Hbb.
  destruct b as [|d b]; [done|]. apply lstrip_by_fixed in Hleft.
  assert (Hd : is_blank d = false).
  { destruct (is_blank d) eqn:Hblank; [|reflexivity].
    apply is_blank_eq in Hblank. subst d. discriminate Hleft. }
  induction a as [|c a IH].
  - change ("" +:+ " " +:+ String d b) with (String " " (String d b)).
    cbn [PyStr.contains]. rewrite prefix_two_blanks, Hd, andb_false_r.
    cbn [PyStr.contains] in Hbb. by rewrite Hbb.
  - rewrite append_cons. cbn [PyStr.contains].
    cbn [PyStr.contains] in Ha. apply orb_false_iff in Ha as [Hhere Hlater].
    cbn [PyStr.rstrip_by] in Hright.
    destruct a as [|c2 a].
    + change ("" +:+ " " +:+ String d b) with (String " " (String d b)) in *.
      rewrite (IH eq_refl Hlater), orb_false_r. rewrite prefix_two_blanks.
      destruct (is_blank c) eqn:Hc; [|reflexivity].
      apply is_blank_eq in Hc. subst c. discriminate Hright.
    + assert (Hright' : PyStr.rstrip_by PyStr.is_space (String c2 a) = String c2 a).
      { revert Hright.
        destruct (PyStr.rstrip_by PyStr.is_space (String c2 a)) as [|k kept];
          [destruct (PyStr.is_space c); discriminate | by intros [= -> ->]]. }
      rewrite (IH Hright' Hlater), orb_false_r.
      rewrite append_cons, prefix_two_blanks. by rewrite prefix_two_blanks in Hhere.
Qed.

Lemma blank_is_no_line_break : is_line_break " " = false.
Proof. reflexivity. Qed.

(** Chunks that are tidy and not empty, joined by single blanks, give a
    tidy text, which is empty only when there is no chunk. *)
Lemma join_is_tidy chunks :
  Forall (fun chunk => tidy chunk /\ chunk <> "") chunks ->
  tidy (PyStr.join " " chunks) /\ (chunks <> [] -> PyStr.join " " chunks <> "").
Proof.
  induction 1 as [|chunk later [Hchunk Hne] Hlater [IHtidy IHne]].
  - split; [|done]. by repeat split.
  - cbn [PyStr.join]. destruct later as [|next others]; [by split|].
    set (joined := PyStr.join " " (next :: others)) in *.
    specialize (IHne ltac:(discriminate)).
    destruct Hchunk as (Hbreaks & Hstrip & Hpair).
    destruct IHtidy as (Hbreaks' & Hstrip' & Hpair').
    apply strip_fixed in Hstrip as [Hleft Hright].
    apply strip_fixed in Hstrip' as [Hleft' Hright'].
    split.
    + split; [|split].
      * rewrite !list_ascii_append. apply Forall_app. split; [exact Hbreaks|].
        apply Forall_app. split; [by repeat constructor | exact Hbreaks'].
      * apply strip_fixed. split.
        -- by apply lstrip_by_append.
        -- apply rstrip_by_append; [by destruct joined|].
           change (" " +:+ joined) with (String " " joined).
           cbn [PyStr.rstrip_by]. rewrite Hright'. by destruct joined.
      * by apply contains_two_blanks_append.
    + destruct chunk; [done | discriminate].
Qed.

Lemma chunks_are_tidy text :
  Forall (fun chunk => tidy chunk /\ chunk <> "")
    (List.filter (fun chunk => negb (String.eqb chunk ""))
       (flat_map (fun line => map PyStr.strip (split_two_blanks line))
          (map PyStr.strip (splitlines text)))).
Proof.
  apply Forall_forall. intros chunk Hin. apply list_elem_of_In in Hin.
  apply filter_In in Hin as [Hin Hne]. split.
  - apply in_flat_map in Hin as (line & Hline & Hin).
    apply in_map_iff in Hin as (piece & <- & Hpiece).
    apply in_map_iff in Hline as (raw & <- & Hraw).
    pose proof (splitlines_no_break text) as Hbreaks.
    rewrite Forall_forall in Hbreaks. specialize (Hbreaks raw).
    rewrite list_elem_of_In in Hbreaks. specialize (Hbreaks Hraw).
    apply (chars_strip _ raw) in Hbreaks.
    pose proof (split_two_blanks_chars _ _ Hbreaks) as Hpieces.
    pose proof (split_two_blanks_no_pair (PyStr.strip raw)) as Hpairs.
    rewrite Forall_forall in Hpieces, Hpairs.
    apply strip_is_tidy; [apply Hpieces | apply Hpairs]; by apply list_elem_of_In.
  - destruct (String.eqb_spec chunk ""); [discriminate | done].
Qed.

(** X13 (company_researcher.py, _fetch_url_content).  The text of a page
    after the cleaning of its white space holds no line boundary, no white
    space at its ends and no two blanks in a row; and cleaning it once more
    changes nothing. *)
Theorem clean_up_whitespace_is_tidy text :
  tidy (clean_up_whitespace text)
  /\ clean_up_whitespace (clean_up_whitespace text) = clean_up_whitespace text.
Proof.
  assert (Htidy : tidy (clean_up_whitespace text))
    by apply join_is_tidy, chunks_are_tidy.
  split; [exact Htidy|].
  destruct Htidy as (Hbreaks & Hstrip & Hpair).
  destruct (clean_up_whitespace text) as [|c cleaned] eqn:Hclean; [reflexivity|].
  rewrite <- Hclean in *. unfold clean_up_whitespace at 1.
  rewrite splitlines_of_a_line; [|by rewrite Hclean | exact Hbreaks].
  cbn [map flat_map]. rewrite Hstrip, split_two_blanks_of_a_chunk by done.
  cbn [map app]. rewrite Hstrip. cbn [List.filter].
  rewrite Hclean at 1. reflexivity.
Qed.

(** ** Saving a record *)

Lemma _generate_job_id_ignores P (job : Dict) k v :
  k <> "title" -> k <> "company" -> k <> "url" ->
  _generate_job_id P (<[k := v]> job) = _generate_job_id P job.
Proof.
  intros Ht Hc Hu. unfold _generate_job_id, Py.get.
  by rewrite !lookup_insert_ne.
Qed.

(** A string of hexadecimal digits is a plain name. *)
Lemma hex_string_plain s : hex_string s -> plain_name s = true.
Proof.
  unfold hex_string, plain_name. intros Hhex. apply forallb_forall.
  intros c Hc. rewrite Forall_forall in Hhex.
  apply list_elem_of_In, Hhex in Hc. simpl in Hc.
  repeat (destruct Hc as [<-|Hc]; [reflexivity|]). destruct Hc.
Qed.

Lemma _generate_job_id_plain P job : plain_name (_generate_job_id P job) = true.
Proof.
  apply hex_string_plain. unfold _generate_job_id.
  apply hex_string_take, hex_string_fold.
Qed.

(** X14 (storage.py, save_job and get_job).  When [save_job] returns, it
    returns the identifier computed from title, company and url; the
    directory then holds under this name the record stamped with the
    identifier, which [get_job] gives back, whatever files stand outside
    the directory (the identifier is a plain name); a directory filed by
    identifier stays so; and saving the stamped record once more gives the
    same identifier and the same directory. *)
Theorem save_job_then_get_job P collection_upsert stray_file job w job_id w' :
  save_job P collection_upsert job w = (Ok job_id, w') ->
  job_id = _generate_job_id P job
  /\ get_job stray_file job_id w'
     = (Ok (Some (VDict (<["id" := VStr job_id]> job))), w')
  /\ jobs_dir w' = <[job_id := <["id" := VStr job_id]> job]> (jobs_dir w)
  /\ (filed_by_id (jobs_dir w) -> filed_by_id (jobs_dir w'))
  /\ (forall again w'',
        save_job P collection_upsert (<["id" := VStr job_id]> job) w' = (Ok again, w'') ->
        again = job_id /\ jobs_dir w'' = jobs_dir w').
Proof.
  assert (Hsave : forall record v v',
            save_job P collection_upsert record v = (Ok job_id, v') ->
            job_id = _generate_job_id P record
            /\ jobs_dir v' = <[job_id := <["id" := VStr job_id]> record]> (jobs_dir v)).
  { intros record v v'. unfold save_job. unfold bind at 1, write_job at 1.
    destruct (fs_write P v _) as [[]|]; [|discriminate].
    unfold bind at 1.
    destruct (collection_upsert _ _ _ _) as [[]|]; [|discriminate].
    unfold ret. intros [= <- <-]. by split. }
  intros Hrun. destruct (Hsave _ _ _ Hrun) as [Hid Hjobs].
  split; [exact Hid|]. split; [|split; [exact Hjobs|split]].
  - unfold get_job. rewrite Hid at 1. rewrite _generate_job_id_plain.
    by rewrite Hjobs, lookup_insert_eq.
  - intros Hfiled name record Hlookup. rewrite Hjobs in Hlookup.
    destruct (decide (job_id = name)) as [<-|Hne].
    + rewrite lookup_insert_eq in Hlookup. injection Hlookup as <-.
      apply lookup_insert_eq.
    + rewrite lookup_insert_ne in Hlookup by done. by apply Hfiled.
  - intros again w'' Hagain.
    assert (Hsame : _generate_job_id P (<["id" := VStr job_id]> job) = job_id)
      by (by rewrite _generate_job_id_ignores).
    unfold save_job in Hagain. rewrite Hsame in Hagain. fold (save_job P collection_upsert) in Hagain.
    revert Hagain. unfold bind at 1, write_job at 1.
    destruct (fs_write P w' _) as [[]|]; [|discriminate].
    unfold bind at 1.
    destruct (collection_upsert _ _ _ _) as [[]|]; [|discriminate].
    unfold ret. intros [= <- <-]. split; [reflexivity|]. simpl.
    rewrite insert_insert_eq. rewrite Hjobs. by rewrite insert_insert_eq.
Qed.

Lemma save_job_then_get_job_witness :
  let P := Samples.answering "" [] [] in
  let w' := snd (save_job P (fun _ _ _ _ => Ok tt) Samples.engineer_at_acme Samples.fresh) in
  save_job P (fun _ _ _ _ => Ok tt) Samples.engineer_at_acme Samples.fresh
  = (Ok "d346801e8a67", w')
  /\ get_job (fun _ _ => Ok None) "d346801e8a67" w'
     = (Ok (Some (VDict (<["id" := VStr "d346801e8a67"]> Samples.engineer_at_acme))), w').
Proof.
  cbv zeta.
  assert (Hrun : save_job (Samples.answering "" [] []) (fun _ _ _ _ => Ok tt)
                   Samples.engineer_at_acme Samples.fresh
                 = (Ok "d346801e8a67",
                    snd (save_job (Samples.answering "" [] []) (fun _ _ _ _ => Ok tt)
                           Samples.engineer_at_acme Samples.fresh)))
    by (apply run_eq; vm_compute; exact eq_refl).
  split; [exact Hrun|].
  by destruct (save_job_then_get_job _ _ (fun _ _ => Ok None) _ _ _ _ Hrun)
    as (_ & Hget & _).
Defined.

(** ** Refreshing the resume *)

(** X15 (main.py, refresh_resume).  [refresh_resume] never raises and
    leaves the records as they are.  Either the resume was parsed afresh:
    the cache holds the new profile, which has the entries skills,
    experience_years, experience_level and raw_text, and the success is
    reported; or the parsing raised: the cache is as it was and the last
    line printed reports the exception. *)
Theorem refresh_resume_outcome P w :
  exists w',
    refresh_resume P w = (Ok tt, w')
    /\ jobs_dir w' = jobs_dir w
    /\ ((exists profile,
           fst (parse_resume P true (snd (print "🔄 Refreshing resume data..." w)))
           = Ok profile
           /\ resume_cache w' = Some profile
           /\ has_all profile ["skills"; "experience_years"; "experience_level"; "raw_text"]
           /\ In "✅ Resume data refreshed" (console w'))
        \/ (exists e,
              fst (parse_resume P true (snd (print "🔄 Refreshing resume data..." w)))
              = Raise e
              /\ resume_cache w' = resume_cache w
              /\ last (console w') = Some ("❌ Error refreshing resume: " +:+ exn_msg e))).
Proof.
  unfold refresh_resume. unfold bind at 1. rewrite print_run_eq. cbn [snd].
  set (w0 := mkWorld _ _ _ _ _).
  unfold bind at 1, attempt, refresh_resume_try. unfold bind at 1.
  destruct (parse_resume P true w0) as [[profile|e] w1] eqn:Hparse; cbn [fst].
  - destruct (parse_resume_ok _ _ _ _ _ Hparse) as (Hcache & _ & Hjobs).
    pose proof (fetch_and_parse_resume_keys P w0 profile w1 Hparse) as Hkeys.
    unfold bind at 1. rewrite print_run_eq. unfold bind at 1, lift at 1.
    destruct (Py.len (Py.get profile "skills" (VList []))) as [skills|e].
    + unfold bind at 1. rewrite print_run_eq. unfold bind at 1. rewrite !print_run_eq.
      eexists. split; [reflexivity|]. split; [exact Hjobs|]. left. exists profile.
      split; [reflexivity|]. split; [exact Hcache|]. split; [exact Hkeys|].
      cbn [console]. rewrite !in_app_iff. left. left. left. right. by left.
    + rewrite print_run_eq. eexists. split; [reflexivity|]. split; [exact Hjobs|].
      left. exists profile.
      split; [reflexivity|]. split; [exact Hcache|]. split; [exact Hkeys|].
      cbn [console]. rewrite !in_app_iff. left. right. by left.
  - destruct (parse_resume_raises _ _ _ _ _ Hparse) as (Hcache & Hjobs & _).
    rewrite print_run_eq. eexists. split; [reflexivity|]. split; [exact Hjobs|].
    right. exists e. split; [reflexivity|]. split; [exact Hcache|].
    cbn [console]. apply last_snoc.
Qed.

(** ** The text of a document *)

Lemma paragraph_runs_without_paragraph elements :
  Forall no_paragraph elements -> paragraph_runs elements = Ok [].
Proof.
  induction 1 as [|element later (d & -> & Hnone) _ IH]; [reflexivity|].
  cbn [paragraph_runs PyAny.contains result_bind]. unfold Py.has_key.
  by rewrite Hnone.
Qed.

(** X16 (drive_client.py, get_resume_text; resume_parser.py,
    parse_resume).  Only paragraphs at the top level of a document are
    read: for a document whose elements are all of another kind (a resume
    laid out in a table), the text is empty, and a forced [parse_resume]
    raises "Failed to fetch resume from Google Docs" without calling the
    model or changing anything. *)
Theorem resume_outside_paragraphs_is_not_read P docs_get w doc body content :
  reads_documents docs_get P ->
  GOOGLE_DRIVE_RESUME_ID P <> "" ->
  docs_get w (GOOGLE_DRIVE_RESUME_ID P) = Ok (VDict doc) ->
  doc !! "body" = Some (VDict body) ->
  body !! "content" = Some (VList content) ->
  Forall no_paragraph content ->
  document_text (VDict doc) = Ok ""
  /\ parse_resume P true w
     = (Raise (Exn ValueError "Failed to fetch resume from Google Docs"), w).
Proof.
  intros Hreads Hid Hget Hbody Hcontent Hnone.
  assert (Htext : document_text (VDict doc) = Ok "").
  { unfold document_text. cbn [PyAny.get result_bind]. unfold Py.get at 1.
    rewrite Hbody. cbn [PyAny.get result_bind]. unfold Py.get at 1. rewrite Hcontent.
    cbn [PyAny.iterate result_bind]. by rewrite paragraph_runs_without_paragraph. }
  split; [exact Htext|].
  unfold parse_resume, fetch_and_parse_resume.
  destruct (String.eqb_spec (GOOGLE_DRIVE_RESUME_ID P) ""); [done|].
  unfold bind, get_resume_text. rewrite Hreads, Hget. cbn [result_bind].
  by rewrite Htext.
Qed.

Lemma resume_outside_paragraphs_is_not_read_witness :
  document_text Cases.resume_in_a_table = Ok ""
  /\ parse_resume (Cases.reading Cases.resume_in_a_table) true Samples.fresh
     = (Raise (Exn ValueError "Failed to fetch resume from Google Docs"), Samples.fresh).
Proof.
  refine (resume_outside_paragraphs_is_not_read
            (Cases.reading Cases.resume_in_a_table)
            (fun _ _ => Ok Cases.resume_in_a_table) Samples.fresh
            _ (dict_of [("content",
                         VList [VDict (dict_of [("sectionBreak", VDict ∅)]);
                                VDict (dict_of
                                  [("table",
                                    VDict (dict_of [("rows", VInt 1);
                                                    ("columns", VInt 1)]))])])])
            [VDict (dict_of [("sectionBreak", VDict ∅)]);
             VDict (dict_of
               [("table", VDict (dict_of [("rows", VInt 1); ("columns", VInt 1)]))])]
            _ _ eq_refl _ _ _).
  - intros w document_id. reflexivity.
  - discriminate.
  - vm_compute. exact eq_refl.
  - vm_compute. exact eq_refl.
  - repeat (apply List.Forall_cons; [eexists; split; [reflexivity|]; vm_compute; exact eq_refl|]).
    apply List.Forall_nil.
Defined.

(** The text of the paragraphs, in their order. *)
Example text_of_two_paragraphs :
  document_text Cases.resume_in_paragraphs = Ok "Python developer, five years".
Proof. vm_compute. exact eq_refl. Qed.

(** ** The body of a message *)

Lemma parts_body_of_other_parts b64_text html_data parts :
  Forall other_part parts ->
  forall body, parts_body b64_text html_data parts body = Ok body.
Proof.
  induction 1 as [|part later (d & part_body & -> & Hbody & Hplain & Hhtml) _ IH];
    intros body; [reflexivity|].
  cbn [parts_body PyAny.get result_bind]. rewrite Hbody.
  cbn [PyAny.get result_bind]. rewrite Hplain, Hhtml. cbn [andb]. apply IH.
Qed.

(** X17 (gmail_client.py, _extract_email_body).  Only the parts at the
    top level of a message are read: when each of them is a container or
    an attachment (neither text/plain nor text/html), the body is the empty
    text, whatever the parts nested in them hold. *)
Theorem _extract_email_body_reads_top_level_parts b64_text html_data message payload parts :
  message !! "payload" = Some (VDict payload) ->
  payload !! "parts" = Some (VList parts) ->
  Forall other_part parts ->
  _extract_email_body b64_text html_data (VDict message) = Ok "".
Proof.
  intros Hpayload Hparts Hother. unfold _extract_email_body.
  assert (Hget : Py.get message "payload" (VDict ∅) = VDict payload)
    by (unfold Py.get; by rewrite Hpayload).
  cbn [PyAny.get result_bind]. rewrite Hget.
  cbn [PyAny.contains result_bind]. unfold Py.has_key. rewrite Hparts.
  cbn [PyAny.item result_bind]. unfold item. rewrite Hparts.
  cbn [PyAny.iterate result_bind]. by apply parts_body_of_other_parts.
Qed.

Lemma _extract_email_body_reads_top_level_parts_witness :
  _extract_email_body (fun _ => Ok "Apply now") (fun _ => []) (VDict Cases.message_with_attachment)
  = Ok "".
Proof.
  eapply (_extract_email_body_reads_top_level_parts _ _ Cases.message_with_attachment).
  - vm_compute. exact eq_refl.
  - vm_compute. exact eq_refl.
  - repeat (apply List.Forall_cons;
            [eexists _, _; split; [reflexivity|]; split; [vm_compute; exact eq_refl|];
             split; vm_compute; exact eq_refl|]).
    apply List.Forall_nil.
Defined.

Example header_of_the_message :
  _get_header (VDict Cases.message_with_attachment) "Subject" = Ok (VStr "Backend Engineer")
  /\ _get_header (VDict Cases.message_with_attachment) "subject" = Ok (VStr "").
Proof. split; vm_compute; exact eq_refl. Qed.

(** ** Research for the records that score high *)

(** On a text, the research of a company that is any value is
    [research_company]. *)
Lemma research_company_of_text P company_name w :
  research_company_of P (VStr company_name) w = research_company P company_name w.
Proof.
  unfold research_company_of, research_company, research_company_n. cbn [fmt].
  unfold bind.
  destruct (_search_company P company_name 5 w) as [[hits|e] w1]; [|reflexivity].
  destruct (fetch_results P (take 5 hits) [] w1) as [[[|page pages]|e] w2];
    reflexivity.
Qed.

(** The research never raises and leaves the directory as it is. *)
Lemma research_company_of_total P company w :
  exists research w',
    research_company_of P company w = (Ok research, w') /\ jobs_dir w' = jobs_dir w.
Proof.
  unfold research_company_of, bind at 1.
  destruct (_search_company_total P (fmt P company) 5 w) as (hits & w1 & -> & _ & Hjobs1).
  unfold bind at 1.
  destruct (fetch_results_total P (firstn 5 hits) [] w1)
    as (fetched & w2 & -> & _ & Hjobs2).
  destruct fetched as [|first others]; [eexists _, _; split; [reflexivity | congruence]|].
  unfold bind.
  match goal with |- context [parse_structured P ?prompt w2] =>
    destruct (parse_structured_only_calls P prompt w2) as (answer & w3 & -> & Hcalls) end.
  apply only_calls_keeps in Hcalls as (Hjobs3 & _).
  destruct (Py.has_key answer "error"); eexists _, _; (split; [reflexivity | congruence]).
Qed.

Lemma research_and_save_effect P job company w r w' :
  research_and_save P job company w = (r, w') ->
  jobs_dir w' = jobs_dir w
  \/ exists job_id after,
       job !! "id" = Some job_id /\ researched job after
       /\ jobs_dir w' = <[fmt P job_id := after]> (jobs_dir w).
Proof.
  unfold research_and_save. unfold bind at 1.
  destruct (research_company_of_total P company w) as (research & w1 & -> & Hjobs).
  unfold bind at 1, lift at 1, item at 1. rewrite lookup_insert_ne by done.
  destruct (job !! "id") as [job_id|] eqn:Hid; [|intros [= <- <-]; by left].
  unfold bind at 1, write_job at 1.
  destruct (fs_write P w1 _) as [[]|e]; [|intros [= <- <-]; by left].
  rewrite print_run_eq. intros [= <- <-]. right.
  exists job_id, (<["company_research" := VDict research]> job).
  split; [reflexivity|]. split; [by exists research|]. simpl. by rewrite Hjobs.
Qed.

Lemma research_loop_effect P jobs :
  forall companies w r w',
    Forall (fun job : Dict => exists name, job !! "id" = Some (VStr name)) jobs ->
    research_loop P jobs companies w = (r, w') ->
    forall name,
      jobs_dir w' !! name = jobs_dir w !! name
      \/ exists job after,
           In job jobs /\ job !! "id" = Some (VStr name)
           /\ Py.truthy (company_of job) = true
           /\ researched job after /\ jobs_dir w' !! name = Some after.
Proof.
  induction jobs as [|job later IH]; intros companies w r w' Hids Hrun name.
  - injection Hrun as <- <-. by left.
  - apply Forall_cons in Hids as [[job_name Hid] Hids].
    cbn [research_loop] in Hrun. fold (company_of job) in Hrun.
    assert (Hlater : forall companies' w1,
              jobs_dir w1 = jobs_dir w ->
              research_loop P later companies' w1 = (r, w') ->
              jobs_dir w' !! name = jobs_dir w !! name
              \/ exists job' after,
                   In job' (job :: later) /\ job' !! "id" = Some (VStr name)
                   /\ Py.truthy (company_of job') = true
                   /\ researched job' after /\ jobs_dir w' !! name = Some after).
    { intros companies' w1 Hjobs Hrest.
      destruct (IH _ _ _ _ Hids Hrest name) as [Hsame|(job' & after & Hin & Hmore)].
      - left. by rewrite Hsame, Hjobs.
      - right. exists job', after. split; [by right | exact Hmore]. }
    destruct (Py.truthy (company_of job)) eqn:Htruthy; cbn [negb] in Hrun;
      [|by apply (Hlater companies w)].
    destruct (PyAny.hashable (company_of job)); cbn [negb] in Hrun;
      [|injection Hrun as <- <-; by left].
    destruct (existsb (PyAny.same_key (company_of job)) companies);
      [by apply (Hlater companies w)|].
    unfold bind at 1, attempt in Hrun.
    destruct (research_and_save P job (company_of job) w) as [outcome w1] eqn:Hsave.
    assert (Hrest : exists w2, jobs_dir w2 = jobs_dir w1
                               /\ research_loop P later (companies ++ [company_of job]) w2
                                  = (r, w')).
    { destruct outcome as [[]|e]; [exists w1; split; [reflexivity | exact Hrun]|].
      unfold bind at 1 in Hrun. rewrite print_run_eq in Hrun.
      eexists. split; [|exact Hrun]. reflexivity. }
    destruct Hrest as (w2 & Hjobs2 & Hrest).
    destruct (research_and_save_effect _ _ _ _ _ _ Hsave)
      as [Hjobs1|(job_id & after & Hid' & Hafter & Hjobs1)].
    + apply (Hlater (companies ++ [company_of job])%list w2); [congruence | exact Hrest].
    + rewrite Hid in Hid'. injection Hid' as <-. simpl in Hjobs1.
      destruct (IH _ _ _ _ Hids Hrest name) as [Hsame|(job' & after' & Hin & Hmore)].
      * rewrite Hsame, Hjobs2, Hjobs1. destruct (decide (job_name = name)) as [<-|Hne].
        -- right. exists job, after. rewrite lookup_insert_eq. by repeat split; try left.
        -- left. by rewrite lookup_insert_ne.
      * right. exists job', after'. split; [by right | exact Hmore].
Qed.

Lemma scoring_at_least_kept min_score jobs kept :
  scoring_at_least min_score jobs = Ok kept ->
  forall job, In job kept ->
    In job jobs /\ Py.ge_int (score_key job) min_score = Ok true.
Proof.
  revert kept. induction jobs as [|first rest IH]; intros kept Hrun job Hin.
  - injection Hrun as <-. destruct Hin.
  - cbn [scoring_at_least] in Hrun. fold (score_key first) in Hrun.
    destruct (Py.ge_int (score_key first) min_score) as [keep|] eqn:Hkeep; [|discriminate].
    cbn [result_bind] in Hrun.
    destruct (scoring_at_least min_score rest) as [kept'|]; [|discriminate].
    cbn [result_bind] in Hrun. injection Hrun as <-.
    destruct keep.
    + destruct Hin as [<-|Hin]; [split; [by left | exact Hkeep]|].
      destruct (IH _ eq_refl job Hin). split; [by right | done].
    + destruct (IH _ eq_refl job Hin). split; [by right | done].
Qed.

Lemma researched_keeps_id before after :
  researched before after -> after !! "id" = before !! "id".
Proof. intros [research ->]. by rewrite lookup_insert_ne. Qed.

(** X18 (main.py, research_high_scoring).  On a directory filed by
    identifier, whatever [research_high_scoring] returns or raises, every
    record is afterwards either as it was, or it is a record whose score
    reaches [MIN_SCORE_FOR_RESEARCH] and whose company is not empty, and it
    has received a [company_research] and is otherwise as it was; no record
    is added or removed and every record is still filed under its
    identifier. *)
Theorem research_high_scoring_effect P T w r w' :
  filed_by_id (jobs_dir w) ->
  research_high_scoring P T w = (r, w') ->
  filed_by_id (jobs_dir w')
  /\ forall name,
       match jobs_dir w !! name with
       | Some job =>
           jobs_dir w' !! name = Some job
           \/ (Py.ge_int (score_key job) (MIN_SCORE_FOR_RESEARCH T) = Ok true
               /\ Py.truthy (company_of job) = true
               /\ exists after, researched job after /\ jobs_dir w' !! name = Some after)
       | None => jobs_dir w' !! name = None
       end.
Proof.
  intros Hfiled Hrun.
  assert (Hsame : jobs_dir w' = jobs_dir w ->
            filed_by_id (jobs_dir w')
            /\ forall name,
                 match jobs_dir w !! name with
                 | Some job =>
                     jobs_dir w' !! name = Some job
                     \/ (Py.ge_int (score_key job) (MIN_SCORE_FOR_RESEARCH T) = Ok true
                         /\ Py.truthy (company_of job) = true
                         /\ exists after,
                              researched job after /\ jobs_dir w' !! name = Some after)
                 | None => jobs_dir w' !! name = None
                 end).
  { intros ->. split; [exact Hfiled|]. intros name.
    destruct (jobs_dir w !! name); [by left | reflexivity]. }
  revert Hrun. unfold research_high_scoring. unfold bind at 1.
  unfold get_high_scoring_jobs, bind at 1, get_all_jobs, lift. fold (records w).
  destruct (scoring_at_least (MIN_SCORE_FOR_RESEARCH T) (records w)) as [jobs|e] eqn:Hhigh;
    [|intros [= <- <-]; by apply Hsame].
  assert (Hfound : forall job, In job jobs ->
            Py.ge_int (score_key job) (MIN_SCORE_FOR_RESEARCH T) = Ok true
            /\ exists name, jobs_dir w !! name = Some job /\ job !! "id" = Some (VStr name)).
  { intros job Hin. destruct (scoring_at_least_kept _ _ _ Hhigh job Hin) as [Hrec Hge].
    split; [exact Hge|].
    unfold records in Hrec. apply in_map_iff in Hrec as ([name job'] & <- & Hrec).
    apply list_elem_of_In, elem_of_map_to_list in Hrec.
    exists name. split; [exact Hrec | by apply Hfiled]. }
  assert (Hids : Forall (fun job : Dict => exists name, job !! "id" = Some (VStr name)) jobs).
  { apply Forall_forall. intros job Hin. apply list_elem_of_In in Hin.
    destruct (Hfound job Hin) as (_ & name & _ & Hid). by exists name. }
  destruct jobs as [|first others] eqn:Hlist;
    [rewrite print_run_eq; intros [= <- <-]; by apply Hsame|].
  rewrite <- Hlist in *. clear Hlist.
  unfold bind at 1. rewrite print_run_eq. unfold bind at 1.
  match goal with |- context [research_loop P jobs [] ?w1] =>
    destruct (research_loop P jobs [] w1) as [outcome w2] eqn:Hloop;
    pose proof (research_loop_effect P jobs [] w1 outcome w2 Hids Hloop) as Hnames end.
  simpl in Hnames.
  assert (Heach : forall name,
            match jobs_dir w !! name with
            | Some job =>
                jobs_dir w2 !! name = Some job
                \/ (Py.ge_int (score_key job) (MIN_SCORE_FOR_RESEARCH T) = Ok true
                    /\ Py.truthy (company_of job) = true
                    /\ exists after, researched job after /\ jobs_dir w2 !! name = Some after)
            | None => jobs_dir w2 !! name = None
            end).
  { intros name.
    destruct (Hnames name) as [->|(job & after & Hin & Hid & Htruthy & Hafter & Hlookup)].
    - destruct (jobs_dir w !! name); [by left | reflexivity].
    - destruct (Hfound job Hin) as (Hge & name' & Hstored & Hid').
      rewrite Hid in Hid'. injection Hid' as <-. rewrite Hstored.
      right. split; [exact Hge|]. split; [exact Htruthy|]. by exists after. }
  assert (Hdone : jobs_dir w' = jobs_dir w2 ->
            filed_by_id (jobs_dir w')
            /\ forall name,
                 match jobs_dir w !! name with
                 | Some job =>
                     jobs_dir w' !! name = Some job
                     \/ (Py.ge_int (score_key job) (MIN_SCORE_FOR_RESEARCH T) = Ok true
                         /\ Py.truthy (company_of job) = true
                         /\ exists after,
                              researched job after /\ jobs_dir w' !! name = Some after)
                 | None => jobs_dir w' !! name = None
                 end).
  { intros ->. split; [|exact Heach].
    intros name job Hlookup. specialize (Heach name).
    destruct (jobs_dir w !! name) as [before|] eqn:Hbefore; [|congruence].
    destruct Heach as [Hkept|(_ & _ & after & Hafter & Hnow)].
    - rewrite Hkept in Hlookup. injection Hlookup as <-. by apply Hfiled.
    - rewrite Hnow in Hlookup. injection Hlookup as <-.
      rewrite (researched_keeps_id _ _ Hafter). by apply Hfiled. }
  destruct outcome as [companies|e]; [rewrite print_run_eq|];
    intros [= <- <-]; by apply Hdone.
Qed.

Lemma shortlist_is_filed : filed_by_id (jobs_dir Cases.shortlist).
Proof.
  intros name job Hlookup. simpl in Hlookup.
  repeat (apply lookup_insert_Some in Hlookup as [[<- <-]|[_ Hlookup]];
          [reflexivity|]).
  rewrite lookup_empty in Hlookup. discriminate Hlookup.
Qed.

Lemma research_high_scoring_effect_witness :
  filed_by_id (jobs_dir Cases.shortlist)
  /\ filed_by_id
       (jobs_dir (snd (research_high_scoring (Samples.answering Samples.empty_object [] [])
                         Cases.thresholds Cases.shortlist))).
Proof.
  split; [exact shortlist_is_filed|].
  exact (proj1 (research_high_scoring_effect
                  (Samples.answering Samples.empty_object [] []) Cases.thresholds
                  Cases.shortlist _ _ shortlist_is_filed (surjective_pairing _))).
Defined.

(** Of the two records of Acme, the one that is read first gets the
    profile; the other one is left as it was. *)
Example one_profile_for_two_postings :
  jobs_dir (snd (research_high_scoring (Samples.answering Samples.empty_object [] [])
                   Cases.thresholds Cases.shortlist)) !! "0b0000000002"
  = Some (Cases.posting_of "0b0000000002" "Acme" 85).
Proof. vm_compute. exact eq_refl. Qed.

Lemma same_key_refl company :
  PyAny.hashable company = true -> PyAny.same_key company company = true.
Proof.
  destruct company as [|b|n|f|s|l|d]; intros Hhash; try discriminate Hhash.
  - reflexivity.
  - destruct b; reflexivity.
  - unfold PyAny.same_key, Py.num_compare. by rewrite Z.compare_refl.
  - destruct f as [s|s| |s m e]; [by destruct s | by destruct s | reflexivity |].
    assert (Hsame : SFcompare (S754_finite s m e) (S754_finite s m e) = Some Eq).
    { unfold SFcompare. rewrite Z.compare_refl.
      change (Pos.compare_cont Eq m m) with (m ?= m)%positive.
      rewrite Pos.compare_refl. by destruct s. }
    unfold PyAny.same_key, Py.num_compare. by rewrite Hsame.
  - unfold PyAny.same_key. apply String.eqb_refl.
Qed.

(** X19 (main.py, research_high_scoring).  When the loop of
    [research_high_scoring] ends, the set of the researched companies has
    grown by the companies of the records that are not empty, each entered
    once: a company enters the set only when no equal company is in it yet,
    it is the company of one of the records, and afterwards the company of
    every record that has one is in the set, whether its research succeeded
    or failed. *)
Theorem research_loop_once_per_company P jobs :
  forall companies w final w',
    research_loop P jobs companies w = (Ok final, w') ->
    exists added,
      final = (companies ++ added)%list
      /\ (forall earlier company later,
            added = (earlier ++ company :: later)%list ->
            existsb (PyAny.same_key company) (companies ++ earlier) = false
            /\ Py.truthy company = true
            /\ exists job, In job jobs /\ company_of job = company)
      /\ (forall job,
            In job jobs -> Py.truthy (company_of job) = true ->
            existsb (PyAny.same_key (company_of job)) final = true).
Proof.
  induction jobs as [|job rest IH]; intros companies w final w' Hrun.
  - injection Hrun as <- <-. exists []. split; [by rewrite app_nil_r|].
    split; [|intros job []].
    intros [|first earlier] company later Hsplit; discriminate Hsplit.
  - cbn [research_loop] in Hrun. fold (company_of job) in Hrun.
    destruct (Py.truthy (company_of job)) eqn:Htruthy; cbn [negb] in Hrun.
    2:{ destruct (IH _ _ _ _ Hrun) as (added & Hfinal & Honce & Hall).
        exists added. split; [exact Hfinal|]. split.
        - intros earlier company later Hsplit.
          destruct (Honce _ _ _ Hsplit) as (Hnew & Hcompany & job' & Hin & Hof).
          split; [exact Hnew|]. split; [exact Hcompany|].
          exists job'. split; [by right | exact Hof].
        - intros job' [<-|Hin] Hcompany; [congruence | by apply Hall]. }
    destruct (PyAny.hashable (company_of job)) eqn:Hhash; cbn [negb] in Hrun;
      [|discriminate Hrun].
    destruct (existsb (PyAny.same_key (company_of job)) companies) eqn:Hseen.
    + destruct (IH _ _ _ _ Hrun) as (added & Hfinal & Honce & Hall).
      exists added. split; [exact Hfinal|]. split.
      * intros earlier company later Hsplit.
        destruct (Honce _ _ _ Hsplit) as (Hnew & Hcompany & job' & Hin & Hof).
        split; [exact Hnew|]. split; [exact Hcompany|].
        exists job'. split; [by right | exact Hof].
      * intros job' [<-|Hin] Hcompany; [|by apply Hall].
        rewrite Hfinal, existsb_app, Hseen. reflexivity.
    + assert (Hrest : exists w2,
                research_loop P rest (companies ++ [company_of job]) w2 = (Ok final, w')).
      { revert Hrun. unfold bind at 1, attempt.
        destruct (research_and_save P job (company_of job) w) as [[[]|e] w1];
          [by exists w1|].
        unfold bind at 1. rewrite print_run_eq. by eexists. }
      destruct Hrest as (w2 & Hrest).
      destruct (IH _ _ _ _ Hrest) as (added & Hfinal & Honce & Hall).
      exists (company_of job :: added).
      split; [by rewrite Hfinal, <- app_assoc|]. split.
      * intros [|first earlier] company later Hsplit; injection Hsplit as <- Hsplit.
        -- rewrite app_nil_r. split; [exact Hseen|]. split; [exact Htruthy|].
           exists job. split; [by left | reflexivity].
        -- destruct (Honce _ _ _ Hsplit) as (Hnew & Hcompany & job' & Hin & Hof).
           split; [by rewrite <- app_assoc in Hnew|]. split; [exact Hcompany|].
           exists job'. split; [by right | exact Hof].
      * intros job' [<-|Hin] Hcompany; [|by apply Hall].
        rewrite Hfinal, !existsb_app. cbn [existsb].
        rewrite (same_key_refl _ Hhash). by rewrite !orb_true_r.
Qed.

Lemma research_loop_once_per_company_witness :
  let P := Samples.answering Samples.empty_object [] [] in
  let jobs := [Cases.posting_of "0b0000000001" "Acme" 90;
               Cases.posting_of "0b0000000002" "Acme" 85;
               Cases.posting_of "0b0000000003" "Initech" 75] in
  fst (research_loop P jobs [] Samples.fresh) = Ok [VStr "Acme"; VStr "Initech"]
  /\ forall job,
       In job jobs -> Py.truthy (company_of job) = true ->
       existsb (PyAny.same_key (company_of job)) [VStr "Acme"; VStr "Initech"] = true.
Proof.
  intros P jobs.
  assert (Hrun : research_loop P jobs [] Samples.fresh
                 = (Ok [VStr "Acme"; VStr "Initech"],
                    snd (research_loop P jobs [] Samples.fresh))).
  { apply run_eq. vm_compute. exact eq_refl. }
  split; [by rewrite Hrun|].
  destruct (research_loop_once_per_company P jobs [] Samples.fresh _ _ Hrun)
    as (added & _ & _ & Hall).
  exact Hall.
Defined.

(** ** Cover letters and resume highlights *)

(** The prompts of the generator are the f-strings of the source: on the
    sample inputs they have the MD5 digests of the texts that the source
    builds. *)
Example cover_letter_prompt_digest :
  map MD5.hexdigest
    (creative_calls
       (snd (generate_cover_letter (Samples.answering "" [] []) (Letters.writing "")
               Letters.seasoned_resume (VDict Letters.researched_posting)
               (Py.get Letters.researched_posting "company_research" VNone)
               (Letters.desk_of Samples.fresh))))
  = ["bd516cdc8de4bafa2942eecae7e7ef78"].
Proof. vm_compute. reflexivity. Qed.

Example cover_letter_prompt_digest_plain :
  map MD5.hexdigest
    (creative_calls
       (snd (generate_cover_letter (Samples.answering "" [] []) (Letters.writing "")
               Samples.python_resume (VDict Letters.plain_posting) VNone
               (Letters.desk_of Samples.fresh))))
  = ["fdce01e9ec22ddb724f62c8c76614249"].
Proof. vm_compute. reflexivity. Qed.

Example highlights_prompt_digest :
  map MD5.hexdigest
    (creative_calls
       (snd (generate_resume_highlights (Samples.answering "" [] []) (Letters.writing "")
               Letters.seasoned_resume (VDict Letters.researched_posting)
               (Letters.desk_of Samples.fresh))))
  = ["0dbde8f9c2fa826f89dd59f97ba2dc27"].
Proof. vm_compute. reflexivity. Qed.

Example highlights_prompt_digest_plain :
  map MD5.hexdigest
    (creative_calls
       (snd (generate_resume_highlights (Samples.answering "" [] []) (Letters.writing "")
               Samples.python_resume (VDict Letters.plain_posting)
               (Letters.desk_of Samples.fresh))))
  = ["6341179cba60ece86ae2a17f3f6ea54e"].
Proof. vm_compute. reflexivity. Qed.

Lemma strip_strip s : PyStr.strip (PyStr.strip s) = PyStr.strip s.
Proof. apply strip_fixed. split; [apply lstrip_of_strip | apply rstrip_of_strip]. Qed.

Lemma gbind_glift {A B} (r : result A) (k : A -> G B) d :
  gbind (glift r) k d
  = match r with
    | Ok a => k a d
    | Raise e => (Raise e, d)
    end.
Proof. by destruct r. Qed.

Lemma only_creative_calls_refl n d : only_creative_calls n d d.
Proof.
  repeat split. exists []. split; [by rewrite app_nil_r | simpl; lia].
Qed.

Lemma only_creative_calls_trans n m d d1 d2 :
  only_creative_calls n d d1 -> only_creative_calls m d1 d2 ->
  only_creative_calls (n + m) d d2.
Proof.
  intros (Hw & Hc & Hh & first & Hfirst & Hn) (Hw' & Hc' & Hh' & second & Hsecond & Hm).
  split; [congruence|]. split; [congruence|]. split; [congruence|].
  exists (first ++ second)%list. split.
  - by rewrite Hsecond, Hfirst, <- app_assoc.
  - rewrite length_app. lia.
Qed.

Lemma only_creative_calls_le n m d d' :
  (n <= m)%nat -> only_creative_calls n d d' -> only_creative_calls m d d'.
Proof.
  intros Hle (Hw & Hc & Hh & prompts & Hcalls & Hn).
  repeat split; try done. exists prompts. split; [done | lia].
Qed.

Lemma generate_text_effect invoke prompt d r d' :
  generate_text invoke prompt d = (r, d') -> only_creative_calls 1 d d'.
Proof.
  unfold generate_text. intros [= <- <-]. repeat split.
  exists [prompt]. split; [reflexivity | simpl; lia].
Qed.

Lemma generate_cover_letter_effect P invoke resume_data job company_research d r d' :
  generate_cover_letter P invoke resume_data job company_research d = (r, d') ->
  only_creative_calls 1 d d'
  /\ forall letter, r = Ok letter -> PyStr.strip letter = letter.
Proof.
  unfold generate_cover_letter.
  repeat (cbv beta zeta; rewrite gbind_glift;
          try match goal with
              | |- match ?x with Ok _ => _ | Raise _ => _ end = _ -> _ =>
                  destruct x;
                  [|intros [= <- <-]; split; [apply only_creative_calls_refl | discriminate]]
              end).
  unfold gbind at 1.
  match goal with |- context [generate_text invoke ?prompt d] =>
    destruct (generate_text invoke prompt d) as [[answer|e] d1] eqn:Hcall;
    apply generate_text_effect in Hcall end.
  - unfold gret. intros [= <- <-]. split; [exact Hcall|].
    intros letter [= <-]. apply strip_strip.
  - intros [= <- <-]. split; [exact Hcall | discriminate].
Qed.

Lemma generate_resume_highlights_effect P invoke resume_data job d r d' :
  generate_resume_highlights P invoke resume_data job d = (r, d') ->
  only_creative_calls 1 d d'
  /\ forall text, r = Ok text -> PyStr.strip text = text.
Proof.
  unfold generate_resume_highlights.
  repeat (cbv beta zeta; rewrite gbind_glift;
          try match goal with
              | |- match ?x with Ok _ => _ | Raise _ => _ end = _ -> _ =>
                  destruct x;
                  [|intros [= <- <-]; split; [apply only_creative_calls_refl | discriminate]]
              end).
  unfold gbind at 1.
  match goal with |- context [generate_text invoke ?prompt d] =>
    destruct (generate_text invoke prompt d) as [[answer|e] d1] eqn:Hcall;
    apply generate_text_effect in Hcall end.
  - unfold gret. intros [= <- <-]. split; [exact Hcall|].
    intros text [= <-]. apply strip_strip.
  - intros [= <- <-]. split; [exact Hcall | discriminate].
Qed.

Lemma save_cover_letter_effect P make_dir open_text path_str job_id cover_letter d r d' :
  save_cover_letter P make_dir open_text path_str job_id cover_letter d = (r, d') ->
  (d' = d /\ exists e, r = Raise e)
  \/ (r = Ok (cover_letter_path P path_str job_id)
      /\ d' = mkDesk (world d)
                (<[cover_letter_path P path_str job_id := cover_letter]> (cover_letters d))
                (resume_highlights d) (creative_calls d)).
Proof.
  unfold save_cover_letter, gbind, gret.
  destruct (make_dir d "cover_letters") as [[]|e]; [|intros [= <- <-]; left; eauto].
  destruct (open_text d _) as [[]|e]; intros [= <- <-]; [right | left]; eauto.
Qed.

Lemma save_resume_highlights_effect P make_dir open_text path_str job_id highlights d r d' :
  save_resume_highlights P make_dir open_text path_str job_id highlights d = (r, d') ->
  (d' = d /\ exists e, r = Raise e)
  \/ (r = Ok (highlights_path P path_str job_id)
      /\ d' = mkDesk (world d) (cover_letters d)
                (<[highlights_path P path_str job_id := highlights]> (resume_highlights d))
                (creative_calls d)).
Proof.
  unfold save_resume_highlights, gbind, gret.
  destruct (make_dir d "resume_highlights") as [[]|e]; [|intros [= <- <-]; left; eauto].
  destruct (open_text d _) as [[]|e]; intros [= <- <-]; [right | left]; eauto.
Qed.

Lemma on_world_prints a b c d :
  on_world (print a ;;; print b ;;; print c) d
  = (Ok tt,
     mkDesk (mkWorld (jobs_dir (world d)) (resume_cache (world d)) (llm_calls (world d))
                     (read_marks (world d)) (((console (world d) ++ [a]) ++ [b]) ++ [c]))
            (cover_letters d) (resume_highlights d) (creative_calls d)).
Proof. reflexivity. Qed.

Lemma on_world_print line d :
  on_world (print line) d
  = (Ok tt,
     mkDesk (mkWorld (jobs_dir (world d)) (resume_cache (world d)) (llm_calls (world d))
                     (read_marks (world d)) (console (world d) ++ [line]))
            (cover_letters d) (resume_highlights d) (creative_calls d)).
Proof. reflexivity. Qed.

Lemma generate_for_effect P invoke make_dir open_text path_str resume_data job d r d' :
  generate_for P invoke make_dir open_text path_str resume_data job d = (r, d') ->
  jobs_dir (world d') = jobs_dir (world d)
  /\ resume_cache (world d') = resume_cache (world d)
  /\ llm_calls (world d') = llm_calls (world d)
  /\ (exists prompts,
        creative_calls d' = (creative_calls d ++ prompts)%list
        /\ (length prompts <= 2)%nat)
  /\ ((cover_letters d' = cover_letters d
       /\ resume_highlights d' = resume_highlights d
       /\ exists e, r = Raise e)
      \/ exists job_id letter,
           PyAny.item job "id" = Ok job_id
           /\ PyStr.strip letter = letter
           /\ cover_letters d'
              = <[cover_letter_path P path_str job_id := letter]> (cover_letters d)
           /\ ((resume_highlights d' = resume_highlights d /\ exists e, r = Raise e)
               \/ exists text,
                    PyStr.strip text = text
                    /\ resume_highlights d'
                       = <[highlights_path P path_str job_id := text]> (resume_highlights d)
                    /\ r = Ok tt)).
Proof.
  revert r d'.
  pose (Q := fun (r : result unit) (d' : Desk) =>
    jobs_dir (world d') = jobs_dir (world d)
    /\ resume_cache (world d') = resume_cache (world d)
    /\ llm_calls (world d') = llm_calls (world d)
    /\ (exists prompts,
          creative_calls d' = (creative_calls d ++ prompts)%list
          /\ (length prompts <= 2)%nat)
    /\ ((cover_letters d' = cover_letters d
         /\ resume_highlights d' = resume_highlights d
         /\ exists e, r = Raise e)
        \/ exists job_id letter,
             PyAny.item job "id" = Ok job_id
             /\ PyStr.strip letter = letter
             /\ cover_letters d'
                = <[cover_letter_path P path_str job_id := letter]> (cover_letters d)
             /\ ((resume_highlights d' = resume_highlights d /\ exists e, r = Raise e)
                 \/ exists text,
                      PyStr.strip text = text
                      /\ resume_highlights d'
                         = <[highlights_path P path_str job_id := text]>
                             (resume_highlights d)
                      /\ r = Ok tt))).
  change (forall r d',
            generate_for P invoke make_dir open_text path_str resume_data job d = (r, d')
            -> Q r d').
  assert (Hnone : forall e d1 n,
            only_creative_calls n d d1 -> (n <= 2)%nat -> Q (Raise e) d1).
  { intros e d1 n (Hw & Hc & Hh & prompts & Hp & Hn) Hle. unfold Q. rewrite Hw.
    repeat split.
    - exists prompts. split; [exact Hp | lia].
    - left. repeat split; try done. by exists e. }
  assert (Hletter : forall e d1 job_id letter,
            PyAny.item job "id" = Ok job_id ->
            PyStr.strip letter = letter ->
            only_creative_calls 2
              (mkDesk (world d)
                 (<[cover_letter_path P path_str job_id := letter]> (cover_letters d))
                 (resume_highlights d) (creative_calls d)) d1 ->
            Q (Raise e) d1).
  { intros e d1 job_id letter Hid Hstrip (Hw & Hc & Hh & prompts & Hp & Hn).
    cbn [world cover_letters resume_highlights creative_calls] in Hw, Hc, Hh, Hp.
    unfold Q. rewrite Hw. repeat split.
    - exists prompts. split; [exact Hp | exact Hn].
    - right. exists job_id, letter. split; [exact Hid|]. split; [exact Hstrip|].
      split; [exact Hc|]. left. split; [exact Hh | by exists e]. }
  assert (Hboth : forall d1 w1 job_id letter text,
            PyAny.item job "id" = Ok job_id ->
            PyStr.strip letter = letter ->
            PyStr.strip text = text ->
            only_creative_calls 2
              (mkDesk (world d)
                 (<[cover_letter_path P path_str job_id := letter]> (cover_letters d))
                 (resume_highlights d) (creative_calls d)) d1 ->
            jobs_dir w1 = jobs_dir (world d1) ->
            resume_cache w1 = resume_cache (world d1) ->
            llm_calls w1 = llm_calls (world d1) ->
            Q (Ok tt)
              (mkDesk w1 (cover_letters d1)
                 (<[highlights_path P path_str job_id := text]> (resume_highlights d1))
                 (creative_calls d1))).
  { intros d1 w1 job_id letter text Hid Hstrip Hstrip'
      (Hw & Hc & Hh & prompts & Hp & Hn) Hj Hr Hl.
    cbn [world cover_letters resume_highlights creative_calls] in Hw, Hc, Hh, Hp.
    unfold Q. cbn [world cover_letters resume_highlights creative_calls].
    rewrite Hj, Hr, Hl, Hw. repeat split.
    - exists prompts. split; [exact Hp | exact Hn].
    - right. exists job_id, letter. split; [exact Hid|]. split; [exact Hstrip|].
      split; [exact Hc|]. right. exists text. split; [exact Hstrip'|].
      split; [by rewrite Hh | reflexivity]. }
  clearbody Q. intros r d'.
  unfold generate_for. rewrite gbind_glift.
  destruct (PyAny.get job "company_research" VNone) as [company_research|e0].
  2:{ intros [= <- <-]. apply (Hnone _ _ 0%nat); [apply only_creative_calls_refl | lia]. }
  unfold gbind at 1.
  destruct (generate_cover_letter P invoke resume_data job company_research d)
    as [[letter|e] d1] eqn:Hrun;
    apply generate_cover_letter_effect in Hrun as [Hcalls1 Hstrip1].
  2:{ intros [= <- <-]. apply (Hnone _ _ 1%nat); [exact Hcalls1 | lia]. }
  specialize (Hstrip1 _ eq_refl).
  rewrite gbind_glift.
  destruct (PyAny.item job "id") as [job_id|e] eqn:Hid.
  2:{ intros [= <- <-]. apply (Hnone _ _ 1%nat); [exact Hcalls1 | lia]. }
  unfold gbind at 1.
  destruct (save_cover_letter P make_dir open_text path_str job_id letter d1)
    as [saved d2] eqn:Hsave.
  apply save_cover_letter_effect in Hsave as [[-> [e ->]]|[-> ->]].
  { intros [= <- <-]. apply (Hnone _ _ 1%nat); [exact Hcalls1 | lia]. }
  assert (Hsaved : only_creative_calls 1
            (mkDesk (world d)
               (<[cover_letter_path P path_str job_id := letter]> (cover_letters d))
               (resume_highlights d) (creative_calls d))
            (mkDesk (world d1)
               (<[cover_letter_path P path_str job_id := letter]> (cover_letters d1))
               (resume_highlights d1) (creative_calls d1))).
  { destruct Hcalls1 as (Hw & Hc & Hh & prompts & Hp & Hn).
    repeat split; cbn [world cover_letters resume_highlights creative_calls];
      try congruence.
    exists prompts. by split. }
  unfold gbind at 1.
  match goal with |- context [generate_resume_highlights P invoke resume_data job ?d2] =>
    destruct (generate_resume_highlights P invoke resume_data job d2)
      as [[text|e] d3] eqn:Hrun;
    apply generate_resume_highlights_effect in Hrun as [Hcalls3 Hstrip3];
    pose proof (only_creative_calls_trans _ _ _ _ _ Hsaved Hcalls3) as Hcalls end.
  2:{ intros [= <- <-]. by apply (Hletter _ _ job_id letter). }
  specialize (Hstrip3 _ eq_refl).
  rewrite gbind_glift. unfold gbind at 1.
  destruct (save_resume_highlights P make_dir open_text path_str job_id text d3)
    as [saved d4] eqn:Hsave.
  apply save_resume_highlights_effect in Hsave as [[-> [e ->]]|[-> ->]].
  { intros [= <- <-]. by apply (Hletter _ _ job_id letter). }
  assert (Hdict : exists record, job = VDict record).
  { destruct job; try discriminate Hid. by eexists. }
  destruct Hdict as [record ->]. cbn [PyAny.get]. rewrite !gbind_glift.
  rewrite on_world_prints. intros [= <- <-].
  cbn [world cover_letters resume_highlights creative_calls].
  by apply (Hboth d3 _ job_id letter text).
Qed.

Lemma materials_loop_effect P invoke make_dir open_text path_str resume_data jobs :
  forall d r d',
    materials_loop P invoke make_dir open_text path_str resume_data jobs d = (r, d') ->
    jobs_dir (world d') = jobs_dir (world d)
    /\ resume_cache (world d') = resume_cache (world d)
    /\ llm_calls (world d') = llm_calls (world d)
    /\ (exists prompts,
          creative_calls d' = (creative_calls d ++ prompts)%list
          /\ (length prompts <= 2 * length jobs)%nat)
    /\ (forall path,
          written_for (cover_letter_path P path_str) jobs (fun _ => True)
            (cover_letters d) (cover_letters d') path)
    /\ (forall path,
          written_for (highlights_path P path_str) jobs
            (fun job_id => is_Some (cover_letters d' !! cover_letter_path P path_str job_id))
            (resume_highlights d) (resume_highlights d') path)
    /\ (Forall (fun job => exists record, job = VDict record) jobs -> r = Ok tt).
Proof.
  induction jobs as [|job later IH]; intros d r d' Hrun.
  - injection Hrun as <- <-. repeat split; try (intros path; by left).
    exists []. split; [by rewrite app_nil_r | simpl; lia].
  - cbn [materials_loop] in Hrun. unfold gbind at 1, gattempt in Hrun.
    destruct (generate_for P invoke make_dir open_text path_str resume_data job d)
      as [outcome d1] eqn:Hjob.
    apply generate_for_effect in Hjob as (Hj1 & Hr1 & Hl1 & (p1 & Hp1 & Hn1) & Hfiles).
    assert (Hcover1 : forall path,
              written_for (cover_letter_path P path_str) (job :: later) (fun _ => True)
                (cover_letters d) (cover_letters d1) path).
    { intros path.
      destruct Hfiles as [(Hc1 & _)|(job_id & letter & Hid & Hstrip & Hc1 & _)].
      - left. by rewrite Hc1.
      - rewrite Hc1.
        destruct (decide (cover_letter_path P path_str job_id = path)) as [<-|Hne].
        + right. exists job, job_id, letter. rewrite lookup_insert_eq.
          split; [by left|]. by repeat split.
        + left. by rewrite lookup_insert_ne. }
    assert (Hhigh1 : forall covers : gmap string string,
              (forall path, is_Some (cover_letters d1 !! path) -> is_Some (covers !! path)) ->
              forall path,
                written_for (highlights_path P path_str) (job :: later)
                  (fun job_id => is_Some (covers !! cover_letter_path P path_str job_id))
                  (resume_highlights d) (resume_highlights d1) path).
    { intros covers Hgrow path.
      destruct Hfiles
        as [(_ & Hh1 & _)|(job_id & letter & Hid & Hstrip & Hc1
                           & [(Hh1 & _)|(text & Hstrip' & Hh1 & _)])].
      - left. by rewrite Hh1.
      - left. by rewrite Hh1.
      - rewrite Hh1.
        destruct (decide (highlights_path P path_str job_id = path)) as [<-|Hne].
        + right. exists job, job_id, text. rewrite lookup_insert_eq.
          split; [by left|]. do 4 (split; [done|]).
          apply Hgrow. rewrite Hc1, lookup_insert_eq. by eexists.
        + left. by rewrite lookup_insert_ne. }
    assert (Hstop : forall e,
              (r, d') = (Raise e, d1) ->
              jobs_dir (world d') = jobs_dir (world d)
              /\ resume_cache (world d') = resume_cache (world d)
              /\ llm_calls (world d') = llm_calls (world d)
              /\ (exists prompts,
                    creative_calls d' = (creative_calls d ++ prompts)%list
                    /\ (length prompts <= 2 * length (job :: later))%nat)
              /\ (forall path,
                    written_for (cover_letter_path P path_str) (job :: later) (fun _ => True)
                      (cover_letters d) (cover_letters d') path)
              /\ (forall path,
                    written_for (highlights_path P path_str) (job :: later)
                      (fun job_id =>
                         is_Some (cover_letters d' !! cover_letter_path P path_str job_id))
                      (resume_highlights d) (resume_highlights d') path)).
    { intros e [= -> ->]. split; [exact Hj1|]. split; [exact Hr1|]. split; [exact Hl1|].
      split; [exists p1; split; [exact Hp1 | cbn [length]; lia]|].
      split; [exact Hcover1 | by apply Hhigh1]. }
    assert (Hrest : (exists e, (r, d') = (Raise e, d1)
                               /\ forall record, job <> VDict record)
                    \/ exists d2,
                         materials_loop P invoke make_dir open_text path_str resume_data
                           later d2 = (r, d')
                         /\ jobs_dir (world d2) = jobs_dir (world d1)
                         /\ resume_cache (world d2) = resume_cache (world d1)
                         /\ llm_calls (world d2) = llm_calls (world d1)
                         /\ cover_letters d2 = cover_letters d1
                         /\ resume_highlights d2 = resume_highlights d1
                         /\ creative_calls d2 = creative_calls d1).
    { destruct outcome as [[]|e]; [right; by exists d1|].
      rewrite gbind_glift in Hrun.
      destruct (PyAny.get job "id" (VStr "Unknown")) as [job_id|e'] eqn:Hid.
      - right. unfold gbind at 1 in Hrun. rewrite on_world_print in Hrun.
        eexists. split; [exact Hrun|]. by repeat split.
      - left. exists e'. split; [by rewrite Hrun|].
        intros record ->. discriminate Hid. }
    destruct Hrest as [(e & Hraised & Hother)|(d2 & Hrest & Hj2 & Hr2 & Hl2 & Hc2 & Hh2 & Hp2)].
    { destruct (Hstop e Hraised) as (Hj & Hr & Hl & Hcalls & Hcover & Hhigh).
      repeat (split; [done|]). intros Hall. apply Forall_cons in Hall as [[record ->] _].
      by destruct (Hother record). }
    destruct (IH _ _ _ Hrest) as (Hj & Hr & Hl & (p & Hp & Hn) & Hcover & Hhigh & Hok).
    assert (Hgrow : forall path,
              is_Some (cover_letters d1 !! path) -> is_Some (cover_letters d' !! path)).
    { intros path Hthere.
      destruct (Hcover path) as [Hsame|(_ & _ & text & _ & _ & _ & Hnow & _)].
      - by rewrite Hsame, Hc2.
      - rewrite Hnow. by eexists. }
    split; [congruence|]. split; [congruence|]. split; [congruence|].
    split; [|split; [|split]].
    + exists (p1 ++ p)%list. split; [by rewrite Hp, Hp2, Hp1, <- app_assoc|].
      rewrite length_app. cbn [length]. lia.
    + intros path.
      destruct (Hcover path) as [Hsame|(job' & id' & text & Hin & Hmore)].
      * destruct (Hcover1 path) as [Hsame1|(job' & id' & text & Hin & Hid' & Hpath & Hthere & Hmore)].
        -- left. by rewrite Hsame, Hc2.
        -- right. exists job', id', text. rewrite Hsame, Hc2.
           exact (conj Hin (conj Hid' (conj Hpath (conj Hthere Hmore)))).
      * right. exists job', id', text. split; [by right | exact Hmore].
    + intros path.
      destruct (Hhigh path) as [Hsame|(job' & id' & text & Hin & Hmore)].
      * destruct (Hhigh1 (cover_letters d') Hgrow path)
          as [Hsame1|(job' & id' & text & Hin & Hid' & Hpath & Hthere & Hmore)].
        -- left. by rewrite Hsame, Hh2.
        -- right. exists job', id', text. rewrite Hsame, Hh2.
           exact (conj Hin (conj Hid' (conj Hpath (conj Hthere Hmore)))).
      * right. exists job', id', text. split; [by right | exact Hmore].
    + intros Hall. apply Forall_cons in Hall as [_ Hall]. by apply Hok.
Qed.

Lemma written_for_mono path_of (jobs jobs' : list value) (also also' : value -> Prop)
    before after path :
  (forall job, In job jobs -> In job jobs') ->
  (forall job_id, also job_id -> also' job_id) ->
  written_for path_of jobs also before after path ->
  written_for path_of jobs' also' before after path.
Proof.
  intros Hjobs Halso [Hsame|(job & job_id & text & Hin & Hid & Hpath & Hthere & Hstrip & Hmore)].
  - by left.
  - right. exists job, job_id, text. split; [by apply Hjobs|].
    do 4 (split; [done|]). by apply Halso.
Qed.

Lemma selected_jobs_effect T stray_file job_id w r w' :
  selected_jobs T stray_file job_id w = (r, w') ->
  jobs_dir w' = jobs_dir w
  /\ resume_cache w' = resume_cache w
  /\ llm_calls w' = llm_calls w
  /\ forall jobs, r = Ok (Some jobs) ->
       w' = w
       /\ (match job_id with
           | Some name => name = "" \/ plain_name name = true
           | None => True
           end -> Forall (stored_record w) jobs).
Proof.
  assert (Hhigh : forall min_score r w',
            (jobs <- get_high_scoring_jobs min_score ;; ret (Some (map VDict jobs))) w
            = (r, w') ->
            jobs_dir w' = jobs_dir w
            /\ resume_cache w' = resume_cache w
            /\ llm_calls w' = llm_calls w
            /\ forall jobs, r = Ok (Some jobs) -> w' = w /\ Forall (stored_record w) jobs).
  { intros min_score r0 w0. unfold bind, get_high_scoring_jobs, bind, get_all_jobs, lift, ret.
    fold (records w).
    destruct (scoring_at_least min_score (records w)) as [kept|e] eqn:Hkept;
      intros [= <- <-]; repeat split; try discriminate.
    injection H as <-. apply Forall_forall. intros job Hin.
    apply list_elem_of_In, in_map_iff in Hin as (record & <- & Hin).
    exists record. split; [reflexivity|].
    by destruct (scoring_at_least_kept _ _ _ Hkept record Hin). }
  unfold selected_jobs. destruct job_id as [job_id|].
  2:{ intros Hrun. destruct (Hhigh _ _ _ Hrun) as (Hj & Hr & Hl & Hjobs).
      repeat (split; [done|]). intros jobs Hsome. destruct (Hjobs jobs Hsome). by split. }
  destruct (String.eqb_spec job_id "") as [->|Hne]; cbn [negb].
  { intros Hrun. destruct (Hhigh _ _ _ Hrun) as (Hj & Hr & Hl & Hjobs).
    repeat (split; [done|]). intros jobs Hsome. destruct (Hjobs jobs Hsome). by split. }
  unfold bind at 1, get_job.
  destruct (plain_name job_id) eqn:Hplain.
  - destruct (jobs_dir w !! job_id) as [job|] eqn:Hjob; cbn [option_map].
    + destruct (Py.truthy (VDict job)).
      * unfold ret. intros [= <- <-]. repeat split.
        injection H as <-. intros _. constructor; [|constructor].
        exists job. split; [reflexivity|]. unfold records. apply in_map_iff.
        exists (job_id, job). split; [reflexivity|].
        by apply list_elem_of_In, elem_of_map_to_list.
      * unfold bind. rewrite print_run_eq. unfold ret. intros [= <- <-].
        repeat split; discriminate.
    + unfold bind. rewrite print_run_eq. unfold ret. intros [= <- <-].
      repeat split; discriminate.
  - destruct (stray_file w job_id) as [[job|]|e].
    + destruct (Py.truthy job).
      * unfold ret. intros [= <- <-]. repeat split.
        intros [Hempty|Hno]; [done | discriminate Hno].
      * unfold bind. rewrite print_run_eq. unfold ret. intros [= <- <-].
        repeat split; discriminate.
    + unfold bind. rewrite print_run_eq. unfold ret. intros [= <- <-].
      repeat split; discriminate.
    + intros [= <- <-]. repeat split; discriminate.
Qed.

(** With an identifier that is no plain name, the job is what the file
    that the identifier leads to holds. *)
Lemma jobs_selected_astray T stray_file name w job :
  name <> "" -> plain_name name = false ->
  In job (jobs_selected T stray_file (Some name) w) ->
  stray_file w name = Ok (Some job) /\ Py.truthy job = true.
Proof.
  intros Hname Hplain. apply String.eqb_neq in Hname.
  unfold jobs_selected, selected_jobs. rewrite Hname. cbn [negb].
  unfold bind at 1, get_job. rewrite Hplain.
  destruct (stray_file w name) as [[found|]|e]; cbn [fst].
  - destruct (Py.truthy found) eqn:Htruthy.
    + unfold ret. cbn [fst]. intros [<-|[]]. by split.
    + unfold bind. rewrite print_run_eq. unfold ret. cbn [fst]. intros [].
  - unfold bind. rewrite print_run_eq. unfold ret. cbn [fst]. intros [].
  - intros [].
Qed.


Lemma materials_loop_total P invoke make_dir open_text path_str resume_data
    (jobs : list Dict) d :
  exists d',
    materials_loop P invoke make_dir open_text path_str resume_data (map VDict jobs) d
    = (Ok tt, d')
    /\ exists prompts,
         creative_calls d' = (creative_calls d ++ prompts)%list
         /\ (length prompts <= 2 * length jobs)%nat.
Proof.
  destruct (materials_loop P invoke make_dir open_text path_str resume_data
              (map VDict jobs) d) as [r d'] eqn:Hrun.
  apply materials_loop_effect in Hrun as (_ & _ & _ & Hcalls & _ & _ & Hok).
  rewrite length_map in Hcalls. exists d'. split; [|exact Hcalls].
  rewrite Hok; [reflexivity|]. apply Forall_forall. intros job Hin.
  apply list_elem_of_In, in_map_iff in Hin as (record & <- & _). by exists record.
Qed.




(** The letter is written without the white space around the answer of
    the model, under the identifier of the record. *)
Example cover_letter_of_a_posting :
  cover_letters
    (snd (generate_materials (Samples.answering "" [] []) Cases.thresholds
            (Letters.writing "  Dear Hiring Manager  ") Letters.granted Letters.granted
            Letters.posix_path Letters.nothing_astray (Some "0c0000000002")
            (Letters.desk_of Letters.two_postings)))
  = {["cover_letters/0c0000000002_cover_letter.txt" := "Dear Hiring Manager"]}.
Proof. vm_compute. exact eq_refl. Qed.

(** With the identifier [../resume_cache] the cached resume is taken for
    a job: the creative model is asked for a letter, and the job fails for
    want of an identifier. *)
Example resume_taken_for_a_job :
  let d' := snd (generate_materials (Samples.answering "" [] []) Cases.thresholds
                   (Letters.writing "Dear Hiring Manager") Letters.granted Letters.granted
                   Letters.posix_path Letters.cache_astray (Some "../resume_cache")
                   (Letters.desk_of Letters.two_postings)) in
  (length (creative_calls d'), cover_letters d', console (world d'))
  = (1%nat, ∅,
     ["📝 Generating materials for 1 jobs...";
      "❌ Error generating materials for job Unknown: 'id'";
      PyStr.nl +:+ "✨ Generated materials for 1 jobs"]).
Proof. vm_compute. exact eq_refl. Qed.



(** With a creative model that is out of reach nothing is written, and
    the closing line still counts the two records. *)
Example nothing_written_and_two_reported :
  let d' := snd (generate_materials (Samples.answering "" [] []) Cases.thresholds
                   Letters.silent Letters.granted Letters.granted Letters.posix_path
                   Letters.nothing_astray None
                   (Letters.desk_of Letters.two_postings)) in
  (cover_letters d', resume_highlights d', console (world d'))
  = (∅, ∅,
     ["📝 Generating materials for 2 jobs...";
      "❌ Error generating materials for job 0c0000000001: connection refused";
      "❌ Error generating materials for job 0c0000000002: connection refused";
      PyStr.nl +:+ "✨ Generated materials for 2 jobs"]).
Proof. vm_compute. exact eq_refl. Qed.

(** ** The listing and the report *)

(** The lines printed are those of the source: on the sample inputs they
    have the MD5 digest of the lines that the source prints. *)
Example print_listing_digest :
  MD5.hexdigest
    (Listings.transcript
       (snd (print_listing (Samples.answering "" [] [])
               [Listings.scored_posting; Listings.bare_posting] Samples.fresh)))
  = "cf4214c2797eb41380a6800663cf652f".
Proof. vm_compute. reflexivity. Qed.

Example print_research_digest :
  MD5.hexdigest
    (Listings.transcript
       (snd ((print "🔍 Researching Acme..." ;;;
              print_research (Samples.answering "" [] []) "Acme" Listings.acme_profile)
               Samples.fresh)))
  = "7b5f66cde7e4e4f57c2a1644175ea405".
Proof. vm_compute. reflexivity. Qed.

Lemma print_then {A} line (k : M A) w : (print line ;;; k) w = k (snd (print line w)).
Proof. reflexivity. Qed.

Lemma only_prints_refl w : only_prints w w.
Proof. repeat split. exists []. by rewrite app_nil_r. Qed.

Lemma only_prints_print line w w1 :
  only_prints w w1 -> only_prints w (snd (print line w1)).
Proof.
  intros (Hj & Hr & Hl & Hm & lines & Hc). repeat split; try done.
  exists (lines ++ [line])%list. simpl. by rewrite Hc, <- app_assoc.
Qed.

Lemma only_prints_trans w w1 w2 :
  only_prints w w1 -> only_prints w1 w2 -> only_prints w w2.
Proof.
  intros (Hj & Hr & Hl & Hm & lines & Hc) (Hj' & Hr' & Hl' & Hm' & lines' & Hc').
  split; [congruence|]. split; [congruence|]. split; [congruence|]. split; [congruence|].
  exists (lines ++ lines')%list. by rewrite Hc', Hc, <- app_assoc.
Qed.

Lemma print_reasoning_run P (job : Dict) w :
  let run :=
    (if Py.has_key job "scoring" then
       scoring <- lift (item job "scoring") ;;
       reasoning <- lift (PyAny.get scoring "reasoning" (VStr "N/A")) ;;
       reasoning <- lift (Py.slice_to 100 reasoning) ;;
       print ("Reasoning: " +:+ fmt P reasoning +:+ "...")
     else ret tt) w in
  only_prints w (snd run) /\ (fst run = Ok tt <-> listable job).
Proof.
  cbv zeta. unfold listable, Py.has_key, bind, lift, item.
  destruct (job !! "scoring") as [scoring|]; [|split; [apply only_prints_refl | done]].
  destruct scoring as [|b|n|f|s|l|scoring];
    try (cbn [PyAny.get PyAny.attribute_error fst snd];
         split; [apply only_prints_refl|]; by split).
  cbn [PyAny.get].
  destruct (Py.get scoring "reasoning" (VStr "N/A")) as [|b|n|f|s|l|d];
    cbn [Py.slice_to type_error sliceable fst snd];
    try (split; [apply only_prints_refl|]; by split).
  - split; [apply only_prints_print, only_prints_refl | done].
  - split; [apply only_prints_print, only_prints_refl | done].
Qed.

Lemma bind_run {A B} (c : M A) (k : A -> M B) w r w1 :
  c w = (r, w1) ->
  bind c k w
  = match r with
    | Ok a => k a w1
    | Raise e => (Raise e, w1)
    end.
Proof. unfold bind. by intros ->. Qed.

Lemma print_job_run P job w :
  only_prints w (snd (print_job P job w))
  /\ (fst (print_job P job w) = Ok tt <-> listable job).
Proof.
  unfold print_job. cbv zeta. rewrite !print_then.
  match goal with |- context [bind _ _ ?w0] =>
    set (w4 := w0);
    assert (H4 : only_prints w w4)
      by (repeat apply only_prints_print; apply only_prints_refl) end.
  clearbody w4.
  destruct (print_reasoning_run P job w4) as [Hprints Hok]. cbv zeta in Hprints, Hok.
  match type of Hok with fst ?run = _ <-> _ =>
    destruct run as [outcome w5] eqn:Hrun end.
  cbn [fst snd] in Hprints, Hok.
  rewrite (bind_run _ _ _ _ _ Hrun).
  destruct outcome as [[]|e].
  - rewrite !print_then. cbn [fst snd]. split; [|rewrite <- Hok; by split].
    eapply only_prints_trans; [exact H4|]. eapply only_prints_trans; [exact Hprints|].
    repeat apply only_prints_print. apply only_prints_refl.
  - cbn [fst snd]. split; [by eapply only_prints_trans|]. by rewrite <- Hok.
Qed.

Lemma print_jobs_run P jobs :
  forall w,
    only_prints w (snd (print_jobs P jobs w))
    /\ (fst (print_jobs P jobs w) = Ok tt <-> Forall listable jobs).
Proof.
  induction jobs as [|job later IH]; intros w.
  - split; [apply only_prints_refl|]. split; [by constructor | reflexivity].
  - cbn [print_jobs]. unfold bind.
    destruct (print_job_run P job w) as [Hprints Hok].
    destruct (print_job P job w) as [[[]|e] w1]; cbn [fst snd] in *.
    + destruct (IH w1) as [Hprints' Hok']. split; [by eapply only_prints_trans|].
      rewrite Hok'. split.
      * intros Hlater. constructor; [by apply Hok | exact Hlater].
      * intros Hall. by apply Forall_cons in Hall as [_ Hlater].
    + split; [exact Hprints|]. split; [discriminate|].
      intros Hall. apply Forall_cons in Hall as [Hjob _].
      apply Hok in Hjob. discriminate Hjob.
Qed.

Lemma print_listing_run P jobs w :
  only_prints w (snd (print_listing P jobs w))
  /\ (fst (print_listing P jobs w) = Ok tt <-> Forall listable jobs).
Proof.
  unfold print_listing. destruct jobs as [|first others] eqn:Hlist.
  - split; [apply only_prints_print, only_prints_refl|]. split; [by constructor | reflexivity].
  - rewrite <- Hlist. rewrite !print_then.
    match goal with |- context [print_jobs P jobs ?w0] =>
      destruct (print_jobs_run P jobs w0) as [Hprints Hok];
      assert (H0 : only_prints w w0)
        by (repeat apply only_prints_print; apply only_prints_refl) end.
    split; [by eapply only_prints_trans | exact Hok].
Qed.

(** X23 (main.py, review_jobs).  [review_jobs] does nothing but print.
    It returns without an exception exactly when its selection does and
    every record selected can be listed: the record has no [scoring], or
    its [scoring] is a dictionary whose [reasoning] is a text or a list.
    Without a minimum score this is the case exactly when every record of
    the directory can be listed. *)
Theorem review_jobs_command_outcome P min_score w :
  only_prints w (snd (review_jobs_command P min_score w))
  /\ (fst (review_jobs_command P min_score w) = Ok tt
      <-> exists jobs, fst (review_jobs min_score w) = Ok jobs /\ Forall listable jobs)
  /\ (fst (review_jobs_command P None w) = Ok tt <-> Forall listable (records w)).
Proof.
  assert (Hselect : forall min_score, exists r, review_jobs min_score w = (r, w)).
  { intros [min|]; unfold review_jobs, bind, get_all_jobs, lift, ret.
    - destruct (scoring_at_least min _); by eexists.
    - by eexists. }
  assert (Hcommand : forall min_score,
            only_prints w (snd (review_jobs_command P min_score w))
            /\ (fst (review_jobs_command P min_score w) = Ok tt
                <-> exists jobs,
                      fst (review_jobs min_score w) = Ok jobs /\ Forall listable jobs)).
  { intros min. unfold review_jobs_command, bind.
    destruct (Hselect min) as [[jobs|e] ->]; cbn [fst snd].
    - destruct (print_listing_run P jobs w) as [Hprints Hok].
      split; [exact Hprints|]. rewrite Hok. split.
      + intros Hall. by exists jobs.
      + by intros (jobs' & [= <-] & Hall).
    - split; [apply only_prints_refl|]. split; [discriminate|].
      by intros (jobs & Hno & _). }
  split; [apply Hcommand|]. split; [apply Hcommand|].
  destruct (Hcommand None) as [_ ->]. split.
  - by intros (jobs & [= <-] & Hall).
  - intros Hall. by exists (records w).
Qed.

(** A record that holds a number as the reasoning of its scoring stops
    the listing. *)
Example listing_stops_at_a_number :
  fst (print_listing (Samples.answering "" [] [])
         [Listings.bare_posting; Listings.oddly_scored_posting; Listings.scored_posting]
         Samples.fresh)
  = Raise (Exn TypeError "object is not subscriptable").
Proof. vm_compute. exact eq_refl. Qed.

Lemma bind_lift {A B} (r : result A) (k : A -> M B) w :
  bind (lift r) k w
  = match r with
    | Ok a => k a w
    | Raise e => (Raise e, w)
    end.
Proof. by destruct r. Qed.

Lemma strings_of_texts texts : Py.strings_of (map VStr texts) = Ok texts.
Proof. induction texts as [|text later IH]; [reflexivity|]. simpl. by rewrite IH. Qed.

Lemma print_news_run P recent_news :
  forall w,
    fst (print_news P recent_news w) = Ok tt
    /\ only_prints w (snd (print_news P recent_news w)).
Proof.
  induction recent_news as [|news later IH]; intros w.
  - split; [reflexivity | apply only_prints_refl].
  - cbn [print_news]. rewrite print_then.
    destruct (IH (snd (print ("  - " +:+ fmt P news) w))) as [Hok Hprints].
    split; [exact Hok|].
    eapply only_prints_trans; [|exact Hprints]. apply only_prints_print, only_prints_refl.
Qed.

Lemma print_research_run P company_name (research : Dict) urls w :
  Py.get research "sources" (VList []) = VList (map VStr urls) ->
  only_prints w (snd (print_research P company_name research w))
  /\ (fst (print_research P company_name research w) = Ok tt
      <-> succeeds (Py.join ", " (Py.get research "tech_stack" (VList [])))
          /\ succeeds (Py.join ", " (Py.get research "values" (VList [])))
          /\ succeeds (PyAny.iterate (Py.get research "recent_news" (VList [])))).
Proof.
  intros Hsources. unfold print_research. rewrite !print_then.
  match goal with |- context [bind _ _ ?w0] =>
    set (w4 := w0);
    assert (H4 : only_prints w w4)
      by (repeat apply only_prints_print; apply only_prints_refl) end.
  clearbody w4. rewrite !bind_lift.
  destruct (Py.join ", " (Py.get research "tech_stack" (VList []))) as [tech_stack|e].
  2:{ cbn [fst snd]. split; [exact H4|]. split; [discriminate|].
      by intros [[t Hno] _]. }
  rewrite !print_then, !bind_lift.
  destruct (Py.join ", " (Py.get research "values" (VList []))) as [values|e].
  2:{ cbn [fst snd]. split; [by repeat apply only_prints_print|]. split; [discriminate|].
      by intros (_ & [v Hno] & _). }
  rewrite !print_then, !bind_lift.
  match goal with |- context [match _ with Ok _ => _ | Raise _ => _ end] =>
    idtac end.
  destruct (PyAny.iterate (Py.get research "recent_news" (VList []))) as [recent_news|e].
  2:{ cbn [fst snd]. split; [by repeat apply only_prints_print|]. split; [discriminate|].
      by intros (_ & _ & [n Hno]). }
  match goal with |- context [bind (print_news P recent_news) _ ?w0] =>
    set (w9 := w0);
    assert (H9 : only_prints w w9) by (by repeat apply only_prints_print);
    clearbody w9;
    destruct (print_news_run P recent_news w9) as [Hok Hprints];
    destruct (print_news P recent_news w9) as [outcome w10] eqn:Hnews end.
  cbn [fst snd] in Hok, Hprints. subst outcome.
  rewrite !(bind_run _ _ _ _ _ Hnews), !bind_lift, Hsources.
  cbn [Py.join]. rewrite strings_of_texts. cbn [result_bind fst snd].
  split.
  - eapply only_prints_trans; [exact H9|]. eapply only_prints_trans; [exact Hprints|].
    apply only_prints_print, only_prints_refl.
  - split; [|reflexivity]. intros _. repeat split; by eexists.
Qed.

Lemma research_company_report P company_name max_urls w :
  exists research w',
    research_company_n P company_name max_urls w = (Ok research, w')
    /\ jobs_dir w' = jobs_dir w
    /\ (exists urls, Py.get research "sources" (VList []) = VList (map VStr urls))
    /\ (research = no_information company_name \/ Py.has_key research "error" = true ->
        Py.get research "tech_stack" (VList []) = VList []
        /\ Py.get research "values" (VList []) = VList []
        /\ Py.get research "recent_news" (VList []) = VList []).
Proof.
  unfold research_company_n, bind at 1.
  destruct (_search_company_total P company_name max_urls w)
    as (hits & w1 & -> & _ & Hjobs1).
  unfold bind at 1.
  destruct (fetch_results_total P (firstn max_urls hits) [] w1)
    as (pages & w2 & -> & _ & Hjobs2).
  destruct pages as [|page others].
  - exists (no_information company_name), w2.
    destruct (no_information_lookup company_name)
      as (_ & _ & Ht & Hv & Hn & _ & _ & _ & _ & Hs).
    split; [reflexivity|]. split; [congruence|]. unfold Py.get.
    rewrite Ht, Hv, Hn, Hs. split; [by exists [] | done].
  - cbv iota. set (pages := page :: others) in *. unfold bind.
    match goal with |- context [parse_structured P ?prompt w2] =>
      destruct (parse_structured_only_calls P prompt w2) as (answer & w3 & -> & Hcalls) end.
    apply only_calls_keeps in Hcalls as (Hjobs3 & _).
    destruct (Py.has_key answer "error") eqn:Herror; eexists _, _;
      (split; [reflexivity|]); (split; [simpl; congruence|]).
    + unfold Py.get, research_failed, dict_of. rewrite !list_to_map_cons.
      simplify_map_eq. split; [|done]. rewrite sources_of_urls. by eexists.
    + assert (Hsources : research_defaults company_name pages answer !! "sources"
                         = Some (sources_of pages))
        by (unfold research_defaults; apply lookup_insert_eq).
      split.
      * unfold Py.get. rewrite Hsources, sources_of_urls. by eexists.
      * intros [Hnone|Hfailed].
        -- destruct (no_information_lookup company_name)
             as (_ & _ & _ & _ & _ & _ & _ & _ & _ & Hs).
           cbv zeta in Hs. rewrite <- Hnone, Hsources in Hs. discriminate Hs.
        -- revert Hfailed. unfold Py.has_key, research_defaults.
           rewrite lookup_insert_ne by done. rewrite !setdefault_other by done.
           unfold Py.has_key in Herror. destruct (answer !! "error"); done.
Qed.

(** X24 (main.py, research_company).  The research of the command never
    raises, and the command leaves the records as they are.  It returns
    without an exception exactly when the tech_stack and the values of the
    profile can be joined and its recent_news can be iterated; the sources
    never stand in the way, and neither does a research that found no page
    or whose answer could not be parsed. *)
Theorem research_company_command_outcome P company_name w :
  exists research w1,
    research_company P company_name
      (snd (print ("🔍 Researching " +:+ company_name +:+ "...") w)) = (Ok research, w1)
    /\ jobs_dir (snd (research_company_command P company_name w)) = jobs_dir w
    /\ (fst (research_company_command P company_name w) = Ok tt
        <-> succeeds (Py.join ", " (Py.get research "tech_stack" (VList [])))
            /\ succeeds (Py.join ", " (Py.get research "values" (VList [])))
            /\ succeeds (PyAny.iterate (Py.get research "recent_news" (VList []))))
    /\ (research = no_information company_name \/ Py.has_key research "error" = true ->
        fst (research_company_command P company_name w) = Ok tt).
Proof.
  unfold research_company_command. rewrite print_then.
  set (w0 := snd (print ("🔍 Researching " +:+ company_name +:+ "...") w)).
  destruct (research_company_report P company_name 5 w0)
    as (research & w1 & Hrun & Hjobs & [urls Hsources] & Hfailed).
  exists research, w1. unfold research_company. split; [exact Hrun|].
  rewrite (bind_run _ _ _ _ _ Hrun).
  destruct (print_research_run P company_name research urls w1 Hsources)
    as [(Hjobs' & _) Hok].
  split; [by rewrite Hjobs', Hjobs|]. split; [exact Hok|].
  intros Hcase. apply Hok. destruct (Hfailed Hcase) as (-> & -> & ->).
  repeat split; by eexists.
Qed.
